(** * GitHub Projects V2 automation: [.github/scripts/project_automation.py]

    A shallow embedding of the script and the properties of its
    operations.  The script is a client of a remote collaborator (the
    [gh api] command line and the GitHub API behind it): every operation
    is a sequence of remote calls, console lines and Python exceptions.
    The embedding keeps all three: a computation runs on the state of the
    remote, ends in a value or in a raised exception, and leaves the list
    of the calls it made and the lines it printed. *)

From Stdlib Require Import List String Ascii ZArith Bool Lia DecimalString.
Import ListNotations.
Open Scope string_scope.
Set Warnings "-register-all".

(** ** Python values

    The values [json.loads] builds.  A [VDict] is the dict as a list of
    bindings, a key standing for its first binding.  JSON numbers are the
    integers (the script reads one number, a project's number). *)

Inductive value : Type :=
| VNone
| VBool (b : bool)
| VInt (n : Z)
| VStr (s : string)
| VList (l : list value)
| VDict (d : list (string * value)).

(** [bool(v)], the test of [if v] and [if not v]. *)
Definition truthy (v : value) : bool :=
  match v with
  | VNone => false
  | VBool b => b
  | VInt n => negb (n =? 0)%Z
  | VStr s => negb (s =? "")
  | VList l => match l with [] => false | _ => true end
  | VDict d => match d with [] => false | _ => true end
  end.

Fixpoint assoc (k : string) (d : list (string * value)) : option value :=
  match d with
  | [] => None
  | (k', v) :: d' => if k' =? k then Some v else assoc k d'
  end.

(** ** Exceptions and formatted text

    An f-string is kept as its pieces: the literal text and the values and
    exceptions interpolated in it. *)

Inductive exn : Type :=
| GitHubAPIError (msg : list piece)
| JSONDecodeError
| KeyError (k : value)
| IndexError
| TypeError
| AttributeError
| SystemExit (code : Z)
with piece : Type :=
| Lit (s : string)
| Val (v : value)
| Exn (e : exn).

Inductive outcome (A : Type) : Type :=
| Ok (a : A)
| Raise (e : exn).
Arguments Ok {A} a.
Arguments Raise {A} e.

(** [v[k]] for a string [k]. *)
Definition getitem (v : value) (k : string) : outcome value :=
  match v with
  | VDict d => match assoc k d with
               | Some x => Ok x
               | None => Raise (KeyError (VStr k))
               end
  | _ => Raise TypeError
  end.

(** [v[0]].  A dict of JSON has string keys only, so [0] is a missing
    key; a string gives its first character. *)
Definition getitem0 (v : value) : outcome value :=
  match v with
  | VList l => match l with x :: _ => Ok x | [] => Raise IndexError end
  | VStr s => match s with
              | String c _ => Ok (VStr (String c ""))
              | EmptyString => Raise IndexError
              end
  | VDict _ => Raise (KeyError (VInt 0))
  | _ => Raise TypeError
  end.

(** [v.get(k, default)]: only a dict has the method. *)
Definition get (v : value) (k : string) (default : value) : outcome value :=
  match v with
  | VDict d => match assoc k d with
               | Some x => Ok x
               | None => Ok default
               end
  | _ => Raise AttributeError
  end.

(** [s.split(sep)] for a one-character separator. *)
Fixpoint split_at (sep : ascii) (s : string) (cur : string) : list string :=
  match s with
  | EmptyString => [cur]
  | String c s' =>
      if Ascii.eqb c sep then cur :: split_at sep s' ""
      else split_at sep s' (cur ++ String c "")
  end.

Definition split (sep : ascii) (s : string) : list string := split_at sep s "".

Definition newline : ascii := Ascii.ascii_of_nat 10.

(** ** The remote collaborator

    One request per call site of [_run_gh_api]: the request stands for the
    argument list (endpoint or GraphQL document, [-f] variables and [--jq]
    filter) and carries the values the script interpolates into it, as
    the script has them: what the text of a filter makes of a string put
    between its quotes is the remote's to say. *)

Inductive request : Type :=
| IssueNodeId (repository : string) (issue_number : Z)
    (* repos/{repository}/issues/{issue_number} --jq .node_id *)
| IssueLabels (repository : string) (issue_number : Z) (prefix : string)
    (* ... --jq .labels[].name | select(startswith("{prefix}")) *)
| ProjectsByTitle (org title : string)
    (* organization.projectsV2(first: 100).nodes[] | select(.title == "{title}") *)
| ItemsOfIssue (project_id : value) (issue_id : string)
    (* node.items(first: 100).nodes[] | select(.content.id == "{issue_id}") | .id *)
| AddItem (project_id : value) (content_id : string)
    (* mutation addProjectV2ItemById, --jq .data.addProjectV2ItemById.item.id *)
| IterationFields (project_id : value)
    (* node.fields(first: 20).nodes[] | select(.name == "Iteration" or .name == "Sprint") *)
| SetIteration (project_id : value) (item_id : string) (field_id iteration_id : value)
    (* mutation updateProjectV2ItemFieldValue *)
| ClearIteration (project_id : value) (item_id : string) (field_id : value).
    (* mutation clearProjectV2ItemFieldValue *)

Definition is_mutation (q : request) : bool :=
  match q with
  | AddItem _ _ | SetIteration _ _ _ _ | ClearIteration _ _ _ => true
  | _ => false
  end.

(** What [_run_gh_api] gets back: the standard output of [gh], stripped.
    Where the filter selects whole nodes the output is a sequence of JSON
    documents, kept as the documents; elsewhere it is text. *)
Definition reply (q : request) : Type :=
  match q with
  | ProjectsByTitle _ _ | IterationFields _ => list value
  | _ => string
  end.

(** [gh] exits with zero and an output, or with non-zero and a message on
    its standard error. *)
Inductive answer (A : Type) : Type :=
| Replied (a : A)
| Rejected (stderr : string).
Arguments Replied {A} a.
Arguments Rejected {A} stderr.

(** ** What a run leaves behind *)

Inductive stream : Type := stdout | stderr.

(** The sign a printed line starts with. *)
Inductive glyph : Type :=
| plain
| warning   (* the warning sign *)
| notice    (* the information sign *)
| success   (* the check mark *)
| failure.  (* the cross mark *)

Inductive event : Type :=
| Called (q : request) (ok : bool)
| Printed (f : stream) (g : glyph) (text : list piece).

Definition is_mutation_call (e : event) : bool :=
  match e with
  | Called q _ => is_mutation q
  | Printed _ _ _ => false
  end.

Definition is_warning (e : event) : bool :=
  match e with
  | Printed _ warning _ => true
  | _ => false
  end.

(** A diagnostic is a line on the standard error. *)
Definition is_diagnostic (e : event) : bool :=
  match e with
  | Printed stderr _ _ => true
  | _ => false
  end.

Module GitHubProjectAutomation.

Section Client.

(** The state of the remote and the way it answers a request. *)
Variable remote : Type.
Variable gh : forall q : request, remote -> answer (reply q) * remote.

(** A computation of the script. *)
Definition M (A : Type) : Type := remote -> outcome A * remote * list event.

Definition ret {A} (a : A) : M A := fun r => (Ok a, r, []).

Definition bind {A B} (m : M A) (k : A -> M B) : M B := fun r =>
  match m r with
  | (Ok a, r1, t1) => let '(o, r2, t2) := k a r1 in (o, r2, (t1 ++ t2)%list)
  | (Raise e, r1, t1) => (Raise e, r1, t1)
  end.

Definition raise {A} (e : exn) : M A := fun r => (Raise e, r, []).

(** [try: m except ...: h]: [h e] is the handler of the clause that
    catches [e], or [None] where no clause does. *)
Definition try {A} (m : M A) (h : exn -> option (M A)) : M A := fun r =>
  match m r with
  | (Ok a, r1, t1) => (Ok a, r1, t1)
  | (Raise e, r1, t1) =>
      match h e with
      | Some k => let '(o, r2, t2) := k r1 in (o, r2, (t1 ++ t2)%list)
      | None => (Raise e, r1, t1)
      end
  end.

Definition lift {A} (o : outcome A) : M A := fun r => (o, r, []).

Definition print (f : stream) (g : glyph) (text : list piece) : M unit :=
  fun r => (Ok tt, r, [Printed f g text]).

Definition sys_exit {A} (code : Z) : M A := raise (SystemExit code).

Notation "x <- m ;; k" := (bind m (fun x => k))
  (at level 61, m at next level, right associativity).
Notation "m ;; k" := (bind m (fun _ => k))
  (at level 61, right associativity).

Definition _run_gh_api (q : request) : M (reply q) := fun r =>
  match gh q r with
  | (Replied a, r1) => (Ok a, r1, [Called q true])
  | (Rejected error_msg, r1) =>
      (Raise (GitHubAPIError [Lit "API call failed: "; Lit error_msg]), r1,
       [Called q false])
  end.

Definition get_issue_id (repository : string) (issue_number : Z) : M string :=
  try (_run_gh_api (IssueNodeId repository issue_number))
      (fun e => match e with
                | GitHubAPIError _ =>
                    Some (raise (GitHubAPIError [Lit "Failed to get issue ID: "; Exn e]))
                | _ => None
                end).

Definition get_labels_by_prefix (repository : string) (issue_number : Z)
    (prefix : string) : M (list string) :=
  try (result <- _run_gh_api (IssueLabels repository issue_number prefix) ;;
       ret (filter (fun label => negb (label =? "")) (split newline result)))
      (fun e => match e with
                | GitHubAPIError _ =>
                    Some (raise (GitHubAPIError [Lit "Failed to get labels: "; Exn e]))
                | _ => None
                end).

(** [json.loads(result)]: one document is what the text must hold, a
    second one is extra data.  [not result] is the test for no document. *)
Definition json_loads (result : list value) : M value :=
  match result with
  | [doc] => ret doc
  | _ => raise JSONDecodeError
  end.

Definition no_output (result : list value) : bool :=
  match result with [] => true | _ => false end.

Definition get_project_by_title (org title : string) : M value :=
  try (result <- _run_gh_api (ProjectsByTitle org title) ;;
       if no_output result then ret VNone
       else json_loads result)
      (fun e => match e with
                | GitHubAPIError _ | JSONDecodeError =>
                    Some (raise (GitHubAPIError
                                   [Lit "Failed to get project by title: "; Exn e]))
                | _ => None
                end).

Definition is_issue_in_project (project_id : value) (issue_id : string)
    : M (option string) :=
  try (result <- _run_gh_api (ItemsOfIssue project_id issue_id) ;;
       ret (if result =? "" then None else Some result))
      (fun e => match e with
                | GitHubAPIError _ =>
                    Some (raise (GitHubAPIError
                                   [Lit "Failed to check if issue in project: "; Exn e]))
                | _ => None
                end).

Definition add_issue_to_project (project_id : value) (issue_id : string)
    : M string :=
  try (_run_gh_api (AddItem project_id issue_id))
      (fun e => match e with
                | GitHubAPIError _ =>
                    Some (raise (GitHubAPIError
                                   [Lit "Failed to add issue to project: "; Exn e]))
                | _ => None
                end).

(** [if item_id] on an optional string. *)
Definition found (item_id : option string) : bool :=
  match item_id with
  | Some s => negb (s =? "")
  | None => false
  end.

(** The string of an optional string that passed the test. *)
Definition text (item_id : option string) : string :=
  match item_id with
  | Some s => s
  | None => ""
  end.

Definition ensure_issue_in_project (project_id : value) (issue_id : string)
    : M string :=
  item_id <- is_issue_in_project project_id issue_id ;;
  if found item_id then ret (text item_id)
  else add_issue_to_project project_id issue_id.

Definition get_iteration_field (project_id : value) : M value :=
  try (result <- _run_gh_api (IterationFields project_id) ;;
       if no_output result then ret VNone
       else json_loads result)
      (fun e => match e with
                | GitHubAPIError _ | JSONDecodeError =>
                    Some (raise (GitHubAPIError
                                   [Lit "Failed to get iteration field: "; Exn e]))
                | _ => None
                end).

Definition set_iteration_to_current (project_id : value) (item_id : string)
    : M bool :=
  try (field_data <- get_iteration_field project_id ;;
       if negb (truthy field_data) then
         print stderr warning [Lit "No Iteration field found"] ;;
         ret false
       else
         field_id <- lift (getitem field_data "id") ;;
         configuration <- lift (get field_data "configuration" (VDict [])) ;;
         iterations <- lift (get configuration "iterations" (VList [])) ;;
         if negb (truthy iterations) then
           print stderr warning [Lit "No current iteration found"] ;;
           ret false
         else
           first <- lift (getitem0 iterations) ;;
           current_iteration_id <- lift (getitem first "id") ;;
           _run_gh_api (SetIteration project_id item_id field_id
                                     current_iteration_id) ;;
           ret true)
      (fun e => match e with
                | GitHubAPIError _ | KeyError _ =>
                    Some (print stderr warning
                                [Lit "Failed to set iteration: "; Exn e] ;;
                          ret false)
                | _ => None
                end).

Definition clear_iteration (project_id : value) (item_id : string) : M bool :=
  try (field_data <- get_iteration_field project_id ;;
       if negb (truthy field_data) then
         print stderr warning [Lit "No Sprint/Iteration field found"] ;;
         ret false
       else
         field_id <- lift (getitem field_data "id") ;;
         _run_gh_api (ClearIteration project_id item_id field_id) ;;
         ret true)
      (fun e => match e with
                | GitHubAPIError _ | KeyError _ =>
                    Some (print stderr warning
                                [Lit "Failed to clear iteration: "; Exn e] ;;
                          ret false)
                | _ => None
                end).

(** [for x in xs: body], the loop carrying the variables [body] updates;
    [continue] is the body returning early. *)
Fixpoint for_each {A S : Type} (xs : list A) (body : A -> S -> M S) (s : S)
    : M S :=
  match xs with
  | [] => ret s
  | x :: xs' => s' <- body x s ;; for_each xs' body s'
  end.

(** The body of the loop of [process_sprint_for_build_labels], from
    [success_count] before the label to [success_count] after it. *)
Definition process_build_label (org action issue_id build_label : string)
    (success_count : Z) : M Z :=
  print stdout plain
        [Lit "Processing "; Lit action; Lit " for build: "; Lit build_label] ;;
  project_data <- get_project_by_title org build_label ;;
  if negb (truthy project_data) then
    print stdout warning
          [Lit "No project found for build '"; Lit build_label; Lit "' - skipping"] ;;
    print stdout plain [] ;;
    ret success_count
  else
    project_id <- lift (getitem project_data "id") ;;
    project_number <- lift (getitem project_data "number") ;;
    print stdout plain
          [Lit "Found project #"; Val project_number; Lit ": "; Lit build_label] ;;
    if action =? "add" then
      item_id <- ensure_issue_in_project project_id issue_id ;;
      if item_id =? "" then
        print stdout failure
              [Lit "Failed to add issue to project #"; Val project_number] ;;
        print stdout plain [] ;;
        ret success_count
      else
        print stdout success
              [Lit "Issue in project (item: "; Lit item_id; Lit ")"] ;;
        updated <- set_iteration_to_current project_id item_id ;;
        success_count <-
          (if (updated : bool) then
             print stdout success
                   [Lit "Set iteration to @current in project #"; Val project_number] ;;
             ret (success_count + 1)%Z
           else
             print stdout failure
                   [Lit "Failed to set iteration in project #"; Val project_number] ;;
             ret success_count) ;;
        print stdout plain [] ;;
        ret success_count
    else
      item_id <- is_issue_in_project project_id issue_id ;;
      if negb (found item_id) then
        print stdout notice
              [Lit "Issue not in project #"; Val project_number;
               Lit " - nothing to clear"] ;;
        print stdout plain [] ;;
        ret success_count
      else
        let item_id := text item_id in
        print stdout success
              [Lit "Issue in project (item: "; Lit item_id; Lit ")"] ;;
        cleared <- clear_iteration project_id item_id ;;
        success_count <-
          (if (cleared : bool) then
             print stdout success
                   [Lit "Cleared sprint in project #"; Val project_number] ;;
             ret (success_count + 1)%Z
           else
             print stdout failure
                   [Lit "Failed to clear sprint in project #"; Val project_number] ;;
             ret success_count) ;;
        print stdout plain [] ;;
        ret success_count.

Definition process_sprint_for_build_labels (repository : string)
    (issue_number : Z) (org action : string) : M Z :=
  let action_verb := if action =? "add" then "Adding to" else "Removing from" in
  print stdout plain
        [Lit action_verb; Lit " sprint for issue #"; Val (VInt issue_number)] ;;
  try (issue_id <- get_issue_id repository issue_number ;;
       print stdout plain [Lit "Issue node ID: "; Lit issue_id] ;;
       build_labels <- get_labels_by_prefix repository issue_number "B" ;;
       match build_labels with
       | [] =>
           (if action =? "add" then
              print stdout warning [Lit "No build label found on issue"] ;;
              print stdout notice
                    [Lit "Please add a build label (e.g., B16, B17) before adding sprint-backlog"]
            else
              print stdout notice
                    [Lit "No build labels found on issue - nothing to clear"]) ;;
           ret 0%Z
       | _ =>
           print stdout plain
                 [Lit "Found build labels: "; Lit (String.concat ", " build_labels)] ;;
           print stdout plain [] ;;
           success_count <-
             for_each build_labels (process_build_label org action issue_id) 0%Z ;;
           (if (success_count >? 0)%Z then
              print stdout success
                    [Lit "Sprint "; Lit action; Lit " complete (";
                     Val (VInt success_count); Lit " project(s) updated)"]
            else
              print stdout warning [Lit "No projects were updated"]) ;;
           ret success_count
       end)
      (fun e => match e with
                | GitHubAPIError _ =>
                    Some (print stderr failure [Exn e] ;; sys_exit 1%Z)
                | _ => None
                end).

Definition add_issue_to_build_project (repository : string) (issue_number : Z)
    (org label : string) : M bool :=
  print stdout plain [Lit "Processing build label: "; Lit label] ;;
  try (issue_id <- get_issue_id repository issue_number ;;
       print stdout plain [Lit "Issue node ID: "; Lit issue_id] ;;
       project_data <- get_project_by_title org label ;;
       if negb (truthy project_data) then
         print stdout warning
               [Lit "No project found with title '"; Lit label; Lit "' - skipping"] ;;
         ret false
       else
         project_id <- lift (getitem project_data "id") ;;
         project_number <- lift (getitem project_data "number") ;;
         print stdout plain
               [Lit "Found project #"; Val project_number; Lit ": "; Lit label] ;;
         print stdout plain [Lit "Project ID: "; Val project_id] ;;
         item_id <- ensure_issue_in_project project_id issue_id ;;
         if negb (item_id =? "") then
           print stdout success
                 [Lit "Issue in project #"; Val project_number;
                  Lit " (item: "; Lit item_id; Lit ")"] ;;
           ret true
         else
           print stdout failure
                 [Lit "Failed to add to project #"; Val project_number] ;;
           ret false)
      (fun e => match e with
                | GitHubAPIError _ =>
                    Some (print stderr failure [Exn e] ;; sys_exit 1%Z)
                | _ => None
                end).

End Client.

Arguments ret {remote A} a.
Arguments raise {remote A} e.
Arguments lift {remote A} o.

End GitHubProjectAutomation.

(** ** The command line

    [args] is what [argparse] hands to [main]: one of the three actions,
    the required options, and [--label] when it was given. *)

Inductive action_choice : Type :=
| add_to_sprint
| remove_from_sprint
| add_to_build_project.

Record args : Type := {
  action : action_choice;
  repository : string;
  issue_number : Z;
  org : string;
  label : option string
}.

Section Main.

Variable remote : Type.
Variable gh : forall q : request, remote -> answer (reply q) * remote.

Import GitHubProjectAutomation.

Notation "x <- m ;; k" := (bind remote m (fun x => k))
  (at level 61, m at next level, right associativity).
Notation "m ;; k" := (bind remote m (fun _ => k))
  (at level 61, right associativity).

Definition main (a : args) : M remote unit :=
  match action a with
  | add_to_build_project =>
      if negb (found (label a)) then
        print remote stderr failure
              [Lit "--label is required for add-to-build-project action"] ;;
        sys_exit remote 1%Z
      else
        success <- add_issue_to_build_project remote gh
                     (repository a) (issue_number a) (org a) (text (label a)) ;;
        sys_exit remote (if (success : bool) then 0 else 1)%Z
  | choice =>
      let action := match choice with
                    | add_to_sprint => "add"
                    | _ => "remove"
                    end in
      success_count <- process_sprint_for_build_labels remote gh
                         (repository a) (issue_number a) (org a) action ;;
      if (success_count =? 0)%Z then
        try remote
            (labels <- get_labels_by_prefix remote gh
                         (repository a) (issue_number a) "B" ;;
             match labels with
             | [] => ret tt
             | _ => sys_exit remote 1%Z
             end)
            (fun e => match e with
                      | GitHubAPIError _ => Some (sys_exit remote 1%Z)
                      | _ => None
                      end)
      else ret tt
  end.

End Main.

(** The exit status of the process: zero when [main] returns, the code of
    [sys.exit], one for any other exception that leaves [main]. *)
Definition exit_code {A : Type} (o : outcome A) : Z :=
  match o with
  | Ok _ => 0
  | Raise (SystemExit code) => code
  | Raise _ => 1
  end.

(** ** Reading a run *)

(** The outcome, the final remote and the trace of a run. *)
Definition outcome_of {A R : Type} (x : outcome A * R * list event) : outcome A :=
  fst (fst x).
Definition remote_of {A R : Type} (x : outcome A * R * list event) : R :=
  snd (fst x).
Definition trace_of {A R : Type} (x : outcome A * R * list event) : list event :=
  snd x.

Definition tally (f : event -> bool) (t : list event) : Z :=
  Z.of_nat (List.length (filter f t)).

(** A set-iteration mutation the remote accepted. *)
Definition iteration_set (e : event) : bool :=
  match e with
  | Called (SetIteration _ _ _ _) true => true
  | _ => false
  end.

(** A clear-iteration mutation the remote accepted. *)
Definition iteration_cleared (e : event) : bool :=
  match e with
  | Called (ClearIteration _ _ _) true => true
  | _ => false
  end.

(** The calls by their kind, accepted or not. *)
Definition is_call (e : event) : bool :=
  match e with
  | Called _ _ => true
  | Printed _ _ _ => false
  end.

Definition adds_item (e : event) : bool :=
  match e with
  | Called (AddItem _ _) _ => true
  | _ => false
  end.

Definition sets_iteration (e : event) : bool :=
  match e with
  | Called (SetIteration _ _ _ _) _ => true
  | _ => false
  end.

Definition clears_iteration (e : event) : bool :=
  match e with
  | Called (ClearIteration _ _ _) _ => true
  | _ => false
  end.

(** The title lookups. *)
Definition looks_up_title (e : event) : bool :=
  match e with
  | Called (ProjectsByTitle _ _) _ => true
  | _ => false
  end.

(** The last call of a run. *)
Fixpoint last_call (t : list event) : option event :=
  match t with
  | [] => None
  | e :: t' =>
      match last_call t' with
      | Some c => Some c
      | None => if is_call e then Some e else None
      end
  end.

(** The requests of the last step for a label: the lookup of the iteration
    field and the mutation that sets or clears the iteration. *)
Definition iteration_step (q : request) : bool :=
  match q with
  | IterationFields _ | SetIteration _ _ _ _ | ClearIteration _ _ _ => true
  | _ => false
  end.

(** A trace whose last call is none of the last step for a label. *)
Definition ends_before_iteration (t : list event) : Prop :=
  exists q ok, last_call t = Some (Called q ok) /\ iteration_step q = false.

(** A string with no line break in it. *)
Fixpoint newline_free (s : string) : bool :=
  match s with
  | EmptyString => true
  | String c s' => negb (Ascii.eqb c newline) && newline_free s'
  end.

(** A run that made the one call [q], which the remote answered, printed
    one warning on the standard error and returned [False]. *)
Definition fails_after {R : Type} (q : request) (r1 : R)
    (run : outcome bool * R * list event) : Prop :=
  exists msg, run = (Ok false, r1, [Called q true; Printed stderr warning msg]).

Section Traces.

Variable remote : Type.

Import GitHubProjectAutomation.

(** A computation none of whose events is of the kind [f], however it
    ends. *)
Definition silent (f : event -> bool) {A : Type} (m : M remote A) : Prop :=
  forall r, tally f (trace_of (m r)) = 0%Z.

(** A step that ends in [True] after one iteration was set and, however
    else it ends, after none. *)
Definition sets_one (m : M remote bool) : Prop :=
  forall r,
    tally iteration_set (trace_of (m r))
    = match outcome_of (m r) with
      | Ok true => 1%Z
      | _ => 0%Z
      end.

(** A computation that ends the process, where it does, with status 1. *)
Definition exits_with_one {A : Type} (m : M remote A) : Prop :=
  forall r c, outcome_of (m r) = Raise (SystemExit c) -> c = 1%Z.

(** A computation the last step for a label does not end: where an
    error of a remote call leaves it, the last call was none of that step,
    and it does not end the process itself. *)
Definition outlives_iteration_step {A : Type} (m : M remote A) : Prop :=
  forall r e r' t,
    m r = (Raise e, r', t) ->
    match e with
    | GitHubAPIError _ => ends_before_iteration t
    | SystemExit _ => False
    | _ => True
    end.

(** The same for the clearing of an iteration. *)
Definition clears_one (m : M remote bool) : Prop :=
  forall r,
    tally iteration_cleared (trace_of (m r))
    = match outcome_of (m r) with
      | Ok true => 1%Z
      | _ => 0%Z
      end.

End Traces.

(** ** A model of the remote collaborator *)

Module GitHub.

(** The data of the remote, as the spec's data model has it: issues with
    their labels; projects with a number, a title, items and fields; an
    iteration field with its ordered iterations. *)

Record iteration : Type := {
  iteration_id : string;
  iteration_title : string;
  start_date : string
}.

(** A field of a project.  Of a field that is no iteration field the
    script's query selects nothing: its node is the empty object. *)
Inductive field : Type :=
| IterationField (id name : string) (iterations completed : list iteration)
| OtherField.

(** An item: its identifier, the node identifier of the issue it holds
    (none for a draft or another kind of content) and its iteration per
    iteration field. *)
Record item : Type := {
  item_id : string;
  content : option string;
  sprint : list (string * string)
}.

Record project : Type := {
  owner : string;
  project_id : string;
  number : Z;
  title : string;
  items : list item;
  fields : list field
}.

Record issue : Type := {
  repo : string;
  issue_no : Z;
  node_id : string;
  labels : list string
}.

(** Modelled from the spec: the state of the remote collaborator, which
    the script reaches through [gh api] and which is no code of this
    repository.  [created] counts the items made so far and names the next
    one.  [dedup] says how the remote takes the addition of an issue the
    project holds already: it answers with the item there is, or it makes
    another item (the spec has the addition return a newly created item
    and leaves it to the client to look before it adds).  [unread] is the
    answer to a request whose filter is a program the model does not
    read. *)
Record state : Type := {
  orgs : list string;
  projects : list project;
  issues : list issue;
  created : nat;
  dedup : bool;
  unread : forall q : request, answer (reply q)
}.

(** *** The text of a filter

    The script writes a title and a prefix between the double quotes of a
    string of the [--jq] program, as they are (lines 93 and 132), and the
    program reads what stands there as a string literal: a backslash
    starts an escape, a backslash and an opening parenthesis start an
    interpolation, a double quote ends the string.  A string is the UTF-8
    text of a Python [str].  The model reads the literals made of the
    characters that stand for themselves (all but the double quote, the
    backslash and the control characters), of the one-character escapes
    and of the interpolation of the title or the identifier of the node at
    hand; a string that gives another program is left to [unread]. *)

Inductive jq_piece : Type :=
| Char (c : ascii)
| Title     (* \(.title) *)
| Id.       (* \(.id) *)

Definition double_quote : ascii := Ascii.ascii_of_nat 34.
Definition backslash : ascii := Ascii.ascii_of_nat 92.

(** A character, or a byte of one, that stands for itself in a string
    literal. *)
Definition jq_ordinary (c : ascii) : bool :=
  (32 <=? nat_of_ascii c)%nat
  && negb (Ascii.eqb c double_quote) && negb (Ascii.eqb c backslash).

(** The character a one-character escape stands for. *)
Definition jq_escape (c : ascii) : option ascii :=
  if Ascii.eqb c double_quote then Some double_quote
  else if Ascii.eqb c backslash then Some backslash
  else if Ascii.eqb c "/" then Some "/"%char
  else if Ascii.eqb c "b" then Some (Ascii.ascii_of_nat 8)
  else if Ascii.eqb c "f" then Some (Ascii.ascii_of_nat 12)
  else if Ascii.eqb c "n" then Some (Ascii.ascii_of_nat 10)
  else if Ascii.eqb c "r" then Some (Ascii.ascii_of_nat 13)
  else if Ascii.eqb c "t" then Some (Ascii.ascii_of_nat 9)
  else None.

(** The interpolation that starts a text, and the length of what it takes
    of the text. *)
Definition jq_interpolation (s : string) : option (jq_piece * nat) :=
  if String.prefix ".title)" s then Some (Title, 7)
  else if String.prefix ".id)" s then Some (Id, 4)
  else None.

(** The pieces of the literal: [skip] characters of an interpolation are
    still to pass, [escaped] says that a backslash came last. *)
Fixpoint jq_read (skip : nat) (escaped : bool) (s : string)
    : option (list jq_piece) :=
  match s with
  | EmptyString => if escaped then None else Some []
  | String c s' =>
      match skip with
      | S k => jq_read k false s'
      | O =>
          if escaped then
            match jq_escape c with
            | Some c' => option_map (cons (Char c')) (jq_read 0 false s')
            | None =>
                if Ascii.eqb c "(" then
                  match jq_interpolation s' with
                  | Some (x, n) => option_map (cons x) (jq_read n false s')
                  | None => None
                  end
                else None
            end
          else if Ascii.eqb c backslash then jq_read 0 true s'
          else if jq_ordinary c then
            option_map (cons (Char c)) (jq_read 0 false s')
          else None
      end
  end.

Definition jq_string (s : string) : option (list jq_piece) := jq_read 0 false s.

(** The string the literal is at the node of project [p]. *)
Fixpoint jq_value (l : list jq_piece) (p : project) : string :=
  match l with
  | [] => ""
  | Char c :: l' => String c (jq_value l' p)
  | Title :: l' => title p ++ jq_value l' p
  | Id :: l' => project_id p ++ jq_value l' p
  end.

(** The string of a literal without interpolation. *)
Fixpoint jq_text (l : list jq_piece) : option string :=
  match l with
  | [] => Some ""
  | Char c :: l' => option_map (String c) (jq_text l')
  | _ :: _ => None
  end.

Definition jq_constant (s : string) : option string :=
  match jq_string s with
  | Some l => jq_text l
  | None => None
  end.

(** A string that is its own literal. *)
Fixpoint jq_plain (s : string) : bool :=
  match s with
  | EmptyString => true
  | String c s' => jq_ordinary c && jq_plain s'
  end.

(** *** The output, stripped

    [_run_gh_api] returns [result.stdout.strip()] (line 48): the output
    without the white space at its two ends, the white space being that of
    [str.strip()] in UTF-8. *)

Definition space1 (c : ascii) : bool :=
  let n := nat_of_ascii c in
  ((9 <=? n)%nat && (n <=? 13)%nat) || ((28 <=? n)%nat && (n <=? 32)%nat).

(** U+0085 and U+00A0. *)
Definition space2 (c d : ascii) : bool :=
  (nat_of_ascii c =? 194)%nat
  && ((nat_of_ascii d =? 133)%nat || (nat_of_ascii d =? 160)%nat).

(** U+1680, U+2000 to U+200A, U+2028, U+2029, U+202F, U+205F and U+3000. *)
Definition space3 (c d e : ascii) : bool :=
  let c := nat_of_ascii c in
  let d := nat_of_ascii d in
  let e := nat_of_ascii e in
  ((c =? 225)%nat && (d =? 154)%nat && (e =? 128)%nat)
  || ((c =? 226)%nat && (d =? 128)%nat
      && (((128 <=? e)%nat && (e <=? 138)%nat)
          || (e =? 168)%nat || (e =? 169)%nat || (e =? 175)%nat))
  || ((c =? 226)%nat && (d =? 129)%nat && (e =? 159)%nat)
  || ((c =? 227)%nat && (d =? 128)%nat && (e =? 128)%nat).

Fixpoint lstrip (s : string) : string :=
  match s with
  | EmptyString => ""
  | String c s1 =>
      if space1 c then lstrip s1
      else
        match s1 with
        | EmptyString => s
        | String d s2 =>
            if space2 c d then lstrip s2
            else
              match s2 with
              | EmptyString => s
              | String e s3 => if space3 c d e then lstrip s3 else s
              end
        end
  end.

(** A string of white space and nothing else. *)
Fixpoint all_space (s : string) : bool :=
  match s with
  | EmptyString => true
  | String c s1 =>
      if space1 c then all_space s1
      else
        match s1 with
        | EmptyString => false
        | String d s2 =>
            if space2 c d then all_space s2
            else
              match s2 with
              | EmptyString => false
              | String e s3 => space3 c d e && all_space s3
              end
        end
  end.

Fixpoint rstrip (s : string) : string :=
  match s with
  | EmptyString => ""
  | String c s' => if all_space s then "" else String c (rstrip s')
  end.

Definition strip (s : string) : string := rstrip (lstrip s).

Definition find_project (id : string) (ps : list project) : option project :=
  find (fun p => project_id p =? id) ps.

Definition update_project (id : string) (f : project -> project)
    (ps : list project) : list project :=
  map (fun p => if project_id p =? id then f p else p) ps.

Definition with_projects (g : state) (ps : list project) : state :=
  {| orgs := orgs g; projects := ps; issues := issues g;
     created := created g; dedup := dedup g; unread := unread g |}.

Definition with_items (p : project) (its : list item) : project :=
  {| owner := owner p; project_id := project_id p; number := number p;
     title := title p; items := its; fields := fields p |}.

Definition find_issue (repository : string) (n : Z) (g : state) : option issue :=
  find (fun i => (repo i =? repository) && (issue_no i =? n)%Z) (issues g).

Definition holds (issue_id : string) (it : item) : bool :=
  match content it with
  | Some c => c =? issue_id
  | None => false
  end.

(** The JSON of the nodes, with the attributes the queries select. *)
Definition project_node (p : project) : value :=
  VDict [("id", VStr (project_id p)); ("number", VInt (number p));
         ("title", VStr (title p))].

Definition iteration_node (i : iteration) : value :=
  VDict [("id", VStr (iteration_id i)); ("title", VStr (iteration_title i));
         ("startDate", VStr (start_date i))].

Definition field_node (f : field) : value :=
  match f with
  | IterationField id name its done =>
      VDict [("id", VStr id); ("name", VStr name);
             ("configuration",
              VDict [("iterations", VList (map iteration_node its));
                     ("completedIterations", VList (map iteration_node done))])]
  | OtherField => VDict []
  end.

Definition is_sprint_field (f : field) : bool :=
  match f with
  | IterationField _ name _ _ => (name =? "Iteration") || (name =? "Sprint")
  | OtherField => false
  end.

Definition has_field_id (id : string) (f : field) : bool :=
  match f with
  | IterationField id' _ _ _ => id' =? id
  | OtherField => false
  end.

Definition has_iteration (id : string) (f : field) : bool :=
  match f with
  | IterationField _ _ its done =>
      existsb (fun i => iteration_id i =? id) (its ++ done)%list
  | OtherField => false
  end.

(** The projects the title lookup sees: the first page of the
    organization's projects. *)
Definition first_projects (org : string) (g : state) : list project :=
  firstn 100 (filter (fun p => owner p =? org) (projects g)).

(** The items the membership lookup sees: the first page. *)
Definition first_items (p : project) : list item := firstn 100 (items p).

Definition fresh_item_id (g : state) : string :=
  "PVTI_" ++ NilEmpty.string_of_uint (Nat.to_uint (created g)).

Definition set_sprint (field_id iteration : string) (it : item) : item :=
  {| item_id := item_id it; content := content it;
     sprint := (field_id, iteration)
                 :: filter (fun b => negb (fst b =? field_id)) (sprint it) |}.

Definition clear_sprint (field_id : string) (it : item) : item :=
  {| item_id := item_id it; content := content it;
     sprint := filter (fun b => negb (fst b =? field_id)) (sprint it) |}.

Definition update_item (id : string) (f : item -> item) (p : project) : project :=
  with_items p (map (fun it => if item_id it =? id then f it else it) (items p)).

Definition not_found {A : Type} (g : state) : answer A * state :=
  (Rejected "Could not resolve to a node", g).

(** Modelled from the spec: the answers of the remote collaborator, which
    is no code of this repository.  They follow the contract the spec gives
    for each lookup and mutation and the page sizes the script asks for: the
    title lookup sees the first 100 projects of the organization and selects
    those whose title is the string asked for; the membership lookup sees
    the first 100 items of the project and prints the identifiers of those
    that hold the issue, one per line; the field lookup sees the first 20
    fields and selects those named Iteration or Sprint.  A request about an
    issue, an organization, a project, an item, a field or an iteration
    that is not there is rejected, and so is an identifier that is no
    string.  The output of the two field mutations, which the script does
    not read, is kept as the item's identifier.  The title and the prefix
    are read as the string literals they are in the text of the filter,
    and the listing of the labels is the output stripped.  The identifiers
    of nodes are the remote's own, words of letters, digits and the signs
    [_], [-] and [=]: they are taken to stand for themselves, in the text
    of a filter and in the output. *)
Definition gh (q : request) : state -> answer (reply q) * state :=
  match q as q0 return state -> answer (reply q0) * state with
  | IssueNodeId repository n => fun g =>
      match find_issue repository n g with
      | Some i => (Replied (node_id i), g)
      | None => not_found g
      end
  | IssueLabels repository n prefix => fun g =>
      match find_issue repository n g with
      | Some i =>
          match jq_constant prefix with
          | Some start =>
              (Replied (strip (String.concat (String newline "")
                                 (filter (String.prefix start) (labels i)))), g)
          | None => (unread g (IssueLabels repository n prefix), g)
          end
      | None => not_found g
      end
  | ProjectsByTitle org t => fun g =>
      if existsb (String.eqb org) (orgs g) then
        match jq_string t with
        | Some literal =>
            (Replied (map project_node
                          (filter (fun p => title p =? jq_value literal p)
                                  (first_projects org g))), g)
        | None => (unread g (ProjectsByTitle org t), g)
        end
      else not_found g
  | ItemsOfIssue (VStr pid) issue_id => fun g =>
      match find_project pid (projects g) with
      | Some p =>
          (Replied (String.concat (String newline "")
                      (map item_id (filter (holds issue_id) (first_items p)))), g)
      | None => not_found g
      end
  | AddItem (VStr pid) issue_id => fun g =>
      match find_project pid (projects g) with
      | Some p =>
          if existsb (fun i => node_id i =? issue_id) (issues g) then
            match (if dedup g then find (holds issue_id) (items p) else None) with
            | Some it => (Replied (item_id it), g)
            | None =>
                let it := {| item_id := fresh_item_id g;
                             content := Some issue_id; sprint := [] |} in
                (Replied (item_id it),
                 {| orgs := orgs g;
                    projects := update_project pid
                                  (fun p => with_items p (items p ++ [it])%list)
                                  (projects g);
                    issues := issues g;
                    created := S (created g);
                    dedup := dedup g;
                    unread := unread g |})
            end
          else not_found g
      | None => not_found g
      end
  | IterationFields (VStr pid) => fun g =>
      match find_project pid (projects g) with
      | Some p =>
          (Replied (map field_node
                        (filter is_sprint_field (firstn 20 (fields p)))), g)
      | None => not_found g
      end
  | SetIteration (VStr pid) item (VStr field_id) (VStr iteration) => fun g =>
      match find_project pid (projects g) with
      | Some p =>
          if existsb (fun it => item_id it =? item) (items p)
             && existsb (fun f => has_field_id field_id f
                                  && has_iteration iteration f) (fields p)
          then (Replied item,
                with_projects g
                  (update_project pid
                     (update_item item (set_sprint field_id iteration))
                     (projects g)))
          else not_found g
      | None => not_found g
      end
  | ClearIteration (VStr pid) item (VStr field_id) => fun g =>
      match find_project pid (projects g) with
      | Some p =>
          if existsb (fun it => item_id it =? item) (items p)
             && existsb (has_field_id field_id) (fields p)
          then (Replied item,
                with_projects g
                  (update_project pid
                     (update_item item (clear_sprint field_id))
                     (projects g)))
          else not_found g
      | None => not_found g
      end
  | ItemsOfIssue _ _ | AddItem _ _ | IterationFields _
  | SetIteration _ _ _ _ | ClearIteration _ _ _ => fun g => not_found g
  end.

(** The state after a new item for [issue_id] was put into project [pid]. *)
Definition after_adding (pid issue_id : string) (g : state) : state :=
  {| orgs := orgs g;
     projects :=
       update_project pid
         (fun p => with_items p
                     (items p ++ [ {| item_id := fresh_item_id g;
                                      content := Some issue_id;
                                      sprint := [] |} ])%list)
         (projects g);
     issues := issues g;
     created := S (created g);
     dedup := dedup g;
     unread := unread g |}.

End GitHub.

(** ** A small organization, for running the script *)

Module Demo.

Import GitHub.

Definition sprint_field : field :=
  IterationField "PVTIF_1" "Sprint"
    [ {| iteration_id := "it-7"; iteration_title := "Sprint 7";
         start_date := "2024-03-04" |};
      {| iteration_id := "it-8"; iteration_title := "Sprint 8";
         start_date := "2024-03-18" |} ]
    [ {| iteration_id := "it-6"; iteration_title := "Sprint 6";
         start_date := "2024-02-19" |} ].

Definition b16 : project :=
  {| owner := "NASA-PDS"; project_id := "PVT_16"; number := 16; title := "B16";
     items := [ {| item_id := "PVTI_b"; content := Some "I_43"; sprint := [] |} ];
     fields := [OtherField; sprint_field] |}.

(** A project with no iteration field. *)
Definition b15 : project :=
  {| owner := "NASA-PDS"; project_id := "PVT_15"; number := 15; title := "B15";
     items := [ {| item_id := "PVTI_a"; content := Some "I_7"; sprint := [] |} ];
     fields := [OtherField] |}.

(** An issue with the build labels B16 and B17, one with none, and one
    with the build label B15. *)
Definition issue42 : issue :=
  {| repo := "NASA-PDS/registry"; issue_no := 42; node_id := "I_42";
     labels := ["bug"; "B16"; "B17"] |}.

Definition issue43 : issue :=
  {| repo := "NASA-PDS/registry"; issue_no := 43; node_id := "I_43";
     labels := ["bug"; "sprint-backlog"] |}.

Definition issue7 : issue :=
  {| repo := "NASA-PDS/registry"; issue_no := 7; node_id := "I_7";
     labels := ["B15"] |}.

(** What the small organization answers to a filter the model does not
    read. *)
Definition syntax_error (q : request) : answer (reply q) :=
  Rejected "jq: error: syntax error".

Definition world : state :=
  {| orgs := ["NASA-PDS"]; projects := [b15; b16];
     issues := [issue42; issue43; issue7]; created := 0; dedup := true;
     unread := syntax_error |}.

(** The organization with a hundred other projects ahead of B17. *)
Definition other : project :=
  {| owner := "NASA-PDS"; project_id := "PVT_0"; number := 1; title := "Roadmap";
     items := []; fields := [] |}.

Definition b17 : project :=
  {| owner := "NASA-PDS"; project_id := "PVT_17"; number := 17; title := "B17";
     items := []; fields := [OtherField; sprint_field] |}.

Definition crowded : state :=
  {| orgs := ["NASA-PDS"]; projects := (repeat other 100 ++ [b17])%list;
     issues := [issue42; issue43; issue7]; created := 0; dedup := false;
     unread := syntax_error |}.

(** A project whose first page of items is full. *)
Definition b18 : project :=
  {| owner := "NASA-PDS"; project_id := "PVT_18"; number := 18; title := "B18";
     items := repeat {| item_id := "PVTI_d"; content := None; sprint := [] |} 100;
     fields := [sprint_field] |}.

Definition full : state :=
  {| orgs := ["NASA-PDS"]; projects := [b18];
     issues := [issue42]; created := 0; dedup := false;
     unread := syntax_error |}.

(** A remote that knows one field, named but without an identifier, and
    nothing else. *)
Definition nameless (q : request) : unit -> answer (reply q) * unit :=
  match q as q0 return unit -> answer (reply q0) * unit with
  | IterationFields _ => fun u => (Replied [VDict [("name", VStr "Sprint")]], u)
  | _ => fun u => (Rejected "Not Found", u)
  end.

(** Command lines. *)
Definition add_to_sprint_43 : args :=
  {| action := add_to_sprint; repository := "NASA-PDS/registry";
     issue_number := 43; org := "NASA-PDS"; label := None |}.

Definition remove_from_sprint_7 : args :=
  {| action := remove_from_sprint; repository := "NASA-PDS/registry";
     issue_number := 7; org := "NASA-PDS"; label := None |}.

Definition add_42_to_b17 : args :=
  {| action := add_to_build_project; repository := "NASA-PDS/registry";
     issue_number := 42; org := "NASA-PDS"; label := Some "B17" |}.

(** An issue in the sprint of two projects: B19 with one iteration field,
    B20 with two, one of each name. *)
Definition issue44 : issue :=
  {| repo := "NASA-PDS/registry"; issue_no := 44; node_id := "I_44";
     labels := ["B19"; "needs:triage"; "B20"] |}.

Definition b19 : project :=
  {| owner := "NASA-PDS"; project_id := "PVT_19"; number := 19; title := "B19";
     items := [ {| item_id := "PVTI_c"; content := Some "I_44";
                   sprint := [("PVTIF_1", "it-7")] |} ];
     fields := [sprint_field] |}.

Definition b20 : project :=
  {| owner := "NASA-PDS"; project_id := "PVT_20"; number := 20; title := "B20";
     items := [ {| item_id := "PVTI_e"; content := Some "I_44";
                   sprint := [("PVTIF_1", "it-7")] |} ];
     fields := [sprint_field;
                IterationField "PVTIF_2" "Iteration"
                  [ {| iteration_id := "it-1"; iteration_title := "Iteration 1";
                       start_date := "2024-03-04" |} ] []] |}.

Definition sprinted : state :=
  {| orgs := ["NASA-PDS"]; projects := [b19; b20];
     issues := [issue44]; created := 0; dedup := true;
     unread := syntax_error |}.

(** Two projects of one title. *)
Definition twins : state :=
  {| orgs := ["NASA-PDS"]; projects := [b19; b15; b19];
     issues := [issue44]; created := 0; dedup := true;
     unread := syntax_error |}.

(** An issue with three build labels: B15 has no iteration field, B16 has
    one, and no project has the title B17. *)
Definition issue45 : issue :=
  {| repo := "NASA-PDS/registry"; issue_no := 45; node_id := "I_45";
     labels := ["B15"; "enhancement"; "B16"; "B17"] |}.

Definition mixed : state :=
  {| orgs := ["NASA-PDS"]; projects := [b15; b16];
     issues := [issue45]; created := 0; dedup := true;
     unread := syntax_error |}.

(** An organization with one project. *)
Definition solo : state :=
  {| orgs := ["NASA-PDS"]; projects := [b16];
     issues := [issue42]; created := 0; dedup := true;
     unread := syntax_error |}.

(** A title that is a program: the interpolation of the title of the node
    at hand. *)
Definition interpolated : string := "\(.title)".



Definition add_to_build_project_unlabelled : args :=
  {| action := add_to_build_project; repository := "NASA-PDS/registry";
     issue_number := 42; org := "NASA-PDS"; label := Some "" |}.

Definition add_to_sprint_99 : args :=
  {| action := add_to_sprint; repository := "NASA-PDS/registry";
     issue_number := 99; org := "NASA-PDS"; label := None |}.

End Demo.

(** * Properties *)

Section Operations.

Variable remote : Type.
Variable gh : forall q : request, remote -> answer (reply q) * remote.

Import GitHubProjectAutomation.

Local Abbreviation get_iteration_field := (get_iteration_field remote gh).
Local Abbreviation set_iteration_to_current := (set_iteration_to_current remote gh).
Local Abbreviation clear_iteration := (clear_iteration remote gh).

(** Running the script on given answers of the remote. *)
Ltac run :=
  unfold GitHubProjectAutomation.set_iteration_to_current,
         GitHubProjectAutomation.clear_iteration,
         GitHubProjectAutomation.get_iteration_field,
         GitHubProjectAutomation.get_project_by_title,
         GitHubProjectAutomation.is_issue_in_project,
         GitHubProjectAutomation.add_issue_to_project,
         GitHubProjectAutomation.ensure_issue_in_project,
         GitHubProjectAutomation.get_issue_id,
         GitHubProjectAutomation.get_labels_by_prefix,
         try, bind, _run_gh_api, json_loads, print, lift, ret, raise, sys_exit;
  repeat (cbn [no_output truthy negb getitem get getitem0 app];
          match goal with
          | H : gh ?q ?r = _ |- context [gh ?q ?r] => rewrite H
          | H : assoc ?k ?d = _ |- context [assoc ?k ?d] => rewrite H
          | H : (?x =? ?y)%Z = _ |- context [(?x =? ?y)%Z] => rewrite H
          | H : (?x =? ?y) = _ |- context [(?x =? ?y)] => rewrite H
          end);
  cbn [no_output truthy negb getitem get getitem0 app].

(** C4.  Where the project has no iteration field, or has one whose
    list of iterations is empty, [set_iteration_to_current] returns
    [False]: it raises nothing, prints one diagnostic, and the lookup of
    the field is the only call it makes. *)
Theorem set_iteration_to_current_nothing_to_set :
  forall (project_id : value) (item_id : string) (r r1 : remote)
         (docs : list value),
    gh (IterationFields project_id) r = (Replied docs, r1) ->
    (docs = [] \/
     exists d c, docs = [VDict d]
                 /\ assoc "configuration" d = Some (VDict c)
                 /\ assoc "iterations" c = Some (VList [])) ->
    fails_after (IterationFields project_id) r1
                (set_iteration_to_current project_id item_id r).
Proof.
  intros pid item r r1 docs Hgh [-> | (d & c & -> & Hc & Hi)]; unfold fails_after.
  - eexists. run. reflexivity.
  - destruct d as [|b d']; [discriminate|].
    destruct (assoc "id" (b :: d')) as [fid|] eqn:Hid.
    + eexists. run. reflexivity.
    + eexists. run. reflexivity.
Qed.

(** C3.  Where the iteration field is there and its list of iterations is
    not empty, [set_iteration_to_current] takes the first entry of the
    list, whatever the titles and start dates in the list are, and sends the
    update of the field with the identifier of that entry; the result is
    [True] when the remote accepts the update. *)
Theorem set_iteration_to_current_takes_first :
  forall (project_id : value) (item_id : string) (r r1 : remote)
         (d c first : list (string * value)) (rest : list value)
         (field_id iteration_id : value),
    gh (IterationFields project_id) r = (Replied [VDict d], r1) ->
    assoc "id" d = Some field_id ->
    assoc "configuration" d = Some (VDict c) ->
    assoc "iterations" c = Some (VList (VDict first :: rest)) ->
    assoc "id" first = Some iteration_id ->
    let update := SetIteration project_id item_id field_id iteration_id in
    match gh update r1 with
    | (Replied _, r2) =>
        set_iteration_to_current project_id item_id r
        = (Ok true, r2,
           [Called (IterationFields project_id) true; Called update true])
    | (Rejected err, r2) =>
        set_iteration_to_current project_id item_id r
        = (Ok false, r2,
           [Called (IterationFields project_id) true; Called update false;
            Printed stderr warning
              [Lit "Failed to set iteration: ";
               Exn (GitHubAPIError [Lit "API call failed: "; Lit err])]])
    end.
Proof.
  intros pid item r r1 d c first rest fid iid Hgh Hid Hc Hi Hfirst update.
  subst update.
  destruct d as [|b d']; [discriminate|].
  destruct (gh (SetIteration pid item fid iid) r1) as [[out|err] r2] eqn:Hset;
    run; reflexivity.
Qed.

(** C8.  [clear_iteration] returns a boolean.  No error of a remote call
    and no [KeyError] leaves it; where the project has no iteration field
    it returns [False] with a diagnostic and sends no mutation; where the
    remote rejects the mutation it returns [False] with a diagnostic that
    holds the error. *)
Theorem clear_iteration_returns_boolean :
  forall (project_id : value) (item_id : string) (r : remote),
    (forall e r' t,
        clear_iteration project_id item_id r = (Raise e, r', t) -> e = TypeError)
    /\ (forall r1,
           gh (IterationFields project_id) r = (Replied [], r1) ->
           clear_iteration project_id item_id r
           = (Ok false, r1,
              [Called (IterationFields project_id) true;
               Printed stderr warning [Lit "No Sprint/Iteration field found"]]))
    /\ (forall d field_id err r1 r2,
           gh (IterationFields project_id) r = (Replied [VDict d], r1) ->
           assoc "id" d = Some field_id ->
           gh (ClearIteration project_id item_id field_id) r1 = (Rejected err, r2) ->
           clear_iteration project_id item_id r
           = (Ok false, r2,
              [Called (IterationFields project_id) true;
               Called (ClearIteration project_id item_id field_id) false;
               Printed stderr warning
                 [Lit "Failed to clear iteration: ";
                  Exn (GitHubAPIError [Lit "API call failed: "; Lit err])]])).
Proof.
  intros pid item r. split; [|split].
  - intros e r' t.
    destruct (gh (IterationFields pid) r) as [[docs|err] r1] eqn:Hgh;
      [destruct docs as [|doc [|doc' docs']]|]; try (run; discriminate).
    destruct doc as [| b | n | s | l | d].
    + run; discriminate.
    + destruct b; run; [intros H; inversion H; reflexivity | discriminate].
    + destruct (n =? 0)%Z eqn:Hn; run;
        [discriminate | intros H; inversion H; reflexivity].
    + destruct (s =? "") eqn:Hs; run;
        [discriminate | intros H; inversion H; reflexivity].
    + destruct l; run; [discriminate | intros H; inversion H; reflexivity].
    + destruct d as [|b d']; [run; discriminate|].
      destruct (assoc "id" (b :: d')) as [fid|] eqn:Hid; [|run; discriminate].
      destruct (gh (ClearIteration pid item fid) r1) as [[out|err] r2] eqn:Hc;
        run; discriminate.
  - intros r1 Hgh. run. reflexivity.
  - intros d fid err r1 r2 Hgh Hid Hclear.
    destruct d as [|b d']; [discriminate|].
    run. reflexivity.
Qed.

(** All the ways a run can take, by the answers of the remote and the
    shape of the data. *)
Ltac explore :=
  repeat (run;
          match goal with
          | |- context [gh ?q ?r] => destruct (gh q r) as [[?|?] ?] eqn:?
          | |- context [assoc ?k ?d] => destruct (assoc k d) eqn:?
          | |- context [get ?v _ _] => is_var v; destruct v
          | |- context [getitem ?v _] => is_var v; destruct v
          | |- context [getitem0 ?v] => is_var v; destruct v
          | |- context [truthy ?v] => is_var v; destruct v
          | |- context [match ?l with [] => _ | _ :: _ => _ end] =>
              is_var l; destruct l
          | |- context [match ?s with EmptyString => _ | String _ _ => _ end] =>
              is_var s; destruct s
          | |- context [if ?b then _ else _] => destruct b eqn:?
          end); run.

(** With a dict for the data of the field, [clear_iteration] raises
    nothing, and [set_iteration_to_current] raises only where a value under
    ['configuration'] or ['iterations'] is of another type than the remote
    gives it. *)
Lemma dict_field_data_raises :
  forall (project_id : value) (item_id : string) (r r1 : remote)
         (d : list (string * value)),
    gh (IterationFields project_id) r = (Replied [VDict d], r1) ->
    forall e r' t,
      (set_iteration_to_current project_id item_id r = (Raise e, r', t) ->
       e = TypeError \/ e = AttributeError)
      /\ clear_iteration project_id item_id r <> (Raise e, r', t).
Proof.
  intros pid item r r1 d Hgh e r' t. split.
  - explore;
      first [ intros H; inversion H; auto; fail
            | exfalso; cbn in *; discriminate ].
  - explore; discriminate.
Qed.

(** C10.  A missing key in the data of the iteration field is a failure
    with a diagnostic and not an exception: without ['id'] both operations
    return [False], the [KeyError] caught; [set_iteration_to_current]
    returns [False] as well where ['configuration'] or ['iterations'] is
    missing and where the first iteration has no ['id'].  The lookup is the
    only call made.  Whatever the dict holds, no [KeyError] and no error of
    a remote call leaves either operation. *)
Theorem missing_key_is_failure :
  forall (project_id : value) (item_id : string) (r r1 : remote)
         (d : list (string * value)),
    gh (IterationFields project_id) r = (Replied [VDict d], r1) ->
    let failed := fails_after (IterationFields project_id) r1 in
    (assoc "id" d = None -> d <> [] ->
       set_iteration_to_current project_id item_id r
       = (Ok false, r1,
          [Called (IterationFields project_id) true;
           Printed stderr warning
             [Lit "Failed to set iteration: "; Exn (KeyError (VStr "id"))]])
       /\ clear_iteration project_id item_id r
          = (Ok false, r1,
             [Called (IterationFields project_id) true;
              Printed stderr warning
                [Lit "Failed to clear iteration: "; Exn (KeyError (VStr "id"))]]))
    /\ (assoc "id" d = None ->
          failed (set_iteration_to_current project_id item_id r)
          /\ failed (clear_iteration project_id item_id r))
    /\ (assoc "configuration" d = None ->
          failed (set_iteration_to_current project_id item_id r))
    /\ (forall c,
          assoc "configuration" d = Some (VDict c) ->
          assoc "iterations" c = None ->
          failed (set_iteration_to_current project_id item_id r))
    /\ (forall c first rest,
          assoc "configuration" d = Some (VDict c) ->
          assoc "iterations" c = Some (VList (VDict first :: rest)) ->
          assoc "id" first = None ->
          failed (set_iteration_to_current project_id item_id r))
    /\ (forall e r' t,
          (set_iteration_to_current project_id item_id r = (Raise e, r', t) ->
           e = TypeError \/ e = AttributeError)
          /\ clear_iteration project_id item_id r <> (Raise e, r', t)).
Proof.
  intros pid item r r1 d Hgh failed. subst failed. unfold fails_after.
  repeat (split; [|try exact (dict_field_data_raises pid item r r1 d Hgh)]).
  - destruct d as [|b d']; [contradiction|]. run. reflexivity.
  - destruct d as [|b d']; [contradiction|]. run. reflexivity.
  - destruct d as [|b d']; eexists; run; reflexivity.
  - destruct d as [|b d']; eexists; run; reflexivity.
  - destruct d as [|b d']; [eexists; run; reflexivity|].
    destruct (assoc "id" (b :: d')) eqn:Hid; eexists; run; reflexivity.
  - destruct d as [|b d']; [discriminate|].
    destruct (assoc "id" (b :: d')) eqn:Hid; eexists; run; reflexivity.
  - destruct d as [|b d']; [discriminate|].
    destruct (assoc "id" (b :: d')) eqn:Hid; eexists; run; reflexivity.
Qed.

(** ** What the traces hold *)

Lemma tally_app :
  forall f t1 t2, tally f (t1 ++ t2) = (tally f t1 + tally f t2)%Z.
Proof.
  intros f t1 t2. unfold tally.
  rewrite filter_app, length_app. lia.
Qed.

Lemma tally_cons :
  forall f e t, tally f (e :: t) = ((if f e then 1 else 0) + tally f t)%Z.
Proof.
  intros f e t. unfold tally. cbn [filter].
  destruct (f e); cbn [List.length]; lia.
Qed.

Lemma tally_nil : forall f, tally f [] = 0%Z.
Proof. reflexivity. Qed.

Lemma silent_ret : forall f A (a : A), silent remote f (ret a).
Proof. intros f A a r. reflexivity. Qed.

Lemma silent_raise : forall f A e, silent remote f (@raise remote A e).
Proof. intros f A e r. reflexivity. Qed.

Lemma silent_lift : forall f A (o : outcome A), silent remote f (lift o).
Proof. intros f A o r. reflexivity. Qed.

Lemma silent_print :
  forall f s g text, f (Printed s g text) = false -> silent remote f (print remote s g text).
Proof.
  intros f s g text H r. unfold print, trace_of. cbn [snd].
  rewrite tally_cons, H. reflexivity.
Qed.

Lemma silent_run_gh_api :
  forall f q,
    f (Called q true) = false -> f (Called q false) = false ->
    silent remote f (_run_gh_api remote gh q).
Proof.
  intros f q Ht Hf r. unfold _run_gh_api, trace_of.
  destruct (gh q r) as [[a|err] r1]; cbn [snd]; rewrite tally_cons;
    [rewrite Ht | rewrite Hf]; reflexivity.
Qed.

Lemma silent_bind :
  forall f A B (m : M remote A) (k : A -> M remote B),
    silent remote f m -> (forall a, silent remote f (k a)) -> silent remote f (bind remote m k).
Proof.
  intros f A B m k Hm Hk r. specialize (Hm r). unfold bind, trace_of in *.
  destruct (m r) as [[[a|e] r1] t1]; cbn [snd] in *; [|exact Hm].
  specialize (Hk a r1). unfold trace_of in Hk.
  destruct (k a r1) as [[o r2] t2]. cbn [snd] in *.
  rewrite tally_app. lia.
Qed.

Lemma silent_try :
  forall f A (m : M remote A) (h : exn -> option (M remote A)),
    silent remote f m -> (forall e k, h e = Some k -> silent remote f k) ->
    silent remote f (try remote m h).
Proof.
  intros f A m h Hm Hh r. specialize (Hm r). unfold try, trace_of in *.
  destruct (m r) as [[[a|e] r1] t1]; cbn [snd] in *; [exact Hm|].
  destruct (h e) as [k|] eqn:He; [|exact Hm].
  specialize (Hh e k He r1). unfold trace_of in Hh.
  destruct (k r1) as [[o r2] t2]. cbn [snd] in *.
  rewrite tally_app. lia.
Qed.

(** The handlers of the script raise or print and return. *)
Ltac silence :=
  repeat first
    [ apply silent_ret | apply silent_raise | apply silent_lift
    | apply silent_print; reflexivity
    | apply silent_run_gh_api; reflexivity
    | apply silent_bind; [|intros ?]
    | apply silent_try;
      [|intros [] ? ?; first [discriminate | match goal with
                                             | H : Some _ = Some _ |- _ =>
                                                 inversion H; subst; clear H
                                             end]]
    | match goal with
      | |- silent _ _ (if ?b then _ else _) => destruct b
      | |- silent _ _ (match ?x with _ => _ end) => destruct x
      end ].

Lemma silent_get_issue_id :
  forall f repository issue_number,
    (forall ok, f (Called (IssueNodeId repository issue_number) ok) = false) ->
    silent remote f (get_issue_id remote gh repository issue_number).
Proof.
  intros f repository n H. unfold get_issue_id.
  apply silent_try.
  - apply silent_run_gh_api; apply H.
  - intros e h He; destruct e; try discriminate. inversion He. apply silent_raise.
Qed.

Lemma silent_get_labels_by_prefix :
  forall f repository issue_number prefix,
    (forall ok, f (Called (IssueLabels repository issue_number prefix) ok) = false) ->
    silent remote f (get_labels_by_prefix remote gh repository issue_number prefix).
Proof.
  intros f repository n prefix H. unfold get_labels_by_prefix.
  apply silent_try.
  - apply silent_bind; [apply silent_run_gh_api; apply H | intros ?; apply silent_ret].
  - intros e h He; destruct e; try discriminate. inversion He. apply silent_raise.
Qed.

(** C6.  With [remove] on an issue that has no build label the operation
    returns 0: it sends no mutation and prints no warning. *)
Theorem remove_without_build_labels_is_noop :
  forall (repository : string) (issue_number : Z) (org : string)
         (r r1 r2 : remote) (issue_id : string) (t1 t2 : list event),
    get_issue_id remote gh repository issue_number r = (Ok issue_id, r1, t1) ->
    get_labels_by_prefix remote gh repository issue_number "B" r1 = (Ok [], r2, t2) ->
    exists t,
      process_sprint_for_build_labels remote gh repository issue_number org "remove" r
      = (Ok 0%Z, r2, t)
      /\ tally is_mutation_call t = 0%Z
      /\ tally is_warning t = 0%Z
      /\ tally is_diagnostic t = 0%Z.
Proof.
  intros repository n org r r1 r2 issue_id t1 t2 Hid Hlabels.
  assert (Hq1 : forall f,
             (forall ok, f (Called (IssueNodeId repository n) ok) = false) ->
             tally f t1 = 0%Z).
  { intros f Hf. pose proof (silent_get_issue_id f repository n Hf r) as H.
    rewrite Hid in H. exact H. }
  assert (Hq2 : forall f,
             (forall ok, f (Called (IssueLabels repository n "B") ok) = false) ->
             tally f t2 = 0%Z).
  { intros f Hf. pose proof (silent_get_labels_by_prefix f repository n "B" Hf r1) as H.
    rewrite Hlabels in H. exact H. }
  eexists. split.
  - unfold process_sprint_for_build_labels, bind, try, print, ret.
    rewrite Hid. cbn [app]. rewrite Hlabels. cbn. reflexivity.
  - repeat split;
      repeat (rewrite tally_cons || rewrite tally_app);
      rewrite Hq1, Hq2 by (intros ?; reflexivity); reflexivity.
Qed.

(** ** Counting the iterations set *)

Lemma silent_get_project_by_title :
  forall org title, silent remote iteration_set (get_project_by_title remote gh org title).
Proof.
  intros org title. unfold get_project_by_title, json_loads. silence.
Qed.

Lemma silent_get_iteration_field :
  forall project_id, silent remote iteration_set (get_iteration_field project_id).
Proof.
  intros project_id. unfold GitHubProjectAutomation.get_iteration_field, json_loads.
  silence.
Qed.

Lemma silent_ensure_issue_in_project :
  forall project_id issue_id,
    silent remote iteration_set (ensure_issue_in_project remote gh project_id issue_id).
Proof.
  intros project_id issue_id.
  unfold ensure_issue_in_project, is_issue_in_project, add_issue_to_project.
  silence.
Qed.

Lemma sets_one_bind :
  forall A (m : M remote A) (k : A -> M remote bool),
    silent remote iteration_set m -> (forall a, sets_one remote (k a)) ->
    sets_one remote (bind remote m k).
Proof.
  intros A m k Hm Hk r. specialize (Hm r). unfold bind, trace_of, outcome_of in *.
  destruct (m r) as [[[a|e] r1] t1]; cbn [fst snd] in *; [|exact Hm].
  specialize (Hk a r1). unfold trace_of, outcome_of in Hk.
  destruct (k a r1) as [[o r2] t2]. cbn [fst snd] in *.
  rewrite tally_app. lia.
Qed.

Lemma sets_one_false :
  forall (m : M remote unit),
    silent remote iteration_set m -> sets_one remote (bind remote m (fun _ => ret false)).
Proof.
  intros m Hm r. specialize (Hm r). unfold bind, ret, trace_of, outcome_of in *.
  destruct (m r) as [[[a|e] r1] t1]; cbn [fst snd] in *;
    rewrite ?app_nil_r; exact Hm.
Qed.

Lemma sets_one_update :
  forall project_id item_id field_id iteration_id,
    sets_one remote
      (bind remote
         (_run_gh_api remote gh
            (SetIteration project_id item_id field_id iteration_id))
         (fun _ => ret true)).
Proof.
  intros pid item fid iid r. unfold bind, ret, _run_gh_api, trace_of, outcome_of.
  destruct (gh (SetIteration pid item fid iid) r) as [[out|err] r1]; reflexivity.
Qed.

Lemma sets_one_set_iteration_to_current :
  forall project_id item_id, sets_one remote (set_iteration_to_current project_id item_id).
Proof.
  intros pid item r.
  unfold GitHubProjectAutomation.set_iteration_to_current.
  set (body := bind remote _ _).
  assert (Hbody : sets_one remote body).
  { subst body. apply sets_one_bind; [apply silent_get_iteration_field|].
    intros field_data. destruct (negb (truthy field_data)).
    - apply sets_one_false. apply silent_print. reflexivity.
    - apply sets_one_bind; [apply silent_lift|]. intros field_id.
      apply sets_one_bind; [apply silent_lift|]. intros configuration.
      apply sets_one_bind; [apply silent_lift|]. intros iterations.
      destruct (negb (truthy iterations)).
      + apply sets_one_false. apply silent_print. reflexivity.
      + apply sets_one_bind; [apply silent_lift|]. intros first.
        apply sets_one_bind; [apply silent_lift|]. intros current.
        apply sets_one_update. }
  specialize (Hbody r). unfold try, trace_of, outcome_of in *.
  destruct (body r) as [[[b|e] r1] t1]; cbn [fst snd] in *; [exact Hbody|].
  destruct e; cbn [fst snd print bind ret app]; rewrite ?tally_app, ?tally_cons;
    cbn [iteration_set]; rewrite ?tally_nil; lia.
Qed.

Lemma bind_run :
  forall A B (m : M remote A) (k : A -> M remote B) r,
    bind remote m k r
    = match m r with
      | (Ok a, r1, t1) => let '(o, r2, t2) := k a r1 in (o, r2, (t1 ++ t2)%list)
      | (Raise e, r1, t1) => (Raise e, r1, t1)
      end.
Proof. reflexivity. Qed.

(** One statement further in a run. *)
Ltac step := rewrite bind_run; cbn [print ret lift raise sys_exit].

Ltac tallies :=
  repeat (rewrite tally_cons || rewrite tally_app || rewrite tally_nil);
  cbn [iteration_set is_mutation_call is_warning is_diagnostic is_mutation].

Lemma process_build_label_count :
  forall org issue_id build_label count r count' r' t,
    process_build_label remote gh org "add" issue_id build_label count r
    = (Ok count', r', t) ->
    count' = (count + tally iteration_set t)%Z
    /\ (tally iteration_set t = 0 \/ tally iteration_set t = 1)%Z.
Proof.
  intros org iid build_label c r c' r' t.
  unfold process_build_label. step. step.
  pose proof (silent_get_project_by_title org build_label r) as Hp.
  unfold trace_of in Hp.
  destruct (get_project_by_title remote gh org build_label r)
    as [[[project_data|e] r1] t1]; cbn [snd] in Hp; [|discriminate].
  destruct (negb (truthy project_data)).
  - repeat step. intros H. inversion H; subst. tallies. lia.
  - step. destruct (getitem project_data "id") as [project_id|e]; [|discriminate].
    step.
    destruct (getitem project_data "number") as [project_number|e]; [|discriminate].
    step. rewrite String.eqb_refl. step.
    pose proof (silent_ensure_issue_in_project project_id iid r1) as He.
    unfold trace_of in He.
    destruct (ensure_issue_in_project remote gh project_id iid r1)
      as [[[item_id|e] r2] t2]; cbn [snd] in He; [|discriminate].
    destruct (item_id =? "").
    + repeat step. intros H. inversion H; subst. tallies. lia.
    + repeat step.
      pose proof (sets_one_set_iteration_to_current project_id item_id r2) as Hs.
      unfold trace_of, outcome_of in Hs.
      destruct (set_iteration_to_current project_id item_id r2)
        as [[[updated|e] r3] t3]; cbn [fst snd] in Hs; [|discriminate].
      destruct updated; repeat step; intros H; inversion H; subst; tallies; lia.
Qed.

Lemma for_each_count :
  forall org issue_id build_labels count r count' r' t,
    for_each remote build_labels (process_build_label remote gh org "add" issue_id)
             count r
    = (Ok count', r', t) ->
    count' = (count + tally iteration_set t)%Z.
Proof.
  intros org iid build_labels.
  induction build_labels as [|build_label rest IH]; intros c r c' r' t.
  - cbn [for_each ret]. intros H. inversion H; subst. rewrite tally_nil. lia.
  - cbn [for_each]. unfold bind at 1.
    destruct (process_build_label remote gh org "add" iid build_label c r)
      as [[[c1|e] r1] t1] eqn:Hstep; [|discriminate].
    destruct (for_each remote rest _ c1 r1) as [[o r2] t2] eqn:Hrest.
    intros H. inversion H; subst.
    apply process_build_label_count in Hstep. apply IH in Hrest.
    rewrite tally_app. lia.
Qed.

Lemma try_run :
  forall A (m : M remote A) (h : exn -> option (M remote A)) r,
    try remote m h r
    = match m r with
      | (Ok a, r1, t1) => (Ok a, r1, t1)
      | (Raise e, r1, t1) =>
          match h e with
          | Some k => let '(o, r2, t2) := k r1 in (o, r2, (t1 ++ t2)%list)
          | None => (Raise e, r1, t1)
          end
      end.
Proof. reflexivity. Qed.

(** ** The batch goes on *)

Lemma last_call_app :
  forall t1 t2,
    last_call (t1 ++ t2)
    = match last_call t2 with
      | Some c => Some c
      | None => last_call t1
      end.
Proof.
  induction t1 as [|e t1 IH]; intros t2; cbn [app last_call].
  - destruct (last_call t2); reflexivity.
  - rewrite IH. destruct (last_call t2); reflexivity.
Qed.

Lemma ends_before_app :
  forall t1 t2, ends_before_iteration t2 -> ends_before_iteration (t1 ++ t2).
Proof.
  intros t1 t2 (q & ok & H & Hq). exists q, ok.
  rewrite last_call_app, H. split; [reflexivity | exact Hq].
Qed.

Lemma ends_before_printed :
  forall t s g text,
    ends_before_iteration t -> ends_before_iteration (t ++ [Printed s g text]).
Proof.
  intros t s g text (q & ok & H & Hq). exists q, ok.
  rewrite last_call_app. cbn [last_call is_call]. rewrite H.
  split; [reflexivity | exact Hq].
Qed.

Lemma outlives_ret : forall A (a : A), outlives_iteration_step remote (ret a).
Proof. intros A a r e r' t H. discriminate. Qed.

Lemma outlives_print :
  forall s g text, outlives_iteration_step remote (print remote s g text).
Proof. intros s g text r e r' t H. discriminate. Qed.

Lemma outlives_getitem :
  forall v k, outlives_iteration_step remote (lift (getitem v k)).
Proof.
  intros v k r e r' t. unfold lift.
  destruct v; cbn [getitem]; try (intros H; inversion H; exact I).
  destruct (assoc k d); intros H; inversion H. exact I.
Qed.

Lemma outlives_bind :
  forall A B (m : M remote A) (k : A -> M remote B),
    outlives_iteration_step remote m ->
    (forall a, outlives_iteration_step remote (k a)) ->
    outlives_iteration_step remote (bind remote m k).
Proof.
  intros A B m k Hm Hk r e r' t. rewrite bind_run.
  destruct (m r) as [[[a|e1] r1] t1] eqn:Hrun.
  - destruct (k a r1) as [[o r2] t2] eqn:Hrun2. intros H. inversion H; subst.
    specialize (Hk a r1 e r' t2 Hrun2). destruct e; try exact Hk.
    apply ends_before_app. exact Hk.
  - intros H. inversion H; subst. exact (Hm r e r' t Hrun).
Qed.

Lemma outlives_for_each :
  forall A S (body : A -> S -> M remote S) xs s,
    (forall x s', outlives_iteration_step remote (body x s')) ->
    outlives_iteration_step remote (for_each remote xs body s).
Proof.
  intros A S body xs. induction xs as [|x xs IH]; intros s Hbody.
  - apply outlives_ret.
  - cbn [for_each]. apply outlives_bind; [apply Hbody|].
    intros s'. apply IH. exact Hbody.
Qed.

Lemma outlives_get_issue_id :
  forall repository issue_number,
    outlives_iteration_step remote (get_issue_id remote gh repository issue_number).
Proof.
  intros repository n r e r' t. unfold get_issue_id.
  rewrite try_run. unfold _run_gh_api.
  destruct (gh (IssueNodeId repository n) r) as [[out|err] r1];
    cbn [raise app]; intros H; inversion H; subst.
  exists (IssueNodeId repository n), false. split; reflexivity.
Qed.

Lemma outlives_get_labels_by_prefix :
  forall repository issue_number prefix,
    outlives_iteration_step
      remote (get_labels_by_prefix remote gh repository issue_number prefix).
Proof.
  intros repository n prefix r e r' t. unfold get_labels_by_prefix.
  rewrite try_run, bind_run. unfold _run_gh_api.
  destruct (gh (IssueLabels repository n prefix) r) as [[out|err] r1];
    cbn [ret raise app]; intros H; inversion H; subst.
  exists (IssueLabels repository n prefix), false. split; reflexivity.
Qed.

Lemma outlives_get_project_by_title :
  forall org title,
    outlives_iteration_step remote (get_project_by_title remote gh org title).
Proof.
  intros org title r e r' t. unfold get_project_by_title.
  rewrite try_run, bind_run. unfold _run_gh_api.
  destruct (gh (ProjectsByTitle org title) r) as [[docs|err] r1].
  - destruct docs as [|doc [|doc' docs]];
      cbn [no_output json_loads ret raise app]; intros H; inversion H; subst.
    exists (ProjectsByTitle org title), true. split; reflexivity.
  - cbn [raise app]. intros H; inversion H; subst.
    exists (ProjectsByTitle org title), false. split; reflexivity.
Qed.

Lemma outlives_ensure_issue_in_project :
  forall project_id issue_id,
    outlives_iteration_step
      remote (ensure_issue_in_project remote gh project_id issue_id).
Proof.
  intros pid iid r e r' t.
  unfold ensure_issue_in_project, is_issue_in_project, add_issue_to_project.
  rewrite bind_run, try_run, bind_run. unfold _run_gh_api.
  destruct (gh (ItemsOfIssue pid iid) r) as [[result|err] r1]; cbn [ret raise app].
  - destruct (result =? "") eqn:Hr; cbn [found negb]; rewrite ?Hr; cbn [negb ret].
    + rewrite try_run.
      destruct (gh (AddItem pid iid) r1) as [[out|err] r2]; cbn [raise app];
        intros H; inversion H; subst.
      exists (AddItem pid iid), false. split; reflexivity.
    + discriminate.
  - intros H; inversion H; subst.
    exists (ItemsOfIssue pid iid), false. split; reflexivity.
Qed.

(** No error of a remote call leaves [set_iteration_to_current], and it
    does not end the process. *)
Lemma set_iteration_to_current_raises :
  forall project_id item_id r e r' t,
    set_iteration_to_current project_id item_id r = (Raise e, r', t) ->
    match e with
    | GitHubAPIError _ | SystemExit _ => False
    | _ => True
    end.
Proof.
  intros pid item r e r' t. explore; intros H; inversion H; exact I.
Qed.

Lemma outlives_set_iteration_to_current :
  forall project_id item_id,
    outlives_iteration_step remote (set_iteration_to_current project_id item_id).
Proof.
  intros pid item r e r' t H.
  pose proof (set_iteration_to_current_raises pid item r e r' t H) as He.
  destruct e; try exact I; contradiction.
Qed.

Ltac outliving :=
  repeat first
    [ apply outlives_ret | apply outlives_print | apply outlives_getitem
    | apply outlives_get_project_by_title
    | apply outlives_ensure_issue_in_project
    | apply outlives_set_iteration_to_current
    | apply outlives_bind; [|intros ?]
    | match goal with
      | |- outlives_iteration_step _ (if ?b then _ else _) => destruct b
      end ].

Lemma outlives_process_build_label :
  forall org issue_id build_label count,
    outlives_iteration_step
      remote (process_build_label remote gh org "add" issue_id build_label count).
Proof.
  intros org iid build_label c. unfold process_build_label.
  change ("add" =? "add") with true. cbv iota. outliving.
Qed.

(** ** The title lookups of a batch *)

Lemma tally_zero_filter : forall f t, tally f t = 0%Z -> filter f t = [].
Proof.
  intros f t H. unfold tally in H.
  destruct (filter f t); [reflexivity | cbn [List.length] in H; lia].
Qed.

Lemma get_project_by_title_trace :
  forall org title r project_data r1 t,
    get_project_by_title remote gh org title r = (Ok project_data, r1, t) ->
    t = [Called (ProjectsByTitle org title) true].
Proof.
  intros org title r project_data r1 t. unfold get_project_by_title.
  rewrite try_run, bind_run. unfold _run_gh_api.
  destruct (gh (ProjectsByTitle org title) r) as [[docs|err] r2].
  - destruct docs as [|doc [|doc' docs]];
      cbn [no_output json_loads ret raise app]; intros H; inversion H; reflexivity.
  - cbn [raise app]. discriminate.
Qed.

Lemma process_build_label_lookups :
  forall org issue_id build_label count r count' r' t,
    process_build_label remote gh org "add" issue_id build_label count r
    = (Ok count', r', t) ->
    filter looks_up_title t = [Called (ProjectsByTitle org build_label) true].
Proof.
  intros org iid build_label c r c' r' t.
  unfold process_build_label. step. step.
  destruct (get_project_by_title remote gh org build_label r)
    as [[[project_data|e] r1] t1] eqn:Hp; [|discriminate].
  apply get_project_by_title_trace in Hp. subst t1.
  destruct (negb (truthy project_data)).
  - repeat step. intros H. inversion H; subst. reflexivity.
  - step. destruct (getitem project_data "id") as [project_id|e]; [|discriminate].
    step.
    destruct (getitem project_data "number") as [project_number|e]; [|discriminate].
    step. rewrite String.eqb_refl. step.
    assert (He : silent remote looks_up_title
                        (ensure_issue_in_project remote gh project_id iid))
      by (unfold ensure_issue_in_project, is_issue_in_project,
                 add_issue_to_project; silence).
    specialize (He r1). unfold trace_of in He.
    destruct (ensure_issue_in_project remote gh project_id iid r1)
      as [[[item_id|e] r2] t2]; cbn [snd] in He; [|discriminate].
    apply tally_zero_filter in He.
    destruct (item_id =? "").
    + repeat step. intros H. inversion H; subst.
      cbn [app filter looks_up_title]. rewrite filter_app, He. reflexivity.
    + repeat step.
      assert (Hs : silent remote looks_up_title
                          (set_iteration_to_current project_id item_id))
        by (unfold GitHubProjectAutomation.set_iteration_to_current,
                   GitHubProjectAutomation.get_iteration_field, json_loads;
            silence).
      specialize (Hs r2). unfold trace_of in Hs.
      destruct (set_iteration_to_current project_id item_id r2)
        as [[[updated|e] r3] t3]; cbn [snd] in Hs; [|discriminate].
      apply tally_zero_filter in Hs.
      destruct updated; repeat step; intros H; inversion H; subst;
        cbn [app filter looks_up_title];
        rewrite filter_app, He; cbn [app filter looks_up_title];
        rewrite filter_app, Hs; reflexivity.
Qed.

Lemma for_each_lookups :
  forall org issue_id build_labels count r count' r' t,
    for_each remote build_labels (process_build_label remote gh org "add" issue_id)
             count r
    = (Ok count', r', t) ->
    filter looks_up_title t
    = map (fun build_label => Called (ProjectsByTitle org build_label) true)
          build_labels.
Proof.
  intros org iid build_labels.
  induction build_labels as [|build_label rest IH]; intros c r c' r' t.
  - cbn [for_each ret]. intros H. inversion H; subst. reflexivity.
  - cbn [for_each]. unfold bind at 1.
    destruct (process_build_label remote gh org "add" iid build_label c r)
      as [[[c1|e] r1] t1] eqn:Hstep; [|discriminate].
    destruct (for_each remote rest _ c1 r1) as [[o r2] t2] eqn:Hrest.
    intros H. inversion H; subst.
    apply process_build_label_lookups in Hstep. apply IH in Hrest.
    rewrite filter_app, Hstep, Hrest. reflexivity.
Qed.

(** ** The loop over the build labels *)

(** A label with no project of its title is skipped, and the loop goes on
    with the count it had. *)
Lemma skipped_label_goes_on :
  forall (org : string),
    (forall issue_id build_label rest count r0 r1,
        gh (ProjectsByTitle org build_label) r0 = (Replied [], r1) ->
        for_each remote (build_label :: rest)
                 (process_build_label remote gh org "add" issue_id) count r0
        = let '(o, r2, t) :=
            for_each remote rest
                     (process_build_label remote gh org "add" issue_id) count r1 in
          (o, r2,
           [Printed stdout plain
              [Lit "Processing "; Lit "add"; Lit " for build: "; Lit build_label];
            Called (ProjectsByTitle org build_label) true;
            Printed stdout warning
              [Lit "No project found for build '"; Lit build_label;
               Lit "' - skipping"];
            Printed stdout plain []] ++ t)%list).
Proof.
  intros org iid build_label rest c r0 r1 Hgh.
  cbn [for_each]. rewrite bind_run.
  unfold process_build_label at 1. step. step.
  unfold get_project_by_title at 1. rewrite try_run. step.
  unfold _run_gh_api at 1. rewrite Hgh. cbn [no_output ret truthy negb].
  repeat step.
  destruct (for_each remote rest _ c r1) as [[o r2] t]. reflexivity.
Qed.

(** A label whose project is found and holds the issue: the loop goes on
    whether the iteration was set or not, with one more in the count where
    it was. *)
Lemma worked_label_goes_on :
  forall (org : string),
    (forall issue_id build_label rest count r0 r1 r2 r3 d project_id
            project_number item_id (updated : bool) t1 t2 t3,
        get_project_by_title remote gh org build_label r0
        = (Ok (VDict d), r1, t1) ->
        assoc "id" d = Some project_id ->
        assoc "number" d = Some project_number ->
        ensure_issue_in_project remote gh project_id issue_id r1
        = (Ok item_id, r2, t2) ->
        item_id <> "" ->
        set_iteration_to_current project_id item_id r2 = (Ok updated, r3, t3) ->
        for_each remote (build_label :: rest)
                 (process_build_label remote gh org "add" issue_id) count r0
        = let '(o, r4, t) :=
            for_each remote rest
                     (process_build_label remote gh org "add" issue_id)
                     (if updated then count + 1 else count)%Z r3 in
          (o, r4,
           [Printed stdout plain
              [Lit "Processing "; Lit "add"; Lit " for build: ";
               Lit build_label]]
           ++ t1
           ++ [Printed stdout plain
                 [Lit "Found project #"; Val project_number; Lit ": ";
                  Lit build_label]]
           ++ t2
           ++ [Printed stdout success
                 [Lit "Issue in project (item: "; Lit item_id; Lit ")"]]
           ++ t3
           ++ [if updated then
                 Printed stdout success
                   [Lit "Set iteration to @current in project #";
                    Val project_number]
               else
                 Printed stdout failure
                   [Lit "Failed to set iteration in project #";
                    Val project_number];
               Printed stdout plain []]
           ++ t)%list).
Proof.
  intros org iid build_label rest c r0 r1 r2 r3 d pid num item updated t1 t2 t3
         Hp Hid Hnum He Hitem Hs.
  assert (Hd : truthy (VDict d) = true)
    by (destruct d; [discriminate | reflexivity]).
  apply String.eqb_neq in Hitem.
  cbn [for_each]. rewrite bind_run.
  unfold process_build_label at 1. step. step. rewrite Hp, Hd.
  cbn [negb getitem]. rewrite Hid. step. rewrite Hnum. step. step.
  rewrite String.eqb_refl. step. rewrite He, Hitem. step. step. rewrite Hs.
  destruct updated; repeat step;
    destruct (for_each remote rest _ _ r3) as [[o r4] t];
    cbn [app]; repeat (rewrite <- app_assoc; cbn [app]); reflexivity.
Qed.

(** The count of [add] is the number of set-iteration mutations the remote
    accepted. *)
Lemma process_sprint_count :
  forall (repository : string) (issue_number : Z) (org : string) (r : remote),
    (forall count r' t,
        process_sprint_for_build_labels remote gh repository issue_number org
                                        "add" r
        = (Ok count, r', t) ->
        count = tally iteration_set t).
Proof.
  intros repository n org r k r' t.
  unfold process_sprint_for_build_labels. rewrite String.eqb_refl.
  step. rewrite try_run. step.
  pose proof (silent_get_issue_id iteration_set repository n
                (fun _ => eq_refl) r) as Hid.
  unfold trace_of in Hid.
  destruct (get_issue_id remote gh repository n r) as [[[issue_id|e] r1] t1];
    cbn [snd] in Hid;
    [|destruct e; repeat step; discriminate].
  repeat step.
  pose proof (silent_get_labels_by_prefix iteration_set repository n "B"
                (fun _ => eq_refl) r1) as Hlabels.
  unfold trace_of in Hlabels.
  destruct (get_labels_by_prefix remote gh repository n "B" r1)
    as [[[build_labels|e] r2] t2];
    cbn [snd] in Hlabels;
    [|destruct e; repeat step; discriminate].
  destruct build_labels as [|build_label rest].
  - repeat step. intros H. inversion H; subst. tallies. lia.
  - repeat step.
    destruct (for_each remote (build_label :: rest) _ 0%Z r2)
      as [[[count|e] r3] t3] eqn:Hloop;
      [|destruct e; repeat step; discriminate].
    apply for_each_count in Hloop.
    destruct (count >? 0)%Z; repeat step; intros H; inversion H; subst;
      tallies; lia.
Qed.

(** With build labels on the issue, [add] is the loop over all of them,
    from the count 0. *)
Lemma process_sprint_runs_the_loop :
  forall (repository : string) (issue_number : Z) (org : string) (r : remote)
         issue_id build_label rest r1 r2 t1 t2,
    get_issue_id remote gh repository issue_number r = (Ok issue_id, r1, t1) ->
    get_labels_by_prefix remote gh repository issue_number "B" r1
    = (Ok (build_label :: rest), r2, t2) ->
    (forall count r3 t3,
        for_each remote (build_label :: rest)
                 (process_build_label remote gh org "add" issue_id) 0%Z r2
        = (Ok count, r3, t3) ->
        process_sprint_for_build_labels remote gh repository issue_number
                                        org "add" r
        = (Ok count, r3,
           [Printed stdout plain
              [Lit "Adding to"; Lit " sprint for issue #";
               Val (VInt issue_number)]]
           ++ t1
           ++ [Printed stdout plain [Lit "Issue node ID: "; Lit issue_id]]
           ++ t2
           ++ [Printed stdout plain
                 [Lit "Found build labels: ";
                  Lit (String.concat ", " (build_label :: rest))];
               Printed stdout plain []]
           ++ t3
           ++ [if (count >? 0)%Z then
                 Printed stdout success
                   [Lit "Sprint "; Lit "add"; Lit " complete (";
                    Val (VInt count); Lit " project(s) updated)"]
               else
                 Printed stdout warning [Lit "No projects were updated"]])%list).
Proof.
  intros repository n org r iid build_label rest r1 r2 t1 t2 Hid Hlabels
         count r3 t3 Hloop.
  unfold process_sprint_for_build_labels. rewrite String.eqb_refl.
  step. rewrite try_run. step. rewrite Hid. repeat step. rewrite Hlabels.
  repeat step. rewrite Hloop.
  destruct (count >? 0)%Z; repeat step;
    cbn [app]; repeat (rewrite <- app_assoc; cbn [app]);
    rewrite ?app_nil_r; reflexivity.
Qed.

(** C1.  With [add] every build label is worked on by itself, in the order
    of the labels and from the count 0.  A label with no project of that
    title is skipped with a warning and the labels after it are worked on
    as before.  A label whose project is found adds one to the count when
    its last step, the set-iteration mutation, is accepted by the remote
    and nothing otherwise, and the labels after it are worked on in either
    case.  The count returned is the count of the loop over all the labels
    and the number of the mutations accepted, and a run that returns has
    looked up the title of every label, once and in order.  Where the
    operation ends the process instead, the status is 1 and the last call
    was none of the iteration step: a failure to set the iteration ends
    nothing.  In particular, with two build labels of which the first is
    the title of a project, where the iteration is set, and the second is
    the title of none, one project is updated and the result is 1. *)
Theorem add_counts_each_build_label :
  forall (repository : string) (issue_number : Z) (org : string) (r : remote),
    (forall issue_id build_label rest count r0 r1,
        gh (ProjectsByTitle org build_label) r0 = (Replied [], r1) ->
        for_each remote (build_label :: rest)
                 (process_build_label remote gh org "add" issue_id) count r0
        = let '(o, r2, t) :=
            for_each remote rest
                     (process_build_label remote gh org "add" issue_id) count r1 in
          (o, r2,
           [Printed stdout plain
              [Lit "Processing "; Lit "add"; Lit " for build: "; Lit build_label];
            Called (ProjectsByTitle org build_label) true;
            Printed stdout warning
              [Lit "No project found for build '"; Lit build_label;
               Lit "' - skipping"];
            Printed stdout plain []] ++ t)%list)
    /\ (forall issue_id build_label rest count r0 r1 r2 r3 d project_id
               project_number item_id (updated : bool) t1 t2 t3,
           get_project_by_title remote gh org build_label r0
           = (Ok (VDict d), r1, t1) ->
           assoc "id" d = Some project_id ->
           assoc "number" d = Some project_number ->
           ensure_issue_in_project remote gh project_id issue_id r1
           = (Ok item_id, r2, t2) ->
           item_id <> "" ->
           set_iteration_to_current project_id item_id r2 = (Ok updated, r3, t3) ->
           for_each remote (build_label :: rest)
                    (process_build_label remote gh org "add" issue_id) count r0
           = let '(o, r4, t) :=
               for_each remote rest
                        (process_build_label remote gh org "add" issue_id)
                        (if updated then count + 1 else count)%Z r3 in
             (o, r4,
              [Printed stdout plain
                 [Lit "Processing "; Lit "add"; Lit " for build: ";
                  Lit build_label]]
              ++ t1
              ++ [Printed stdout plain
                    [Lit "Found project #"; Val project_number; Lit ": ";
                     Lit build_label]]
              ++ t2
              ++ [Printed stdout success
                    [Lit "Issue in project (item: "; Lit item_id; Lit ")"]]
              ++ t3
              ++ [if updated then
                    Printed stdout success
                      [Lit "Set iteration to @current in project #";
                       Val project_number]
                  else
                    Printed stdout failure
                      [Lit "Failed to set iteration in project #";
                       Val project_number];
                  Printed stdout plain []]
              ++ t)%list)
    /\ (forall issue_id build_label count r0 count' r1 t,
           process_build_label remote gh org "add" issue_id build_label count r0
           = (Ok count', r1, t) ->
           count' = (count + tally iteration_set t)%Z
           /\ (tally iteration_set t = 0 \/ tally iteration_set t = 1)%Z)
    /\ (forall count r' t,
           process_sprint_for_build_labels remote gh repository issue_number org
                                           "add" r
           = (Ok count, r', t) ->
           count = tally iteration_set t)
    /\ (forall issue_id build_label rest r1 r2 t1 t2,
           get_issue_id remote gh repository issue_number r
           = (Ok issue_id, r1, t1) ->
           get_labels_by_prefix remote gh repository issue_number "B" r1
           = (Ok (build_label :: rest), r2, t2) ->
           (forall count r3 t3,
               for_each remote (build_label :: rest)
                        (process_build_label remote gh org "add" issue_id) 0%Z r2
               = (Ok count, r3, t3) ->
               process_sprint_for_build_labels remote gh repository issue_number
                                               org "add" r
               = (Ok count, r3,
                  [Printed stdout plain
                     [Lit "Adding to"; Lit " sprint for issue #";
                      Val (VInt issue_number)]]
                  ++ t1
                  ++ [Printed stdout plain [Lit "Issue node ID: "; Lit issue_id]]
                  ++ t2
                  ++ [Printed stdout plain
                        [Lit "Found build labels: ";
                         Lit (String.concat ", " (build_label :: rest))];
                      Printed stdout plain []]
                  ++ t3
                  ++ [if (count >? 0)%Z then
                        Printed stdout success
                          [Lit "Sprint "; Lit "add"; Lit " complete (";
                           Val (VInt count); Lit " project(s) updated)"]
                      else
                        Printed stdout warning [Lit "No projects were updated"]])%list)
           /\ (forall count r' t,
                  process_sprint_for_build_labels remote gh repository
                                                  issue_number org "add" r
                  = (Ok count, r', t) ->
                  filter looks_up_title t
                  = map (fun label => Called (ProjectsByTitle org label) true)
                        (build_label :: rest)))
    /\ (forall code r' t,
           process_sprint_for_build_labels remote gh repository issue_number org
                                           "add" r
           = (Raise (SystemExit code), r', t) ->
           code = 1%Z /\ ends_before_iteration t)
    /\ (forall issue_id first second r1 r2 r3 r4 r5 r6 d project_id
               project_number item_id t1 t2 t3 t4 t5,
           get_issue_id remote gh repository issue_number r
           = (Ok issue_id, r1, t1) ->
           get_labels_by_prefix remote gh repository issue_number "B" r1
           = (Ok [first; second], r2, t2) ->
           get_project_by_title remote gh org first r2 = (Ok (VDict d), r3, t3) ->
           assoc "id" d = Some project_id ->
           assoc "number" d = Some project_number ->
           ensure_issue_in_project remote gh project_id issue_id r3
           = (Ok item_id, r4, t4) ->
           item_id <> "" ->
           set_iteration_to_current project_id item_id r4 = (Ok true, r5, t5) ->
           gh (ProjectsByTitle org second) r5 = (Replied [], r6) ->
           let run := process_sprint_for_build_labels
                        remote gh repository issue_number org "add" r in
           outcome_of run = Ok 1%Z
           /\ remote_of run = r6
           /\ tally iteration_set (trace_of run) = 1%Z
           /\ filter looks_up_title (trace_of run)
              = [Called (ProjectsByTitle org first) true;
                 Called (ProjectsByTitle org second) true]).
Proof.
  intros repository n org r.
  assert (Hlookups :
            forall iid build_label rest r1 r2 t1 t2,
              get_issue_id remote gh repository n r = (Ok iid, r1, t1) ->
              get_labels_by_prefix remote gh repository n "B" r1
              = (Ok (build_label :: rest), r2, t2) ->
              forall count r' t,
                process_sprint_for_build_labels remote gh repository n org "add" r
                = (Ok count, r', t) ->
                filter looks_up_title t
                = map (fun label => Called (ProjectsByTitle org label) true)
                      (build_label :: rest)).
  { intros iid build_label rest r1 r2 t1 t2 Hid Hlabels count r' t Hok.
    pose proof (process_sprint_runs_the_loop repository n org r iid build_label
                  rest r1 r2 t1 t2 Hid Hlabels) as Hrun.
    destruct (for_each remote (build_label :: rest)
                       (process_build_label remote gh org "add" iid) 0%Z r2)
      as [[[count'|e] r3] t3] eqn:Hloop.
    - rewrite (Hrun count' r3 t3 eq_refl) in Hok. inversion Hok; subst.
      pose proof (silent_get_issue_id looks_up_title repository n
                    (fun _ => eq_refl) r) as H1.
      unfold trace_of in H1. rewrite Hid in H1. cbn [snd] in H1.
      pose proof (silent_get_labels_by_prefix looks_up_title repository n "B"
                    (fun _ => eq_refl) r1) as H2.
      unfold trace_of in H2. rewrite Hlabels in H2. cbn [snd] in H2.
      apply tally_zero_filter in H1. apply tally_zero_filter in H2.
      apply for_each_lookups in Hloop.
      cbn [app filter looks_up_title]. rewrite filter_app, H1.
      cbn [app filter looks_up_title]. rewrite filter_app, H2.
      cbn [app filter looks_up_title]. rewrite filter_app, Hloop.
      destruct (count >? 0)%Z; cbn [filter looks_up_title];
        rewrite app_nil_r; reflexivity.
    - exfalso. revert Hok.
      unfold process_sprint_for_build_labels. rewrite String.eqb_refl.
      step. rewrite try_run. step. rewrite Hid. repeat step. rewrite Hlabels.
      repeat step. rewrite Hloop. destruct e; repeat step; discriminate. }
  split; [exact (skipped_label_goes_on org)|].
  split; [exact (worked_label_goes_on org)|].
  split; [exact (process_build_label_count org)|].
  split; [exact (process_sprint_count repository n org r)|].
  split; [|split].
  - intros iid build_label rest r1 r2 t1 t2 Hid Hlabels. split.
    + exact (process_sprint_runs_the_loop repository n org r iid build_label
               rest r1 r2 t1 t2 Hid Hlabels).
    + exact (Hlookups iid build_label rest r1 r2 t1 t2 Hid Hlabels).
  - intros code r' t.
    unfold process_sprint_for_build_labels. rewrite String.eqb_refl.
    step. rewrite try_run.
    set (body := bind remote (get_issue_id remote gh repository n) _).
    assert (Hbody : outlives_iteration_step remote body).
    { subst body.
      apply outlives_bind; [apply outlives_get_issue_id|]. intros issue_id.
      apply outlives_bind; [apply outlives_print|]. intros _.
      apply outlives_bind; [apply outlives_get_labels_by_prefix|].
      intros [|build_label rest].
      - apply outlives_bind; [|intros _; apply outlives_ret].
        apply outlives_bind; [apply outlives_print|].
        intros _. apply outlives_print.
      - apply outlives_bind; [apply outlives_print|]. intros _.
        apply outlives_bind; [apply outlives_print|]. intros _.
        apply outlives_bind;
          [apply outlives_for_each; intros; apply outlives_process_build_label|].
        intros success_count.
        apply outlives_bind; [|intros _; apply outlives_ret].
        destruct (success_count >? 0)%Z; apply outlives_print. }
    destruct (body r) as [[[count|e] r1] t1] eqn:Hrun; [discriminate|].
    specialize (Hbody r e r1 t1 Hrun).
    destruct e; try discriminate; [|contradiction].
    repeat step. intros H. inversion H; subst. split; [reflexivity|].
    apply (ends_before_app [_]). apply ends_before_printed. exact Hbody.
  - intros iid first second r1 r2 r3 r4 r5 r6 d pid num item t1 t2 t3 t4 t5
           Hid Hlabels Hp Hpid Hnum He Hitem Hs Hnone run.
    pose proof (worked_label_goes_on org iid first [second] 0%Z r2 r3 r4 r5 d
                  pid num item true t3 t4 t5 Hp Hpid Hnum He Hitem Hs) as Hloop.
    cbv iota in Hloop.
    rewrite (skipped_label_goes_on org iid second [] (0 + 1)%Z r5 r6 Hnone)
      in Hloop.
    cbn [for_each ret] in Hloop.
    pose proof (process_sprint_runs_the_loop repository n org r iid first
                  [second] r1 r2 t1 t2 Hid Hlabels _ _ _ Hloop) as Hrun.
    change (0 + 1)%Z with 1%Z in Hrun.
    pose proof (process_sprint_count repository n org r _ _ _ Hrun) as Hcount.
    pose proof (Hlookups iid first [second] r1 r2 t1 t2 Hid Hlabels _ _ _ Hrun)
      as Hlook.
    subst run. rewrite Hrun. cbn [outcome_of remote_of trace_of fst snd].
    repeat split; [symmetry; exact Hcount | exact Hlook].
Qed.

(** ** Membership *)

Lemma is_issue_in_project_found :
  forall project_id issue_id r item_id r1 t,
    is_issue_in_project remote gh project_id issue_id r = (Ok (Some item_id), r1, t) ->
    (item_id =? "") = false.
Proof.
  intros pid iid r item r1 t. unfold is_issue_in_project.
  rewrite try_run, bind_run. unfold _run_gh_api.
  destruct (gh (ItemsOfIssue pid iid) r) as [[result|err] r2]; cbn [ret raise].
  - destruct (result =? "") eqn:He; intros H; inversion H; subst. exact He.
  - discriminate.
Qed.

Lemma ensure_returns_existing :
  forall project_id issue_id r item_id r1 t,
    is_issue_in_project remote gh project_id issue_id r = (Ok (Some item_id), r1, t) ->
    ensure_issue_in_project remote gh project_id issue_id r = (Ok item_id, r1, t).
Proof.
  intros pid iid r item r1 t H.
  pose proof (is_issue_in_project_found _ _ _ _ _ _ H) as Hne.
  unfold ensure_issue_in_project. rewrite bind_run, H.
  cbn [found text negb]. rewrite Hne. cbn [negb ret]. rewrite app_nil_r.
  reflexivity.
Qed.

Lemma ensure_delegates :
  forall project_id issue_id r r1 t,
    is_issue_in_project remote gh project_id issue_id r = (Ok None, r1, t) ->
    ensure_issue_in_project remote gh project_id issue_id r
    = let '(o, r2, t2) := add_issue_to_project remote gh project_id issue_id r1 in
      (o, r2, (t ++ t2)%list).
Proof.
  intros pid iid r r1 t H.
  unfold ensure_issue_in_project. rewrite bind_run, H. reflexivity.
Qed.

(** ** The exit status *)

Lemma get_labels_by_prefix_raises :
  forall repository issue_number prefix r e r1 t,
    get_labels_by_prefix remote gh repository issue_number prefix r = (Raise e, r1, t) ->
    exists msg, e = GitHubAPIError msg.
Proof.
  intros repository n prefix r e r1 t. unfold get_labels_by_prefix.
  rewrite try_run, bind_run. unfold _run_gh_api.
  destruct (gh (IssueLabels repository n prefix) r) as [[result|err] r2];
    cbn [ret raise]; intros H; inversion H; subst. eexists. reflexivity.
Qed.

(** C7, as the script has it.  The exit status follows the action: for
    [add-to-build-project] it is 0 for [True] and 1 for [False]; for the
    two sprint actions it is 0 when a project was updated and, when none
    was, 1 only if the issue has a build label or its labels cannot be
    listed.  An issue with no build label gives 0, for [add-to-sprint]
    too. *)
Theorem exit_code_of_main :
  forall (a : args) (r : remote),
    (action a = add_to_build_project ->
     found (label a) = true ->
     forall success r1 t,
       add_issue_to_build_project remote gh (repository a) (issue_number a)
                                  (org a) (text (label a)) r
       = (Ok success, r1, t) ->
       exit_code (outcome_of (main remote gh a r))
       = if (success : bool) then 0%Z else 1%Z)
    /\ (action a <> add_to_build_project ->
        forall success_count r1 t,
          process_sprint_for_build_labels
            remote gh (repository a) (issue_number a) (org a)
            (match action a with add_to_sprint => "add" | _ => "remove" end) r
          = (Ok success_count, r1, t) ->
          exit_code (outcome_of (main remote gh a r))
          = if (success_count =? 0)%Z then
              match outcome_of (get_labels_by_prefix
                                  remote gh (repository a) (issue_number a) "B" r1)
              with
              | Ok [] => 0%Z
              | _ => 1%Z
              end
            else 0%Z).
Proof.
  intros a r. split.
  - intros Ha Hlabel success r1 t Hrun. unfold main. rewrite Ha, Hlabel.
    cbn [negb]. rewrite bind_run, Hrun. cbn [sys_exit raise].
    destruct success; reflexivity.
  - intros Ha count r1 t Hrun. unfold main.
    destruct (action a) eqn:Hact; [| |contradiction];
      rewrite bind_run, Hrun;
      (destruct (count =? 0)%Z; [|reflexivity]);
      rewrite try_run, bind_run;
      destruct (get_labels_by_prefix remote gh (repository a) (issue_number a)
                                     "B" r1)
        as [[[labels|e] r2] t2] eqn:Hl; cbn [outcome_of fst];
      try (destruct labels; reflexivity);
      apply get_labels_by_prefix_raises in Hl; destruct Hl as [msg ->];
      reflexivity.
Qed.

(** ** The labels of an issue *)

Lemma append_nil_r : forall s : string, s ++ "" = s.
Proof. induction s as [|c s IH]; [reflexivity|]. cbn. rewrite IH. reflexivity. Qed.

Lemma append_assoc : forall s1 s2 s3 : string, (s1 ++ s2) ++ s3 = s1 ++ (s2 ++ s3).
Proof.
  induction s1 as [|c s1 IH]; intros s2 s3; [reflexivity|].
  cbn. rewrite IH. reflexivity.
Qed.

Lemma newline_free_app :
  forall s1 s2,
    newline_free (s1 ++ s2) = newline_free s1 && newline_free s2.
Proof.
  induction s1 as [|c s1 IH]; intros s2; [reflexivity|].
  cbn [append newline_free]. rewrite IH, andb_assoc. reflexivity.
Qed.

Lemma split_at_newline_free :
  forall s cur,
    newline_free cur = true ->
    Forall (fun l => newline_free l = true) (split_at newline s cur).
Proof.
  induction s as [|c s IH]; intros cur Hcur; cbn [split_at].
  - constructor; [exact Hcur | constructor].
  - destruct (Ascii.eqb c newline) eqn:Hc.
    + constructor; [exact Hcur | apply IH; reflexivity].
    + apply IH. rewrite newline_free_app, Hcur. cbn [newline_free].
      rewrite Hc. reflexivity.
Qed.

Lemma split_at_app :
  forall s rest cur,
    newline_free s = true ->
    split_at newline (s ++ rest) cur = split_at newline rest (cur ++ s).
Proof.
  induction s as [|c s IH]; intros rest cur Hs.
  - rewrite append_nil_r. reflexivity.
  - cbn [newline_free] in Hs. apply andb_prop in Hs. destruct Hs as [Hc Hs].
    apply negb_true_iff in Hc. cbn [append split_at]. rewrite Hc.
    rewrite (IH rest _ Hs), append_assoc. reflexivity.
Qed.

(** Lines put together with line breaks come apart as they were. *)
Lemma split_concat :
  forall l ls,
    forallb newline_free (l :: ls) = true ->
    split newline (String.concat (String newline "") (l :: ls)) = l :: ls.
Proof.
  intros l ls. revert l. unfold split.
  induction ls as [|l' ls IH]; intros l Hl; cbn [forallb] in Hl;
    apply andb_prop in Hl; destruct Hl as [Hl Hls].
  - cbn [String.concat]. rewrite <- (append_nil_r l) at 1.
    rewrite (split_at_app l "" "" Hl). reflexivity.
  - change (String.concat (String newline "") (l :: l' :: ls))
      with (l ++ String newline (String.concat (String newline "") (l' :: ls))).
    rewrite (split_at_app l _ "" Hl). cbn [split_at append].
    rewrite Ascii.eqb_refl. rewrite (IH l' Hls). reflexivity.
Qed.


(** What [get_labels_by_prefix] makes of the text of the remote. *)
Lemma get_labels_by_prefix_run :
  forall repository issue_number prefix r,
    get_labels_by_prefix remote gh repository issue_number prefix r
    = match gh (IssueLabels repository issue_number prefix) r with
      | (Replied result, r1) =>
          (Ok (filter (fun label => negb (label =? ""))
                      (split newline result)), r1,
           [Called (IssueLabels repository issue_number prefix) true])
      | (Rejected err, r1) =>
          (Raise (GitHubAPIError
                    [Lit "Failed to get labels: ";
                     Exn (GitHubAPIError [Lit "API call failed: "; Lit err])]),
           r1, [Called (IssueLabels repository issue_number prefix) false])
      end.
Proof.
  intros repository n prefix r. unfold get_labels_by_prefix.
  rewrite try_run, bind_run. unfold _run_gh_api.
  destruct (gh (IssueLabels repository n prefix) r) as [[result|err] r1];
    reflexivity.
Qed.

Lemma get_labels_by_prefix_trace :
  forall repository issue_number prefix r labels r1 t,
    get_labels_by_prefix remote gh repository issue_number prefix r
    = (Ok labels, r1, t) ->
    t = [Called (IssueLabels repository issue_number prefix) true].
Proof.
  intros repository n prefix r labels r1 t.
  rewrite get_labels_by_prefix_run.
  destruct (gh (IssueLabels repository n prefix) r) as [[result|err] r2];
    intros H; inversion H. reflexivity.
Qed.

Lemma get_issue_id_trace :
  forall repository issue_number r issue_id r1 t,
    get_issue_id remote gh repository issue_number r = (Ok issue_id, r1, t) ->
    t = [Called (IssueNodeId repository issue_number) true].
Proof.
  intros repository n r issue_id r1 t.
  unfold get_issue_id. rewrite try_run. unfold _run_gh_api.
  destruct (gh (IssueNodeId repository n) r) as [[out|err] r0];
    intros H; inversion H. reflexivity.
Qed.

(** A text is its lines put together with line breaks. *)
Lemma concat_split_at :
  forall s cur,
    String.concat (String newline "") (split_at newline s cur) = cur ++ s.
Proof.
  induction s as [|c s IH]; intros cur; cbn [split_at].
  - cbn [String.concat]. rewrite append_nil_r. reflexivity.
  - destruct (Ascii.eqb c newline) eqn:Hc.
    + apply Ascii.eqb_eq in Hc. subst c. specialize (IH "").
      destruct (split_at newline s "") as [|l ls] eqn:Hs.
      * destruct s; cbn [split_at] in Hs; [discriminate|].
        cbn [String.concat append] in IH. discriminate.
      * change (String.concat (String newline "") (cur :: l :: ls))
          with (cur ++ String newline
                         (String.concat (String newline "") (l :: ls))).
        rewrite IH. reflexivity.
    + rewrite IH, append_assoc. reflexivity.
Qed.

(** X1.  The labels [get_labels_by_prefix] returns are the lines of the
    output that are not empty, in their order: the output is lines put
    together with line breaks, and however it is written so, the labels
    are the lines that are not empty.  No label is empty or has a line
    break in it, whatever the remote printed, and the listing is the one
    call made. *)
Theorem get_labels_by_prefix_lines :
  forall (repository : string) (issue_number : Z) (prefix : string)
         (r r1 : remote) (output : string),
    gh (IssueLabels repository issue_number prefix) r = (Replied output, r1) ->
    exists labels,
      get_labels_by_prefix remote gh repository issue_number prefix r
      = (Ok labels, r1, [Called (IssueLabels repository issue_number prefix) true])
      /\ Forall (fun label => label <> "" /\ newline_free label = true) labels
      /\ (exists lines,
             forallb newline_free lines = true
             /\ output = String.concat (String newline "") lines)
      /\ (forall lines,
             forallb newline_free lines = true ->
             output = String.concat (String newline "") lines ->
             labels = filter (fun line => negb (line =? "")) lines).
Proof.
  intros repository n prefix r r1 output Hgh.
  exists (filter (fun label => negb (label =? "")) (split newline output)).
  pose proof (split_at_newline_free output "" eq_refl) as Hall.
  split; [rewrite get_labels_by_prefix_run, Hgh; reflexivity|].
  split; [|split].
  - apply Forall_forall. intros label Hin. apply filter_In in Hin.
    destruct Hin as [Hin Hne]. split.
    + apply negb_true_iff, String.eqb_neq in Hne. exact Hne.
    + rewrite Forall_forall in Hall. apply Hall. exact Hin.
  - exists (split newline output). split.
    + apply forallb_forall. rewrite Forall_forall in Hall. exact Hall.
    + unfold split. rewrite concat_split_at. reflexivity.
  - intros lines Hlines ->. destruct lines as [|l ls]; [reflexivity|].
    rewrite (split_concat l ls Hlines). reflexivity.
Qed.

(** ** What an action never sends *)

Lemma silent_for_each :
  forall f A S (body : A -> S -> M remote S) xs s,
    (forall x s', silent remote f (body x s')) ->
    silent remote f (for_each remote xs body s).
Proof.
  intros f A S body xs. induction xs as [|x xs IH]; intros s Hbody.
  - apply silent_ret.
  - cbn [for_each]. apply silent_bind; [apply Hbody|].
    intros s'. apply IH. exact Hbody.
Qed.

Ltac open_operations :=
  unfold process_build_label, add_issue_to_build_project,
         GitHubProjectAutomation.set_iteration_to_current,
         GitHubProjectAutomation.clear_iteration,
         GitHubProjectAutomation.get_iteration_field,
         get_project_by_title, ensure_issue_in_project,
         is_issue_in_project, add_issue_to_project,
         get_issue_id, get_labels_by_prefix, json_loads, sys_exit.

Lemma silent_process_sprint :
  forall f repository issue_number org action,
    (forall s g text, f (Printed s g text) = false) ->
    (forall ok, f (Called (IssueNodeId repository issue_number) ok) = false) ->
    (forall ok, f (Called (IssueLabels repository issue_number "B") ok) = false) ->
    (forall issue_id x c,
        silent remote f (process_build_label remote gh org action issue_id x c)) ->
    silent remote f
           (process_sprint_for_build_labels remote gh repository issue_number
                                            org action).
Proof.
  intros f repository n org action Hprint Hid Hlabels Hbody.
  unfold process_sprint_for_build_labels.
  apply silent_bind; [apply silent_print, Hprint|]. intros _.
  apply silent_try.
  - apply silent_bind; [apply silent_get_issue_id, Hid|]. intros issue_id.
    apply silent_bind; [apply silent_print, Hprint|]. intros _.
    apply silent_bind; [apply silent_get_labels_by_prefix, Hlabels|].
    intros [|build_label rest].
    + apply silent_bind; [|intros _; apply silent_ret].
      destruct (action =? "add"); [|apply silent_print, Hprint].
      apply silent_bind; [apply silent_print, Hprint|].
      intros _. apply silent_print, Hprint.
    + apply silent_bind; [apply silent_print, Hprint|]. intros _.
      apply silent_bind; [apply silent_print, Hprint|]. intros _.
      apply silent_bind; [apply silent_for_each; intros; apply Hbody|].
      intros success_count.
      apply silent_bind; [|intros _; apply silent_ret].
      destruct (success_count >? 0)%Z; apply silent_print, Hprint.
  - intros e h He. destruct e; try discriminate. inversion He.
    apply silent_bind; [apply silent_print, Hprint|].
    intros _. apply silent_raise.
Qed.

(** X2.  An action other than [add] looks memberships up and never makes
    one: [process_sprint_for_build_labels] then sends no addition of an
    item and no update of an iteration, however the run ends.  With [add]
    it sends no clearing of an iteration. *)
Theorem process_sprint_sends_only_its_mutations :
  forall (repository : string) (issue_number : Z) (org action : string)
         (r : remote),
    let t := trace_of (process_sprint_for_build_labels
                         remote gh repository issue_number org action r) in
    ((action =? "add") = false ->
     tally adds_item t = 0%Z /\ tally sets_iteration t = 0%Z)
    /\ ((action =? "add") = true -> tally clears_iteration t = 0%Z).
Proof.
  intros repository n org action r t. subst t.
  split; [intros Ha; split | intros Ha];
    apply (fun H => H r); apply silent_process_sprint;
    try (intros; reflexivity);
    intros issue_id x c; open_operations; rewrite Ha; cbv iota; silence.
Qed.

(** X3.  [add_issue_to_build_project] does not touch the iteration: it
    sends no update and no clearing of one, and at most one addition of an
    item, however the run ends.  An error of a remote call does not leave
    it: the handler ends the process. *)
Theorem add_issue_to_build_project_mutations :
  forall (repository : string) (issue_number : Z) (org label : string)
         (r : remote),
    let run := add_issue_to_build_project
                 remote gh repository issue_number org label r in
    tally sets_iteration (trace_of run) = 0%Z
    /\ tally clears_iteration (trace_of run) = 0%Z
    /\ (tally adds_item (trace_of run) <= 1)%Z
    /\ (forall msg, outcome_of run <> Raise (GitHubAPIError msg)).
Proof.
  intros repository n org label r run. subst run.
  split; [|split; [|split]].
  - apply (fun H => H r). open_operations. silence.
  - apply (fun H => H r). open_operations. silence.
  - open_operations. explore; cbn; lia.
  - intros msg. open_operations. explore; cbn; discriminate.
Qed.

(** ** Counting the iterations cleared *)

Lemma clears_one_bind :
  forall A (m : M remote A) (k : A -> M remote bool),
    silent remote iteration_cleared m -> (forall a, clears_one remote (k a)) ->
    clears_one remote (bind remote m k).
Proof.
  intros A m k Hm Hk r. specialize (Hm r). unfold bind, trace_of, outcome_of in *.
  destruct (m r) as [[[a|e] r1] t1]; cbn [fst snd] in *; [|exact Hm].
  specialize (Hk a r1). unfold trace_of, outcome_of in Hk.
  destruct (k a r1) as [[o r2] t2]. cbn [fst snd] in *.
  rewrite tally_app. lia.
Qed.

Lemma clears_one_false :
  forall (m : M remote unit),
    silent remote iteration_cleared m ->
    clears_one remote (bind remote m (fun _ => ret false)).
Proof.
  intros m Hm r. specialize (Hm r). unfold bind, ret, trace_of, outcome_of in *.
  destruct (m r) as [[[a|e] r1] t1]; cbn [fst snd] in *;
    rewrite ?app_nil_r; exact Hm.
Qed.

Lemma clears_one_clear_iteration :
  forall project_id item_id, clears_one remote (clear_iteration project_id item_id).
Proof.
  intros pid item r.
  unfold GitHubProjectAutomation.clear_iteration.
  set (body := bind remote _ _).
  assert (Hbody : clears_one remote body).
  { subst body. apply clears_one_bind.
    - unfold GitHubProjectAutomation.get_iteration_field, json_loads. silence.
    - intros field_data. destruct (negb (truthy field_data)).
      + apply clears_one_false. apply silent_print. reflexivity.
      + apply clears_one_bind; [apply silent_lift|]. intros field_id.
        intros r0. unfold bind, ret, _run_gh_api, trace_of, outcome_of.
        destruct (gh (ClearIteration pid item field_id) r0) as [[out|err] r1];
          reflexivity. }
  specialize (Hbody r). unfold try, trace_of, outcome_of in *.
  destruct (body r) as [[[b|e] r1] t1]; cbn [fst snd] in *; [exact Hbody|].
  destruct e; cbn [fst snd print bind ret app]; rewrite ?tally_app, ?tally_cons;
    cbn [iteration_cleared]; rewrite ?tally_nil; lia.
Qed.

Lemma process_build_label_count_remove :
  forall org action issue_id build_label count r count' r' t,
    (action =? "add") = false ->
    process_build_label remote gh org action issue_id build_label count r
    = (Ok count', r', t) ->
    count' = (count + tally iteration_cleared t)%Z
    /\ (tally iteration_cleared t = 0 \/ tally iteration_cleared t = 1)%Z.
Proof.
  intros org action iid build_label c r c' r' t Ha.
  unfold process_build_label. step. step.
  assert (Hp : silent remote iteration_cleared
                      (get_project_by_title remote gh org build_label))
    by (unfold get_project_by_title, json_loads; silence).
  specialize (Hp r). unfold trace_of in Hp.
  destruct (get_project_by_title remote gh org build_label r)
    as [[[project_data|e] r1] t1]; cbn [snd] in Hp; [|discriminate].
  destruct (negb (truthy project_data)).
  - repeat step. intros H. inversion H; subst.
    repeat (rewrite tally_cons || rewrite tally_app || rewrite tally_nil).
    cbn [iteration_cleared]. lia.
  - step. destruct (getitem project_data "id") as [project_id|e]; [|discriminate].
    step.
    destruct (getitem project_data "number") as [project_number|e]; [|discriminate].
    step. rewrite Ha. step.
    assert (Hi : silent remote iteration_cleared
                        (is_issue_in_project remote gh project_id iid))
      by (unfold is_issue_in_project; silence).
    specialize (Hi r1). unfold trace_of in Hi.
    destruct (is_issue_in_project remote gh project_id iid r1)
      as [[[item_id|e] r2] t2]; cbn [snd] in Hi; [|discriminate].
    destruct (negb (found item_id)).
    + repeat step. intros H. inversion H; subst.
      repeat (rewrite tally_cons || rewrite tally_app || rewrite tally_nil).
      cbn [iteration_cleared]. lia.
    + cbv zeta. repeat step.
      pose proof (clears_one_clear_iteration project_id (text item_id) r2) as Hs.
      unfold trace_of, outcome_of in Hs.
      destruct (clear_iteration project_id (text item_id) r2)
        as [[[cleared|e] r3] t3]; cbn [fst snd] in Hs; [|discriminate].
      destruct cleared; repeat step; intros H; inversion H; subst;
        repeat (rewrite tally_cons || rewrite tally_app || rewrite tally_nil);
        cbn [iteration_cleared]; lia.
Qed.


(** Whatever the action, a label adds one to the count or nothing. *)
Lemma process_build_label_step :
  forall org action issue_id build_label count r count' r' t,
    process_build_label remote gh org action issue_id build_label count r
    = (Ok count', r', t) ->
    (count <= count' <= count + 1)%Z.
Proof.
  intros org action iid build_label c r c' r' t H.
  destruct (action =? "add") eqn:Ha.
  - apply String.eqb_eq in Ha. subst action.
    apply process_build_label_count in H. lia.
  - apply (process_build_label_count_remove _ _ _ _ _ _ _ _ _ Ha) in H. lia.
Qed.

Lemma for_each_bounds :
  forall org action issue_id build_labels count r count' r' t,
    for_each remote build_labels (process_build_label remote gh org action issue_id)
             count r
    = (Ok count', r', t) ->
    (count <= count' <= count + Z.of_nat (List.length build_labels))%Z.
Proof.
  intros org action iid build_labels.
  induction build_labels as [|build_label rest IH]; intros c r c' r' t.
  - cbn [for_each ret]. intros H. inversion H; subst. cbn. lia.
  - cbn [for_each]. unfold bind at 1.
    destruct (process_build_label remote gh org action iid build_label c r)
      as [[[c1|e] r1] t1] eqn:Hstep; [|discriminate].
    destruct (for_each remote rest _ c1 r1) as [[o r2] t2] eqn:Hrest.
    intros H. inversion H; subst.
    apply process_build_label_step in Hstep. apply IH in Hrest.
    cbn [List.length]. lia.
Qed.


(** X5.  The count is never more than the number of build labels and
    never negative, whatever the action and whatever the remote answers. *)
Theorem count_is_at_most_the_build_labels :
  forall (repository : string) (issue_number : Z) (org action : string)
         (r r1 r2 : remote) (issue_id : string) (build_labels : list string)
         (t1 t2 : list event),
    get_issue_id remote gh repository issue_number r = (Ok issue_id, r1, t1) ->
    get_labels_by_prefix remote gh repository issue_number "B" r1
    = (Ok build_labels, r2, t2) ->
    forall count r' t,
      process_sprint_for_build_labels remote gh repository issue_number org
                                      action r
      = (Ok count, r', t) ->
      (0 <= count <= Z.of_nat (List.length build_labels))%Z.
Proof.
  intros repository n org action r r1 r2 issue_id build_labels t1 t2 Hid Hlabels
         count r' t.
  unfold process_sprint_for_build_labels.
  step. rewrite try_run. step. rewrite Hid. repeat step. rewrite Hlabels.
  destruct build_labels as [|build_label rest].
  - repeat step. destruct (action =? "add"); repeat step;
      intros H; inversion H; subst; cbn; lia.
  - repeat step.
    destruct (for_each remote (build_label :: rest) _ 0%Z r2)
      as [[[c|e] r3] t3] eqn:Hloop;
      [|destruct e; repeat step; discriminate].
    apply for_each_bounds in Hloop.
    destruct (c >? 0)%Z; repeat step; intros H; inversion H; subst; lia.
Qed.

(** ** Failures *)

(** X6.  Where the lookup of the iteration field is rejected, or gives more
    than one field (one named Iteration and one named Sprint), neither
    [set_iteration_to_current] nor [clear_iteration] picks a field: both
    return [False] with one diagnostic and send no mutation. *)
Theorem unusable_iteration_field_is_failure :
  forall (project_id : value) (item_id : string) (r r1 : remote),
    ((exists err, gh (IterationFields project_id) r = (Rejected err, r1))
     \/ (exists d1 d2 ds,
            gh (IterationFields project_id) r = (Replied (d1 :: d2 :: ds), r1))) ->
    exists ok cause,
      set_iteration_to_current project_id item_id r
      = (Ok false, r1,
         [Called (IterationFields project_id) ok;
          Printed stderr warning
            [Lit "Failed to set iteration: ";
             Exn (GitHubAPIError
                    [Lit "Failed to get iteration field: "; Exn cause])]])
      /\ clear_iteration project_id item_id r
         = (Ok false, r1,
            [Called (IterationFields project_id) ok;
             Printed stderr warning
               [Lit "Failed to clear iteration: ";
                Exn (GitHubAPIError
                       [Lit "Failed to get iteration field: "; Exn cause])]]).
Proof.
  intros pid item r r1 [[err Hgh] | (d1 & d2 & ds & Hgh)].
  - exists false, (GitHubAPIError [Lit "API call failed: "; Lit err]).
    split; run; reflexivity.
  - exists true, JSONDecodeError. split; run; reflexivity.
Qed.

(** X7.  [main] gives up early with exit status 1 and no mutation: without
    a call at all where [add-to-build-project] has no label or an empty
    one, and after the one call where the remote does not resolve the
    issue, for each of the three actions. *)
Theorem main_gives_up_early :
  forall (a : args) (r : remote),
    (action a = add_to_build_project ->
     found (label a) = false ->
     main remote gh a r
     = (Raise (SystemExit 1), r,
        [Printed stderr failure
           [Lit "--label is required for add-to-build-project action"]]))
    /\ (forall err r1,
           (action a = add_to_build_project -> found (label a) = true) ->
           gh (IssueNodeId (repository a) (issue_number a)) r = (Rejected err, r1) ->
           let run := main remote gh a r in
           exit_code (outcome_of run) = 1%Z
           /\ remote_of run = r1
           /\ filter is_call (trace_of run)
              = [Called (IssueNodeId (repository a) (issue_number a)) false]
           /\ filter is_diagnostic (trace_of run)
              = [Printed stderr failure
                   [Exn (GitHubAPIError
                           [Lit "Failed to get issue ID: ";
                            Exn (GitHubAPIError
                                   [Lit "API call failed: "; Lit err])])]]).
Proof.
  intros a r. split.
  - intros Ha Hl. unfold main. rewrite Ha, Hl. reflexivity.
  - intros err r1 Hl Hgh run. subst run. unfold main.
    destruct (action a) eqn:Ha.
    + unfold process_sprint_for_build_labels, get_issue_id.
      repeat (rewrite bind_run || rewrite try_run); cbn [print].
      repeat (rewrite bind_run || rewrite try_run).
      unfold _run_gh_api. rewrite Hgh. cbn. repeat split; reflexivity.
    + unfold process_sprint_for_build_labels, get_issue_id.
      repeat (rewrite bind_run || rewrite try_run); cbn [print].
      repeat (rewrite bind_run || rewrite try_run).
      unfold _run_gh_api. rewrite Hgh. cbn. repeat split; reflexivity.
    + rewrite (Hl eq_refl). cbn [negb].
      unfold add_issue_to_build_project, get_issue_id.
      repeat (rewrite bind_run || rewrite try_run); cbn [print].
      repeat (rewrite bind_run || rewrite try_run).
      unfold _run_gh_api. rewrite Hgh. cbn. repeat split; reflexivity.
Qed.

(** X8.  With [add] on an issue that has no build label the operation
    returns 0 after one warning on the standard output: it looks no
    project up, sends no mutation and prints nothing on the standard
    error. *)
Theorem add_without_build_labels_warns :
  forall (repository : string) (issue_number : Z) (org : string)
         (r r1 r2 : remote) (issue_id : string) (t1 t2 : list event),
    get_issue_id remote gh repository issue_number r = (Ok issue_id, r1, t1) ->
    get_labels_by_prefix remote gh repository issue_number "B" r1 = (Ok [], r2, t2) ->
    exists t,
      process_sprint_for_build_labels remote gh repository issue_number org "add" r
      = (Ok 0%Z, r2, t)
      /\ filter is_warning t
         = [Printed stdout warning [Lit "No build label found on issue"]]
      /\ tally looks_up_title t = 0%Z
      /\ tally is_mutation_call t = 0%Z
      /\ tally is_diagnostic t = 0%Z.
Proof.
  intros repository n org r r1 r2 issue_id t1 t2 Hid Hlabels.
  pose proof (get_labels_by_prefix_trace _ _ _ _ _ _ _ Hlabels) as ->.
  pose proof (get_issue_id_trace _ _ _ _ _ _ Hid) as Ht1.
  subst t1. eexists. split.
  - unfold process_sprint_for_build_labels, bind, try, print, ret.
    rewrite Hid. cbn [app]. rewrite Hlabels. cbn. reflexivity.
  - repeat split; reflexivity.
Qed.

(** X9.  The batch does not outlive an error of a remote call: where the
    remote rejects the title lookup for the first build label, the
    operation ends the process with exit status 1 at that label, whatever
    the action and whatever labels come after it, and the lookup is the
    last call. *)
Theorem rejected_lookup_ends_the_batch :
  forall (repository : string) (issue_number : Z) (org action : string)
         (r r1 r2 r3 : remote) (issue_id build_label : string)
         (rest : list string) (t1 t2 : list event) (err : string),
    get_issue_id remote gh repository issue_number r = (Ok issue_id, r1, t1) ->
    get_labels_by_prefix remote gh repository issue_number "B" r1
    = (Ok (build_label :: rest), r2, t2) ->
    gh (ProjectsByTitle org build_label) r2 = (Rejected err, r3) ->
    let run := process_sprint_for_build_labels
                 remote gh repository issue_number org action r in
    outcome_of run = Raise (SystemExit 1)
    /\ remote_of run = r3
    /\ filter is_call (trace_of run)
       = [Called (IssueNodeId repository issue_number) true;
          Called (IssueLabels repository issue_number "B") true;
          Called (ProjectsByTitle org build_label) false]
    /\ filter is_diagnostic (trace_of run)
       = [Printed stderr failure
            [Exn (GitHubAPIError
                    [Lit "Failed to get project by title: ";
                     Exn (GitHubAPIError [Lit "API call failed: "; Lit err])])]].
Proof.
  intros repository n org action r r1 r2 r3 issue_id build_label rest t1 t2 err
         Hid Hlabels Hgh run. subst run.
  pose proof (get_labels_by_prefix_trace _ _ _ _ _ _ _ Hlabels) as ->.
  pose proof (get_issue_id_trace _ _ _ _ _ _ Hid) as Ht1.
  subst t1.
  assert (Hrun : exists t,
             process_sprint_for_build_labels remote gh repository n org action r
             = (Raise (SystemExit 1), r3, t)
             /\ filter is_call t
                = [Called (IssueNodeId repository n) true;
                   Called (IssueLabels repository n "B") true;
                   Called (ProjectsByTitle org build_label) false]
             /\ filter is_diagnostic t
                = [Printed stderr failure
                     [Exn (GitHubAPIError
                             [Lit "Failed to get project by title: ";
                              Exn (GitHubAPIError
                                     [Lit "API call failed: "; Lit err])])]]).
  { eexists. split.
    - unfold process_sprint_for_build_labels.
      step. rewrite try_run. step. rewrite Hid. repeat step. rewrite Hlabels.
      repeat step. cbn [for_each]. rewrite bind_run.
      unfold process_build_label at 1. repeat step.
      unfold get_project_by_title at 1. rewrite try_run. step.
      unfold _run_gh_api at 1. rewrite Hgh. cbn. reflexivity.
    - split; reflexivity. }
  destruct Hrun as (t & -> & Hcalls & Hdiag).
  cbn [outcome_of remote_of trace_of fst snd]. auto.
Qed.

(** X10.  [add-to-build-project] with a label that is the title of no
    project the lookup sees is a failure: a warning, the value [False] and
    exit status 1, and not a call after the lookup. *)
Theorem add_to_build_project_without_project :
  forall (a : args) (r r1 r2 : remote) (issue_id : string),
    action a = add_to_build_project ->
    found (label a) = true ->
    gh (IssueNodeId (repository a) (issue_number a)) r = (Replied issue_id, r1) ->
    gh (ProjectsByTitle (org a) (text (label a))) r1 = (Replied [], r2) ->
    exists t,
      add_issue_to_build_project remote gh (repository a) (issue_number a)
                                 (org a) (text (label a)) r
      = (Ok false, r2, t)
      /\ filter is_call t
         = [Called (IssueNodeId (repository a) (issue_number a)) true;
            Called (ProjectsByTitle (org a) (text (label a))) true]
      /\ filter is_warning t
         = [Printed stdout warning
              [Lit "No project found with title '"; Lit (text (label a));
               Lit "' - skipping"]]
      /\ main remote gh a r = (Raise (SystemExit 1), r2, t).
Proof.
  intros a r r1 r2 issue_id Ha Hl Hid Hp.
  assert (Hrun : exists t,
             add_issue_to_build_project remote gh (repository a) (issue_number a)
                                        (org a) (text (label a)) r
             = (Ok false, r2, t)
             /\ filter is_call t
                = [Called (IssueNodeId (repository a) (issue_number a)) true;
                   Called (ProjectsByTitle (org a) (text (label a))) true]
             /\ filter is_warning t
                = [Printed stdout warning
                     [Lit "No project found with title '"; Lit (text (label a));
                      Lit "' - skipping"]]).
  { eexists. split.
    - open_operations. run. reflexivity.
    - split; reflexivity. }
  destruct Hrun as (t & Hrun & Hcalls & Hwarn).
  exists t. repeat split; try assumption.
  unfold main. rewrite Ha, Hl. cbn [negb]. rewrite bind_run, Hrun.
  cbn. rewrite app_nil_r. reflexivity.
Qed.

(** ** The exit status, whatever happens *)

Lemma exits_ret : forall A (a : A), exits_with_one remote (ret a).
Proof. intros A a r c H. discriminate. Qed.

Lemma exits_print : forall s g text, exits_with_one remote (print remote s g text).
Proof. intros s g text r c H. discriminate. Qed.

Lemma exits_raise :
  forall A e, (forall c, e = SystemExit c -> c = 1%Z) ->
              exits_with_one remote (@raise remote A e).
Proof. intros A e He r c H. inversion H. apply He. assumption. Qed.

Lemma exits_run_gh_api : forall q, exits_with_one remote (_run_gh_api remote gh q).
Proof.
  intros q r c. unfold _run_gh_api, outcome_of.
  destruct (gh q r) as [[a|err] r1]; discriminate.
Qed.

Lemma exits_getitem : forall v k, exits_with_one remote (lift (getitem v k)).
Proof.
  intros v k r c. unfold lift, outcome_of. cbn [fst].
  destruct v; cbn [getitem]; try discriminate.
  destruct (assoc k d); discriminate.
Qed.

Lemma exits_get : forall v k d, exits_with_one remote (lift (get v k d)).
Proof.
  intros v k d r c. unfold lift, outcome_of. cbn [fst].
  destruct v as [| | | | |d']; cbn [get]; try discriminate.
  destruct (assoc k d'); discriminate.
Qed.

Lemma exits_getitem0 : forall v, exits_with_one remote (lift (getitem0 v)).
Proof.
  intros v r c. unfold lift, outcome_of. cbn [fst].
  destruct v as [| | |s|l|]; cbn [getitem0]; try discriminate.
  - destruct s; discriminate.
  - destruct l; discriminate.
Qed.

Lemma exits_bind :
  forall A B (m : M remote A) (k : A -> M remote B),
    exits_with_one remote m -> (forall a, exits_with_one remote (k a)) ->
    exits_with_one remote (bind remote m k).
Proof.
  intros A B m k Hm Hk r c. specialize (Hm r c). unfold bind, outcome_of in *.
  destruct (m r) as [[[a|e] r1] t1]; cbn [fst] in *.
  - specialize (Hk a r1 c). unfold outcome_of in Hk.
    destruct (k a r1) as [[o r2] t2]. exact Hk.
  - intros H. inversion H; subst. apply Hm. reflexivity.
Qed.

Lemma exits_try :
  forall A (m : M remote A) (h : exn -> option (M remote A)),
    exits_with_one remote m ->
    (forall e k, h e = Some k -> exits_with_one remote k) ->
    exits_with_one remote (try remote m h).
Proof.
  intros A m h Hm Hh r c. specialize (Hm r c). unfold try, outcome_of in *.
  destruct (m r) as [[[a|e] r1] t1]; cbn [fst] in *; [exact Hm|].
  destruct (h e) as [k|] eqn:He; [|exact Hm].
  specialize (Hh e k He r1 c). unfold outcome_of in Hh.
  destruct (k r1) as [[o r2] t2]. exact Hh.
Qed.

Lemma exits_for_each :
  forall A S (body : A -> S -> M remote S) xs s,
    (forall x s', exits_with_one remote (body x s')) ->
    exits_with_one remote (for_each remote xs body s).
Proof.
  intros A S body xs. induction xs as [|x xs IH]; intros s Hbody.
  - apply exits_ret.
  - cbn [for_each]. apply exits_bind; [apply Hbody|].
    intros s'. apply IH. exact Hbody.
Qed.

Ltac exiting :=
  repeat first
    [ apply exits_ret | apply exits_print | apply exits_run_gh_api
    | apply exits_getitem | apply exits_get | apply exits_getitem0
    | apply exits_raise; intros ? ?; first [discriminate | congruence]
    | apply exits_bind; [|intros ?]
    | apply exits_try;
      [|intros [] ? ?; first [discriminate | match goal with
                                             | H : Some _ = Some _ |- _ =>
                                                 inversion H; subst; clear H
                                             end]]
    | match goal with
      | |- exits_with_one _ (if ?b then _ else _) => destruct b
      | |- exits_with_one _ (match ?x with _ => _ end) => destruct x
      end ].

Lemma exits_process_build_label :
  forall org action issue_id build_label count,
    exits_with_one remote
      (process_build_label remote gh org action issue_id build_label count).
Proof. intros. open_operations. exiting. Qed.

Lemma exits_process_sprint :
  forall repository issue_number org action,
    exits_with_one remote
      (process_sprint_for_build_labels remote gh repository issue_number
                                       org action).
Proof.
  intros repository n org action. unfold process_sprint_for_build_labels.
  apply exits_bind; [apply exits_print|]. intros _.
  apply exits_try.
  - apply exits_bind; [unfold get_issue_id; exiting|]. intros issue_id.
    apply exits_bind; [apply exits_print|]. intros _.
    apply exits_bind; [unfold get_labels_by_prefix; exiting|].
    intros [|build_label rest].
    + apply exits_bind; [|intros _; apply exits_ret].
      destruct (action =? "add"); [|apply exits_print].
      apply exits_bind; [apply exits_print|].
      intros _. apply exits_print.
    + apply exits_bind; [apply exits_print|]. intros _.
      apply exits_bind; [apply exits_print|]. intros _.
      apply exits_bind;
        [apply exits_for_each; intros; apply exits_process_build_label|].
      intros success_count.
      apply exits_bind; [|intros _; apply exits_ret].
      destruct (success_count >? 0)%Z; apply exits_print.
  - intros e h He. destruct e; try discriminate. inversion He.
    apply exits_bind; [apply exits_print|].
    intros _. apply exits_raise. intros c H. inversion H. reflexivity.
Qed.

Lemma exits_add_issue_to_build_project :
  forall repository issue_number org label,
    exits_with_one remote
      (add_issue_to_build_project remote gh repository issue_number org label).
Proof. intros. open_operations. exiting. Qed.

(** X15.  Once [argparse] has accepted the command line, the exit status
    of [main] is 0 or 1, whatever the arguments are and whatever the remote
    answers, also where an exception the script does not catch leaves it.
    (A command line [argparse] rejects does not reach this code: the
    parser ends the process itself.) *)
Theorem exit_status_is_zero_or_one :
  forall (a : args) (r : remote),
    exit_code (outcome_of (main remote gh a r)) = 0%Z
    \/ exit_code (outcome_of (main remote gh a r)) = 1%Z.
Proof.
  intros a r.
  assert (Hsprint :
            forall act,
              let m := bind remote
                         (process_sprint_for_build_labels
                            remote gh (repository a) (issue_number a) (org a) act)
                         (fun success_count =>
                            if (success_count =? 0)%Z
                            then try remote
                                   (bind remote
                                      (get_labels_by_prefix
                                         remote gh (repository a)
                                         (issue_number a) "B")
                                      (fun labels =>
                                         match labels with
                                         | [] => ret tt
                                         | _ => sys_exit remote 1%Z
                                         end))
                                   (fun e => match e with
                                             | GitHubAPIError _ =>
                                                 Some (sys_exit remote 1%Z)
                                             | _ => None
                                             end)
                            else ret tt) in
              exit_code (outcome_of (m r)) = 0%Z
              \/ exit_code (outcome_of (m r)) = 1%Z).
  { intros act m. subst m. rewrite bind_run.
    pose proof (exits_process_sprint (repository a) (issue_number a) (org a)
                                     act r) as Hexit.
    unfold outcome_of in Hexit.
    destruct (process_sprint_for_build_labels _ _ _ _ _ _ r)
      as [[[k|e] r1] t1]; cbn [fst] in Hexit.
    - destruct (k =? 0)%Z; [|left; reflexivity].
      rewrite try_run, bind_run.
      destruct (get_labels_by_prefix remote gh (repository a) (issue_number a)
                                     "B" r1)
        as [[[labels|e] r2] t2] eqn:Hl.
      + destruct labels; [left | right]; reflexivity.
      + apply get_labels_by_prefix_raises in Hl. destruct Hl as [msg ->].
        right. reflexivity.
    - destruct e; try (right; reflexivity).
      right. cbn. apply Hexit. reflexivity. }
  unfold main. destruct (action a).
  - apply Hsprint.
  - apply Hsprint.
  - destruct (negb (found (label a))); [right; reflexivity|].
    rewrite bind_run.
    pose proof (exits_add_issue_to_build_project
                  (repository a) (issue_number a) (org a) (text (label a)) r)
      as Hexit.
    unfold outcome_of in Hexit.
    destruct (add_issue_to_build_project _ _ _ _ _ _ r)
      as [[[success|e] r1] t1]; cbn [fst] in Hexit.
    + destruct success; [left | right]; reflexivity.
    + destruct e; try (right; reflexivity).
      right. cbn. apply Hexit. reflexivity.
Qed.

End Operations.

(** * The script against the model of the remote *)

Section OnGitHub.

Import GitHub GitHubProjectAutomation.

Local Abbreviation get_project_by_title := (get_project_by_title state gh).
Local Abbreviation is_issue_in_project := (is_issue_in_project state gh).
Local Abbreviation add_issue_to_project := (add_issue_to_project state gh).
Local Abbreviation ensure_issue_in_project := (ensure_issue_in_project state gh).

Lemma find_update_project :
  forall id f ps,
    (forall p, project_id (f p) = project_id p) ->
    find_project id (update_project id f ps) = option_map f (find_project id ps).
Proof.
  intros id f ps Hf. unfold find_project, update_project.
  induction ps as [|p ps IH]; [reflexivity|].
  cbn [map find]. destruct (project_id p =? id) eqn:Hp.
  - rewrite Hf, Hp. reflexivity.
  - rewrite Hp. exact IH.
Qed.

Lemma filter_nil_find_none :
  forall A (f : A -> bool) l, filter f l = [] -> find f l = None.
Proof.
  intros A f l. induction l as [|x l IH]; [reflexivity|].
  cbn [filter find]. destruct (f x); [discriminate | exact IH].
Qed.

Lemma concat_ids_empty :
  forall sep (l : list item),
    forallb (fun it => negb (item_id it =? "")) l = true ->
    String.concat sep (map item_id l) = "" ->
    l = [].
Proof.
  intros sep l Hl Hc. destruct l as [|it l]; [reflexivity|].
  cbn [forallb map] in *. apply andb_prop in Hl. destruct Hl as [Hit _].
  destruct (item_id it) as [|c s] eqn:Hid; [discriminate|].
  cbn [String.concat] in Hc. destruct (map item_id l); discriminate.
Qed.

Lemma forallb_filter :
  forall A (f g : A -> bool) l, forallb f l = true -> forallb f (filter g l) = true.
Proof.
  intros A f g l H. apply forallb_forall. intros x Hx.
  apply filter_In in Hx. destruct Hx as [Hx _].
  rewrite forallb_forall in H. apply H. exact Hx.
Qed.

Lemma filter_cons_find :
  forall A (f : A -> bool) l x l', filter f l = x :: l' -> find f l = Some x.
Proof.
  intros A f l. induction l as [|y l IH]; [discriminate|].
  intros x l'. cbn [filter find]. destruct (f y).
  - intros H. inversion H. reflexivity.
  - apply IH.
Qed.

Lemma find_none_filter_nil :
  forall A (f : A -> bool) l, find f l = None -> filter f l = [].
Proof.
  intros A f l. induction l as [|x l IH]; [reflexivity|].
  cbn [filter find]. destruct (f x); [discriminate | exact IH].
Qed.

Lemma find_app_last :
  forall A (f : A -> bool) l x,
    find f l = None -> find f (l ++ [x]) = if f x then Some x else None.
Proof.
  intros A f l x. induction l as [|y l IH]; [reflexivity|].
  cbn [app find]. destruct (f y); [discriminate | exact IH].
Qed.

Lemma forallb_firstn :
  forall A (f : A -> bool) n l, forallb f l = true -> forallb f (firstn n l) = true.
Proof.
  intros A f n. induction n as [|n IH]; intros [|x l]; try reflexivity.
  cbn [forallb firstn]. intros H. apply andb_prop in H. destruct H as [Hx Hl].
  rewrite Hx. apply IH. exact Hl.
Qed.

(** ** The filters the model reads *)

(** A string of characters that stand for themselves is its own
    literal. *)
Lemma jq_read_plain :
  forall s,
    jq_plain s = true ->
    exists l,
      jq_read 0 false s = Some l
      /\ (forall p, jq_value l p = s)
      /\ jq_text l = Some s.
Proof.
  induction s as [|c s IH]; cbn [jq_plain jq_read].
  - intros _. exists []. repeat split.
  - intros H. apply andb_prop in H. destruct H as [Hc Hs].
    destruct (IH Hs) as (l & Hl & Hv & Ht).
    assert (Hb : Ascii.eqb c backslash = false).
    { unfold jq_ordinary in Hc. apply andb_prop in Hc. destruct Hc as [_ Hc].
      apply negb_true_iff in Hc. exact Hc. }
    rewrite Hb, Hc, Hl. exists (Char c :: l). repeat split.
    + intros p. cbn [jq_value]. rewrite Hv. reflexivity.
    + cbn [jq_text]. rewrite Ht. reflexivity.
Qed.

(** For a title that is its own literal the lookup selects the projects of
    that title. *)
Lemma title_lookup_plain :
  forall g org t,
    jq_plain t = true ->
    existsb (String.eqb org) (orgs g) = true ->
    gh (ProjectsByTitle org t) g
    = (Replied (map project_node
                    (filter (fun p => title p =? t) (first_projects org g))), g).
Proof.
  intros g org t Ht Horg. unfold gh. rewrite Horg. unfold jq_string.
  destruct (jq_read_plain t Ht) as (l & -> & Hv & _).
  rewrite (filter_ext (fun p => title p =? jq_value l p) (fun p => title p =? t))
    by (intros p; rewrite Hv; reflexivity).
  reflexivity.
Qed.


(** The lookup on the model: the identifiers of the items of the first
    page that hold the issue, one per line. *)
Lemma is_issue_in_project_on_model :
  forall g pid issue_id p,
    find_project pid (projects g) = Some p ->
    is_issue_in_project (VStr pid) issue_id g
    = (Ok (let result := String.concat (String newline "")
                           (map item_id (filter (holds issue_id) (first_items p))) in
           if result =? "" then None else Some result),
       g, [Called (ItemsOfIssue (VStr pid) issue_id) true]).
Proof.
  intros g pid iid p Hp.
  unfold GitHubProjectAutomation.is_issue_in_project.
  rewrite try_run, bind_run. unfold _run_gh_api, gh. rewrite Hp.
  reflexivity.
Qed.

(** An issue no item of the project holds gets a new item. *)
Lemma add_makes_item :
  forall g pid issue_id p,
    find_project pid (projects g) = Some p ->
    existsb (fun i => node_id i =? issue_id) (issues g) = true ->
    filter (holds issue_id) (items p) = [] ->
    add_issue_to_project (VStr pid) issue_id g
    = (Ok (fresh_item_id g), after_adding pid issue_id g,
       [Called (AddItem (VStr pid) issue_id) true]).
Proof.
  intros g pid iid p Hp Hissue Hnone.
  unfold GitHubProjectAutomation.add_issue_to_project.
  rewrite try_run. unfold _run_gh_api, gh.
  rewrite Hp, Hissue, (filter_nil_find_none _ _ _ Hnone).
  destruct (dedup g) eqn:Hd; unfold after_adding; rewrite ?Hd; reflexivity.
Qed.

(** Where the remote knows the items it holds, the addition of an issue
    that is there returns its item and changes nothing. *)
Lemma add_returns_item_there_is :
  forall g pid issue_id p it,
    find_project pid (projects g) = Some p ->
    existsb (fun i => node_id i =? issue_id) (issues g) = true ->
    dedup g = true ->
    find (holds issue_id) (items p) = Some it ->
    add_issue_to_project (VStr pid) issue_id g
    = (Ok (item_id it), g, [Called (AddItem (VStr pid) issue_id) true]).
Proof.
  intros g pid iid p it Hp Hissue Hd Hit.
  unfold GitHubProjectAutomation.add_issue_to_project.
  rewrite try_run. unfold _run_gh_api, gh.
  rewrite Hp, Hissue, Hd, Hit. reflexivity.
Qed.

Lemma project_after_adding :
  forall g pid issue_id p,
    find_project pid (projects g) = Some p ->
    find_project pid (projects (after_adding pid issue_id g))
    = Some (with_items p
              (items p ++ [ {| item_id := fresh_item_id g;
                               content := Some issue_id;
                               sprint := [] |} ])%list).
Proof.
  intros g pid iid p Hp. unfold after_adding. cbn [projects].
  rewrite find_update_project by reflexivity. rewrite Hp. reflexivity.
Qed.

(** On a first page that is not full the lookup finds the new item. *)
Lemma new_item_is_found :
  forall g pid issue_id p,
    find_project pid (projects g) = Some p ->
    List.length (items p) < 100 ->
    filter (holds issue_id) (items p) = [] ->
    is_issue_in_project (VStr pid) issue_id (after_adding pid issue_id g)
    = (Ok (Some (fresh_item_id g)), after_adding pid issue_id g,
       [Called (ItemsOfIssue (VStr pid) issue_id) true]).
Proof.
  intros g pid iid p Hp Hlen Hnone.
  rewrite (is_issue_in_project_on_model _ _ _ _ (project_after_adding g pid iid p Hp)).
  unfold first_items, with_items. cbn [items].
  rewrite firstn_all2 by (rewrite length_app; cbn [List.length]; lia).
  rewrite filter_app, Hnone. cbn [filter holds content app].
  rewrite String.eqb_refl. reflexivity.
Qed.

(** X16.  For a title with no double quote, no backslash and no control
    character in it, and where the organization is there,
    [get_project_by_title] returns [None] exactly when no project on the
    first page of the organization's projects, the first 100, has the title
    asked for, character for character.  A project of that title further
    down is not seen, and nothing says so: the call is all the run
    leaves. *)
Theorem get_project_by_title_none_iff :
  forall (g : state) (org t : string),
    jq_plain t = true ->
    existsb (String.eqb org) (orgs g) = true ->
    (outcome_of (get_project_by_title org t g) = Ok VNone
     <-> (forall p,
             In p (firstn 100 (filter (fun p => owner p =? org) (projects g))) ->
             title p <> t))
    /\ trace_of (get_project_by_title org t g)
       = [Called (ProjectsByTitle org t) true].
Proof.
  intros g org t Hplain Horg.
  unfold GitHubProjectAutomation.get_project_by_title.
  rewrite try_run, bind_run. unfold _run_gh_api.
  rewrite (title_lookup_plain g org t Hplain Horg).
  fold (first_projects org g).
  destruct (filter (fun p => title p =? t) (first_projects org g))
    as [|p [|p' l]] eqn:Hf;
    cbn [map no_output json_loads ret raise outcome_of trace_of fst snd app];
    (split; [|reflexivity]).
  - split; [|reflexivity]. intros _ p Hp Ht.
    assert (Hin : In p (filter (fun p => title p =? t) (first_projects org g))).
    { apply filter_In. split; [exact Hp|]. apply String.eqb_eq. exact Ht. }
    rewrite Hf in Hin. destruct Hin.
  - split; [discriminate|]. intros H. exfalso.
    assert (Hin : In p (filter (fun p => title p =? t) (first_projects org g))).
    { rewrite Hf. left. reflexivity. }
    apply filter_In in Hin. destruct Hin as [Hin Ht].
    apply String.eqb_eq in Ht. exact (H p Hin Ht).
  - split; [discriminate|]. intros H. exfalso.
    assert (Hin : In p (filter (fun p => title p =? t) (first_projects org g))).
    { rewrite Hf. left. reflexivity. }
    apply filter_In in Hin. destruct Hin as [Hin Ht].
    apply String.eqb_eq in Ht. exact (H p Hin Ht).
Qed.

(** C9.  Adding an issue to a project and looking it up at once gives the
    identifier the addition returned.  The lookup sees the first 100 items:
    the project has fewer before the addition.  The project is well
    formed: its items have identifiers, and the issue is in none of them
    or, where the remote answers a repeated addition with the item there
    is, in one. *)
Theorem add_then_find_round_trip :
  forall (g : state) (pid issue_id : string) (p : project),
    find_project pid (projects g) = Some p ->
    existsb (fun i => node_id i =? issue_id) (issues g) = true ->
    List.length (items p) < 100 ->
    forallb (fun it => negb (item_id it =? "")) (items p) = true ->
    (filter (holds issue_id) (items p) = []
     \/ (dedup g = true /\ exists it, filter (holds issue_id) (items p) = [it])) ->
    exists item_id g1 t1 t2,
      add_issue_to_project (VStr pid) issue_id g = (Ok item_id, g1, t1)
      /\ is_issue_in_project (VStr pid) issue_id g1 = (Ok (Some item_id), g1, t2).
Proof.
  intros g pid iid p Hp Hissue Hlen Hids [Hnone | [Hd [it Hit]]].
  - do 4 eexists. split.
    + apply (add_makes_item g pid iid p Hp Hissue Hnone).
    + apply (new_item_is_found g pid iid p Hp Hlen Hnone).
  - do 4 eexists. split.
    + apply (add_returns_item_there_is g pid iid p it Hp Hissue Hd).
      apply (filter_cons_find _ _ _ _ _ Hit).
    + rewrite (is_issue_in_project_on_model g pid iid p Hp).
      unfold first_items. rewrite firstn_all2 by lia. rewrite Hit.
      cbn [map String.concat].
      assert (Hin : In it (items p)).
      { assert (H : In it (filter (holds iid) (items p)))
          by (rewrite Hit; left; reflexivity).
        apply filter_In in H. exact (proj1 H). }
      rewrite forallb_forall in Hids. specialize (Hids it Hin).
      apply negb_true_iff in Hids. rewrite Hids. reflexivity.
Qed.

(** C2.  [ensure_issue_in_project] returns the item the lookup finds and
    calls the addition only where the lookup finds none, whatever the
    remote is.  On the model of the remote a second call right after the
    first returns the same identifier and leaves the remote as it is, and
    the two calls together make at most one item: for every project where
    the remote answers a repeated addition with the item there is, and
    for a project whose items all fit the first page in any case. *)
Theorem ensure_issue_in_project_idempotent :
  (forall (remote : Type)
          (remote_gh : forall q : request, remote -> answer (reply q) * remote)
          (project_id : value) (issue_id : string) (r : remote),
      (forall item_id r1 t,
          GitHubProjectAutomation.is_issue_in_project
            remote remote_gh project_id issue_id r
          = (Ok (Some item_id), r1, t) ->
          GitHubProjectAutomation.ensure_issue_in_project
            remote remote_gh project_id issue_id r
          = (Ok item_id, r1, t))
      /\ (forall r1 t,
             GitHubProjectAutomation.is_issue_in_project
               remote remote_gh project_id issue_id r
             = (Ok None, r1, t) ->
             GitHubProjectAutomation.ensure_issue_in_project
               remote remote_gh project_id issue_id r
             = let '(o, r2, t2) :=
                 GitHubProjectAutomation.add_issue_to_project
                   remote remote_gh project_id issue_id r1 in
               (o, r2, (t ++ t2)%list)))
  /\ (forall (g : state) (pid issue_id : string) (p : project),
         find_project pid (projects g) = Some p ->
         forallb (fun it => negb (item_id it =? "")) (items p) = true ->
         dedup g = true \/ List.length (items p) < 100 ->
         forall item_id g1 t1,
           ensure_issue_in_project (VStr pid) issue_id g = (Ok item_id, g1, t1) ->
           exists t2,
             ensure_issue_in_project (VStr pid) issue_id g1 = (Ok item_id, g1, t2)
             /\ created g1 <= S (created g)).
Proof.
  split.
  - intros remote remote_gh project_id issue_id r. split.
    + intros item r1 t H. apply ensure_returns_existing. exact H.
    + intros r1 t H. apply ensure_delegates. exact H.
  - intros g pid iid p Hp Hids Hcase item g1 t1.
    pose proof (is_issue_in_project_on_model g pid iid p Hp) as Hfind.
    cbv zeta in Hfind.
    destruct (String.concat (String newline "")
                (map item_id (filter (holds iid) (first_items p))) =? "")
      eqn:Hresult.
    2: { (* the lookup finds the item *)
         rewrite (ensure_returns_existing _ _ _ _ _ _ _ _ Hfind).
         intros H. inversion H; subst. eexists. split; [|lia].
         apply ensure_returns_existing. exact Hfind. }
    (* the lookup finds nothing: no item of the first page holds the issue *)
    rewrite (ensure_delegates _ _ _ _ _ _ _ Hfind).
    assert (Hpage : filter (holds iid) (first_items p) = []).
    { apply String.eqb_eq in Hresult.
      apply concat_ids_empty in Hresult; [exact Hresult|].
      apply forallb_filter. apply forallb_firstn. exact Hids. }
    destruct (existsb (fun i => node_id i =? iid) (issues g)) eqn:Hissue.
    2: { unfold GitHubProjectAutomation.add_issue_to_project.
         rewrite try_run. unfold _run_gh_api, gh. rewrite Hp, Hissue.
         discriminate. }
    destruct (Nat.ltb_spec (List.length (items p)) 100) as [Hlen | Hlen].
    + (* all the items are on the first page *)
      assert (Hnone : filter (holds iid) (items p) = []).
      { unfold first_items in Hpage.
        rewrite firstn_all2 in Hpage by lia. exact Hpage. }
      rewrite (add_makes_item g pid iid p Hp Hissue Hnone).
      intros H. inversion H; subst. eexists. split.
      * apply ensure_returns_existing.
        apply (new_item_is_found g pid iid p Hp Hlen Hnone).
      * cbn [created after_adding]. lia.
    + (* the first page is full: the remote knows the items it holds *)
      destruct Hcase as [Hd | Hlt]; [|lia].
      destruct (find (holds iid) (items p)) as [it|] eqn:Hit.
      * rewrite (add_returns_item_there_is g pid iid p it Hp Hissue Hd Hit).
        intros H. inversion H; subst. eexists. split; [|lia].
        rewrite (ensure_delegates _ _ _ _ _ _ _ Hfind).
        rewrite (add_returns_item_there_is g1 pid iid p it Hp Hissue Hd Hit).
        reflexivity.
      * pose proof (find_none_filter_nil _ _ _ Hit) as Hnone.
        rewrite (add_makes_item g pid iid p Hp Hissue Hnone).
        intros H. inversion H; subst. eexists. split;
          [|cbn [created after_adding]; lia].
        pose proof (project_after_adding g pid iid p Hp) as Hp'.
        pose proof (is_issue_in_project_on_model _ _ iid _ Hp') as Hfind'.
        cbv zeta in Hfind'. unfold first_items, with_items in Hfind'.
        cbn [items] in Hfind'.
        rewrite firstn_app in Hfind'.
        replace (100 - List.length (items p)) with 0 in Hfind' by lia.
        rewrite firstn_O, app_nil_r in Hfind'.
        unfold first_items in Hpage. rewrite Hpage in Hfind'.
        cbn [map String.concat String.eqb] in Hfind'.
        rewrite (ensure_delegates _ _ _ _ _ _ _ Hfind').
        rewrite (add_returns_item_there_is
                   (after_adding pid iid g) pid iid _
                   {| item_id := fresh_item_id g; content := Some iid;
                      sprint := [] |} Hp' Hissue Hd).
        -- reflexivity.
        -- cbn [items with_items]. rewrite (find_app_last _ _ _ _ Hit).
           cbn [holds content]. rewrite String.eqb_refl. reflexivity.
Qed.

(** ** Lookups on the model *)


(** X12.  A title with no double quote, no backslash and no control
    character in it that one project of the first page has gives the
    descriptor of that project, with its id, number and title; a title that
    two or more have gives no project but an error: the lookup does not
    choose. *)
Theorem get_project_by_title_one_or_error :
  forall (g : state) (org t : string),
    jq_plain t = true ->
    existsb (String.eqb org) (orgs g) = true ->
    (forall p,
        filter (fun p => title p =? t) (first_projects org g) = [p] ->
        get_project_by_title org t g
        = (Ok (VDict [("id", VStr (project_id p)); ("number", VInt (number p));
                      ("title", VStr t)]), g,
           [Called (ProjectsByTitle org t) true]))
    /\ (forall p p' ps,
           filter (fun p => title p =? t) (first_projects org g) = p :: p' :: ps ->
           get_project_by_title org t g
           = (Raise (GitHubAPIError
                       [Lit "Failed to get project by title: ";
                        Exn JSONDecodeError]), g,
              [Called (ProjectsByTitle org t) true])).
Proof.
  intros g org t Hplain Horg. split.
  - intros p Hf.
    assert (Ht : title p = t).
    { assert (Hin : In p (filter (fun p => title p =? t) (first_projects org g)))
        by (rewrite Hf; left; reflexivity).
      apply filter_In in Hin. apply String.eqb_eq. exact (proj2 Hin). }
    unfold GitHubProjectAutomation.get_project_by_title.
    rewrite try_run, bind_run. unfold _run_gh_api.
    rewrite (title_lookup_plain g org t Hplain Horg), Hf. subst t.
    reflexivity.
  - intros p p' ps Hf.
    unfold GitHubProjectAutomation.get_project_by_title.
    rewrite try_run, bind_run. unfold _run_gh_api.
    rewrite (title_lookup_plain g org t Hplain Horg), Hf.
    reflexivity.
Qed.

(** X13.  [get_iteration_field] returns [None] exactly when none of the
    first 20 fields of the project is an iteration field named Iteration or
    Sprint, letter for letter; with one such field it returns that field,
    and with two it raises. *)
Theorem get_iteration_field_on_model :
  forall (g : state) (pid : string) (p : project),
    find_project pid (projects g) = Some p ->
    let seen := filter is_sprint_field (firstn 20 (fields p)) in
    let run := GitHubProjectAutomation.get_iteration_field state gh (VStr pid) g in
    (outcome_of run = Ok VNone <-> seen = [])
    /\ (forall f, seen = [f] -> outcome_of run = Ok (field_node f))
    /\ (forall f f' fs,
           seen = f :: f' :: fs ->
           outcome_of run
           = Raise (GitHubAPIError
                      [Lit "Failed to get iteration field: "; Exn JSONDecodeError]))
    /\ remote_of run = g
    /\ trace_of run = [Called (IterationFields (VStr pid)) true].
Proof.
  intros g pid p Hp seen run. subst seen run.
  unfold GitHubProjectAutomation.get_iteration_field.
  rewrite try_run, bind_run. unfold _run_gh_api, gh. rewrite Hp.
  destruct (filter is_sprint_field (firstn 20 (fields p))) as [|f [|f' fs]] eqn:Hf;
    cbn [map no_output json_loads ret raise outcome_of remote_of trace_of
         fst snd app].
  - repeat split; try reflexivity; discriminate.
  - repeat split; try reflexivity; try discriminate.
    + destruct f as [id name its done|]; [discriminate|].
      assert (Hin : In OtherField (filter is_sprint_field (firstn 20 (fields p))))
        by (rewrite Hf; left; reflexivity).
      apply filter_In in Hin. destruct Hin as [_ Hin]. discriminate.
    + intros f0 H. inversion H. reflexivity.
  - repeat split; try reflexivity; try discriminate.
Qed.

(** ** The build project, twice *)

(** On the model [ensure_issue_in_project] gives an item, and gives it
    again when asked again. *)
Lemma ensure_twice_on_model :
  forall g pid issue_id p,
    find_project pid (projects g) = Some p ->
    existsb (fun i => node_id i =? issue_id) (issues g) = true ->
    forallb (fun it => negb (item_id it =? "")) (items p) = true ->
    dedup g = true \/ List.length (items p) < 100 ->
    exists item g1 t1 t2,
      ensure_issue_in_project (VStr pid) issue_id g = (Ok item, g1, t1)
      /\ ensure_issue_in_project (VStr pid) issue_id g1 = (Ok item, g1, t2)
      /\ (item =? "") = false
      /\ (g1 = g \/ g1 = after_adding pid issue_id g).
Proof.
  intros g pid iid p Hp Hissue Hids Hcase.
  pose proof (is_issue_in_project_on_model g pid iid p Hp) as Hfind.
  cbv zeta in Hfind.
  destruct (String.concat (String newline "")
              (map item_id (filter (holds iid) (first_items p))) =? "")
    eqn:Hresult.
  2: { pose proof (ensure_returns_existing _ _ _ _ _ _ _ _ Hfind) as Hrun.
       do 4 eexists. repeat split; [exact Hrun | exact Hrun | exact Hresult |].
       left. reflexivity. }
  assert (Hpage : filter (holds iid) (first_items p) = []).
  { apply String.eqb_eq in Hresult.
    apply concat_ids_empty in Hresult; [exact Hresult|].
    apply forallb_filter. apply forallb_firstn. exact Hids. }
  pose proof (ensure_delegates _ _ _ _ _ _ _ Hfind) as Hrun.
  assert (Hnew : forall (Hnone : filter (holds iid) (items p) = []),
             (exists t2,
                 ensure_issue_in_project (VStr pid) iid (after_adding pid iid g)
                 = (Ok (fresh_item_id g), after_adding pid iid g, t2)) ->
             exists item g1 t1 t2,
               ensure_issue_in_project (VStr pid) iid g = (Ok item, g1, t1)
               /\ ensure_issue_in_project (VStr pid) iid g1 = (Ok item, g1, t2)
               /\ (item =? "") = false
               /\ (g1 = g \/ g1 = after_adding pid iid g)).
  { intros Hnone [t2 Hagain].
    rewrite (add_makes_item g pid iid p Hp Hissue Hnone) in Hrun.
    do 4 eexists. repeat split; [exact Hrun | exact Hagain | reflexivity |].
    right. reflexivity. }
  destruct (Nat.ltb_spec (List.length (items p)) 100) as [Hlen | Hlen].
  - assert (Hnone : filter (holds iid) (items p) = []).
    { unfold first_items in Hpage.
      rewrite firstn_all2 in Hpage by lia. exact Hpage. }
    apply (Hnew Hnone). eexists.
    apply ensure_returns_existing.
    apply (new_item_is_found g pid iid p Hp Hlen Hnone).
  - destruct Hcase as [Hd | Hlt]; [|lia].
    destruct (find (holds iid) (items p)) as [it|] eqn:Hit.
    + rewrite (add_returns_item_there_is g pid iid p it Hp Hissue Hd Hit) in Hrun.
      do 4 eexists. repeat split; [exact Hrun | exact Hrun | |left; reflexivity].
      apply find_some in Hit. destruct Hit as [Hin _].
      rewrite forallb_forall in Hids. apply Hids in Hin.
      apply negb_true_iff in Hin. exact Hin.
    + pose proof (find_none_filter_nil _ _ _ Hit) as Hnone.
      apply (Hnew Hnone). eexists.
      pose proof (project_after_adding g pid iid p Hp) as Hp'.
      pose proof (is_issue_in_project_on_model _ _ iid _ Hp') as Hfind'.
      cbv zeta in Hfind'. unfold first_items, with_items in Hfind'.
      cbn [items] in Hfind'.
      rewrite firstn_app in Hfind'.
      replace (100 - List.length (items p)) with 0 in Hfind' by lia.
      rewrite firstn_O, app_nil_r in Hfind'.
      unfold first_items in Hpage. rewrite Hpage in Hfind'.
      cbn [map String.concat String.eqb] in Hfind'.
      rewrite (ensure_delegates _ _ _ _ _ _ _ Hfind').
      rewrite (add_returns_item_there_is
                 (after_adding pid iid g) pid iid _
                 {| item_id := fresh_item_id g; content := Some iid;
                    sprint := [] |} Hp' Hissue Hd).
      * reflexivity.
      * cbn [items with_items]. rewrite (find_app_last _ _ _ _ Hit).
        cbn [holds content]. rewrite String.eqb_refl. reflexivity.
Qed.

Lemma get_issue_id_on_model :
  forall g repository n i,
    find_issue repository n g = Some i ->
    GitHubProjectAutomation.get_issue_id state gh repository n g
    = (Ok (node_id i), g, [Called (IssueNodeId repository n) true]).
Proof.
  intros g repository n i Hi. unfold GitHubProjectAutomation.get_issue_id.
  rewrite try_run. unfold _run_gh_api, gh. rewrite Hi. reflexivity.
Qed.

(** The title lookup sees the same projects after an item was added. *)
Lemma titles_after_adding :
  forall g pid issue_id org t p,
    filter (fun p => title p =? t) (first_projects org g) = [p] ->
    exists p',
      filter (fun p => title p =? t) (first_projects org (after_adding pid issue_id g))
      = [p']
      /\ project_node p' = project_node p.
Proof.
  intros g pid iid org t p Hf.
  unfold first_projects, after_adding, update_project in *. cbn [projects].
  set (upd := fun q : project =>
                if project_id q =? pid
                then with_items q
                       (items q ++ [ {| item_id := fresh_item_id g;
                                        content := Some iid;
                                        sprint := [] |} ])%list
                else q).
  assert (Hsame : forall q, owner (upd q) = owner q /\ title (upd q) = title q
                            /\ project_node (upd q) = project_node q).
  { intros q. unfold upd. destruct (project_id q =? pid); repeat split. }
  rewrite filter_map_swap.
  rewrite (filter_ext (fun q => owner (upd q) =? org) (fun q => owner q =? org))
    by (intros q; rewrite (proj1 (Hsame q)); reflexivity).
  rewrite firstn_map, filter_map_swap.
  rewrite (filter_ext (fun q => title (upd q) =? t) (fun q => title q =? t))
    by (intros q; rewrite (proj1 (proj2 (Hsame q))); reflexivity).
  rewrite Hf. exists (upd p). split; [reflexivity|].
  apply (proj2 (proj2 (Hsame p))).
Qed.

Lemma add_issue_to_build_project_on_model :
  forall g repository n org label i p pid item g1 t,
    find_issue repository n g = Some i ->
    jq_plain label = true ->
    existsb (String.eqb org) (orgs g) = true ->
    filter (fun p => title p =? label) (first_projects org g) = [p] ->
    project_id p = pid ->
    ensure_issue_in_project (VStr pid) (node_id i) g = (Ok item, g1, t) ->
    (item =? "") = false ->
    exists t',
      add_issue_to_build_project state gh repository n org label g
      = (Ok true, g1, t').
Proof.
  intros g repository n org label i p pid item g1 t Hi Hplain Horg Hf Hpid
         Hensure Hne.
  subst pid.
  assert (Hproject :
            get_project_by_title org label g
            = (Ok (project_node p), g, [Called (ProjectsByTitle org label) true])).
  { unfold GitHubProjectAutomation.get_project_by_title.
    rewrite try_run, bind_run. unfold _run_gh_api.
    rewrite (title_lookup_plain g org label Hplain Horg), Hf.
    reflexivity. }
  eexists. unfold add_issue_to_build_project.
  rewrite bind_run. cbn [print]. rewrite try_run, bind_run.
  rewrite (get_issue_id_on_model g repository n i Hi).
  rewrite bind_run. cbn [print]. rewrite bind_run, Hproject.
  unfold project_node at 1. cbn [truthy negb].
  rewrite bind_run. unfold project_node at 1.
  cbn [lift getitem assoc String.eqb Ascii.eqb Bool.eqb].
  rewrite bind_run. unfold project_node at 1.
  cbn [lift getitem assoc String.eqb Ascii.eqb Bool.eqb].
  rewrite bind_run. cbn [print]. rewrite bind_run. cbn [print].
  rewrite bind_run, Hensure, Hne. cbn [negb].
  rewrite bind_run. cbn [print ret]. reflexivity.
Qed.

(** X14.  Adding an issue to its build project twice in a row succeeds
    both times and makes at most one item: the second call finds the item
    of the first and leaves the remote as it is.  The label has no double
    quote, no backslash and no control character in it and is the title of
    one project on the first page, and the project is one whose items all
    fit the first page, or the remote answers a repeated addition with the
    item there is. *)
Theorem add_issue_to_build_project_twice :
  forall (g : state) (repository : string) (n : Z) (org label : string)
         (i : issue) (p : project),
    find_issue repository n g = Some i ->
    jq_plain label = true ->
    existsb (String.eqb org) (orgs g) = true ->
    filter (fun p => title p =? label) (first_projects org g) = [p] ->
    find_project (project_id p) (projects g) = Some p ->
    forallb (fun it => negb (item_id it =? "")) (items p) = true ->
    dedup g = true \/ List.length (items p) < 100 ->
    exists g1 t1 t2,
      add_issue_to_build_project state gh repository n org label g
      = (Ok true, g1, t1)
      /\ add_issue_to_build_project state gh repository n org label g1
         = (Ok true, g1, t2)
      /\ created g1 <= S (created g).
Proof.
  intros g repository n org label i p Hi Hplain Horg Hf Hp Hids Hcase.
  assert (Hissue : existsb (fun i0 => node_id i0 =? node_id i) (issues g) = true).
  { apply existsb_exists. exists i. split; [|apply String.eqb_refl].
    unfold find_issue in Hi. apply find_some in Hi. exact (proj1 Hi). }
  destruct (ensure_twice_on_model g (project_id p) (node_id i) p
                                  Hp Hissue Hids Hcase)
    as (item & g1 & t1 & t2 & Hfirst & Hsecond & Hne & Hg1).
  destruct (add_issue_to_build_project_on_model
              g repository n org label i p _ item g1 t1 Hi Hplain Horg Hf eq_refl
              Hfirst Hne)
    as [t1' Hrun1].
  exists g1, t1'.
  destruct Hg1 as [-> | ->].
  - destruct (add_issue_to_build_project_on_model
                g repository n org label i p _ item g t2 Hi Hplain Horg Hf eq_refl
                Hsecond Hne)
      as [t2' Hrun2].
    exists t2'. repeat split; [exact Hrun1 | exact Hrun2 | lia].
  - destruct (titles_after_adding g (project_id p) (node_id i) org label p Hf)
      as (p' & Hf' & Hnode).
    assert (Hid' : project_id p' = project_id p).
    { unfold project_node in Hnode. inversion Hnode. reflexivity. }
    destruct (add_issue_to_build_project_on_model
                (after_adding (project_id p) (node_id i) g)
                repository n org label i p' (project_id p) item
                (after_adding (project_id p) (node_id i) g) t2
                Hi Hplain Horg Hf' Hid' Hsecond Hne)
      as [t2' Hrun2].
    exists t2'. repeat split; [exact Hrun1 | exact Hrun2 |].
    cbn [created after_adding]. lia.
Qed.

End OnGitHub.

(** * The properties at work on the small organization *)

Section Runs.

Import GitHub GitHubProjectAutomation.

(** Issue 42 carries B16 and B17 and only B16 is the title of a project:
    one project is updated, by one new item and one iteration set, and the
    count is 1; B17 is skipped.  Issue 45 carries B15, B16 and B17: in B15,
    which has no iteration field, the iteration cannot be set, and the
    batch goes on to B16, where it is set, and to B17.  In an organization
    that is not there the batch ends at the first title lookup. *)
Lemma add_counts_each_build_label_run :
  outcome_of (process_sprint_for_build_labels
                state gh "NASA-PDS/registry" 42 "NASA-PDS" "add" Demo.world)
  = Ok 1%Z
  /\ 1%Z = tally iteration_set
             (trace_of (process_sprint_for_build_labels
                          state gh "NASA-PDS/registry" 42 "NASA-PDS" "add"
                          Demo.world))
  /\ filter is_mutation_call
            (trace_of (process_sprint_for_build_labels
                         state gh "NASA-PDS/registry" 42 "NASA-PDS" "add"
                         Demo.world))
     = [Called (AddItem (VStr "PVT_16") "I_42") true;
        Called (SetIteration (VStr "PVT_16") "PVTI_0" (VStr "PVTIF_1")
                             (VStr "it-7")) true]
  /\ for_each state ["B17"] (process_build_label state gh "NASA-PDS" "add" "I_42")
              1%Z Demo.world
     = (Ok 1%Z, Demo.world,
        [Printed stdout plain
           [Lit "Processing "; Lit "add"; Lit " for build: "; Lit "B17"];
         Called (ProjectsByTitle "NASA-PDS" "B17") true;
         Printed stdout warning
           [Lit "No project found for build '"; Lit "B17"; Lit "' - skipping"];
         Printed stdout plain []])
  /\ outcome_of (process_sprint_for_build_labels
                   state gh "NASA-PDS/registry" 45 "NASA-PDS" "add" Demo.mixed)
     = Ok 1%Z
  /\ filter looks_up_title
            (trace_of (process_sprint_for_build_labels
                         state gh "NASA-PDS/registry" 45 "NASA-PDS" "add"
                         Demo.mixed))
     = [Called (ProjectsByTitle "NASA-PDS" "B15") true;
        Called (ProjectsByTitle "NASA-PDS" "B16") true;
        Called (ProjectsByTitle "NASA-PDS" "B17") true]
  /\ filter sets_iteration
            (trace_of (process_sprint_for_build_labels
                         state gh "NASA-PDS/registry" 45 "NASA-PDS" "add"
                         Demo.mixed))
     = [Called (SetIteration (VStr "PVT_16") "PVTI_1" (VStr "PVTIF_1")
                             (VStr "it-7")) true]
  /\ outcome_of (for_each state ["B15"; "B16"]
                          (process_build_label state gh "NASA-PDS" "add" "I_45")
                          0%Z Demo.mixed)
     = Ok 1%Z
  /\ outcome_of (process_sprint_for_build_labels
                   state gh "NASA-PDS/registry" 42 "NASA" "add" Demo.world)
     = Raise (SystemExit 1)
  /\ ends_before_iteration
       (trace_of (process_sprint_for_build_labels
                    state gh "NASA-PDS/registry" 42 "NASA" "add" Demo.world)).
Proof.
  pose proof (add_counts_each_build_label
                state gh "NASA-PDS/registry" 42 "NASA-PDS" Demo.world)
    as (Hskip & _ & _ & Hcount & _ & _ & Htwo).
  pose proof (add_counts_each_build_label
                state gh "NASA-PDS/registry" 45 "NASA-PDS" Demo.mixed)
    as (_ & Hnext & _ & _ & Hall & _ & _).
  pose proof (add_counts_each_build_label
                state gh "NASA-PDS/registry" 42 "NASA" Demo.world)
    as (_ & _ & _ & _ & _ & Hexit & _).
  split; [|split; [|split; [|split]]].
  - pose (g1 := after_adding "PVT_16" "I_42" Demo.world).
    pose (g2 := remote_of (set_iteration_to_current
                             state gh (VStr "PVT_16") "PVTI_0" g1)).
    assert (Hitem : "PVTI_0" <> "") by discriminate.
    assert (Hset : set_iteration_to_current state gh (VStr "PVT_16") "PVTI_0" g1
                   = (Ok true, g2,
                      [Called (IterationFields (VStr "PVT_16")) true;
                       Called (SetIteration (VStr "PVT_16") "PVTI_0"
                                            (VStr "PVTIF_1") (VStr "it-7")) true]))
      by (vm_compute; reflexivity).
    assert (Hnone : gh (ProjectsByTitle "NASA-PDS" "B17") g2 = (Replied [], g2))
      by (vm_compute; reflexivity).
    exact (proj1 (Htwo "I_42" "B16" "B17" Demo.world Demo.world Demo.world
                       g1 g2 g2
                       [("id", VStr "PVT_16"); ("number", VInt 16);
                        ("title", VStr "B16")]
                       (VStr "PVT_16") (VInt 16) "PVTI_0"
                       [Called (IssueNodeId "NASA-PDS/registry" 42) true]
                       [Called (IssueLabels "NASA-PDS/registry" 42 "B") true]
                       [Called (ProjectsByTitle "NASA-PDS" "B16") true]
                       [Called (ItemsOfIssue (VStr "PVT_16") "I_42") true;
                        Called (AddItem (VStr "PVT_16") "I_42") true]
                       [Called (IterationFields (VStr "PVT_16")) true;
                        Called (SetIteration (VStr "PVT_16") "PVTI_0"
                                             (VStr "PVTIF_1") (VStr "it-7")) true]
                       eq_refl eq_refl eq_refl eq_refl eq_refl eq_refl
                       Hitem Hset Hnone)).
  - apply (Hcount 1%Z
             (remote_of (process_sprint_for_build_labels
                           state gh "NASA-PDS/registry" 42 "NASA-PDS" "add"
                           Demo.world))).
    vm_compute. reflexivity.
  - vm_compute. reflexivity.
  - rewrite (Hskip "I_42" "B17" [] 1%Z Demo.world Demo.world eq_refl).
    reflexivity.
  - split; [vm_compute; reflexivity|]. split; [|split; [|split; [|split]]].
    + apply (proj2 (Hall "I_45" "B15" ["B16"; "B17"] Demo.mixed Demo.mixed
                         [Called (IssueNodeId "NASA-PDS/registry" 45) true]
                         [Called (IssueLabels "NASA-PDS/registry" 45 "B") true]
                         eq_refl eq_refl)
                   1%Z
                   (remote_of (process_sprint_for_build_labels
                                 state gh "NASA-PDS/registry" 45 "NASA-PDS" "add"
                                 Demo.mixed))).
      vm_compute. reflexivity.
    + vm_compute. reflexivity.
    + assert (Hitem : "PVTI_0" <> "") by discriminate.
      rewrite (Hnext "I_45" "B15" ["B16"] 0%Z Demo.mixed Demo.mixed
                     (after_adding "PVT_15" "I_45" Demo.mixed)
                     (after_adding "PVT_15" "I_45" Demo.mixed)
                     [("id", VStr "PVT_15"); ("number", VInt 15);
                      ("title", VStr "B15")]
                     (VStr "PVT_15") (VInt 15) "PVTI_0" false
                     [Called (ProjectsByTitle "NASA-PDS" "B15") true]
                     [Called (ItemsOfIssue (VStr "PVT_15") "I_45") true;
                      Called (AddItem (VStr "PVT_15") "I_45") true]
                     [Called (IterationFields (VStr "PVT_15")) true;
                      Printed stderr warning [Lit "No Iteration field found"]]
                     eq_refl eq_refl eq_refl eq_refl Hitem eq_refl).
      vm_compute. reflexivity.
    + vm_compute. reflexivity.
    + apply (proj2 (Hexit 1%Z
                          (remote_of (process_sprint_for_build_labels
                                        state gh "NASA-PDS/registry" 42 "NASA"
                                        "add" Demo.world))
                          (trace_of (process_sprint_for_build_labels
                                       state gh "NASA-PDS/registry" 42 "NASA"
                                       "add" Demo.world))
                          ltac:(vm_compute; reflexivity))).
Defined.

(** A second [ensure_issue_in_project] for issue 42 and B16 returns the
    item the first one made. *)
Lemma ensure_issue_in_project_idempotent_run :
  let first := ensure_issue_in_project state gh (VStr "PVT_16") "I_42" Demo.world in
  first = (Ok "PVTI_0", remote_of first, trace_of first)
  /\ exists t2,
       ensure_issue_in_project state gh (VStr "PVT_16") "I_42" (remote_of first)
       = (Ok "PVTI_0", remote_of first, t2)
       /\ created (remote_of first) <= S (created Demo.world).
Proof.
  cbv zeta. split; [vm_compute; reflexivity|].
  apply (proj2 ensure_issue_in_project_idempotent
               Demo.world "PVT_16" "I_42" Demo.b16 eq_refl eq_refl
               (or_introl eq_refl)
               "PVTI_0" _
               (trace_of (ensure_issue_in_project
                            state gh (VStr "PVT_16") "I_42" Demo.world))).
  vm_compute. reflexivity.
Defined.

(** In B16 the first of the two open iterations is the one set. *)
Lemma set_iteration_to_current_takes_first_run :
  set_iteration_to_current state gh (VStr "PVT_16") "PVTI_b" Demo.world
  = (Ok true,
     snd (gh (SetIteration (VStr "PVT_16") "PVTI_b" (VStr "PVTIF_1") (VStr "it-7"))
             Demo.world),
     [Called (IterationFields (VStr "PVT_16")) true;
      Called (SetIteration (VStr "PVT_16") "PVTI_b" (VStr "PVTIF_1") (VStr "it-7"))
             true]).
Proof.
  exact (set_iteration_to_current_takes_first
           state gh (VStr "PVT_16") "PVTI_b" Demo.world Demo.world
           _ _ _ _ (VStr "PVTIF_1") (VStr "it-7")
           eq_refl eq_refl eq_refl eq_refl eq_refl).
Defined.

(** B15 has no iteration field. *)
Lemma set_iteration_to_current_nothing_to_set_run :
  gh (IterationFields (VStr "PVT_15")) Demo.world = (Replied [], Demo.world)
  /\ fails_after (IterationFields (VStr "PVT_15")) Demo.world
                 (set_iteration_to_current state gh (VStr "PVT_15") "PVTI_a"
                                           Demo.world).
Proof.
  split; [reflexivity|].
  apply (set_iteration_to_current_nothing_to_set
           state gh (VStr "PVT_15") "PVTI_a" Demo.world Demo.world []).
  - reflexivity.
  - left. reflexivity.
Defined.

(** B17 is the 101st project of the organization: the lookup does not see
    it. *)
Lemma get_project_by_title_none_iff_run :
  jq_plain "B17" = true
  /\ existsb (String.eqb "NASA-PDS") (orgs Demo.crowded) = true
  /\ In Demo.b17 (projects Demo.crowded)
  /\ outcome_of (get_project_by_title state gh "NASA-PDS" "B17" Demo.crowded)
     = Ok VNone.
Proof.
  split; [reflexivity|]. split; [reflexivity|]. split.
  - apply in_or_app. right. left. reflexivity.
  - apply (proj2 (proj1 (get_project_by_title_none_iff
                           Demo.crowded "NASA-PDS" "B17" eq_refl eq_refl))).
    change (forall p, In p (repeat Demo.other 100) -> title p <> "B17").
    intros p Hp. apply repeat_spec in Hp. subst p. discriminate.
Defined.

(** C5, as the script has it.  The title is written into the text of the
    filter as it is (line 132), and a title that is a program is run as
    one.  The organization has one project, B16, and none whose title is
    the text of the interpolation of [.title]; asked for that title,
    [get_project_by_title] does not return [None]: it returns B16. *)
Theorem get_project_by_title_spliced_title :
  existsb (String.eqb "NASA-PDS") (orgs Demo.solo) = true
  /\ (forall p,
         In p (firstn 100 (filter (fun p => owner p =? "NASA-PDS")
                                  (projects Demo.solo))) ->
         title p <> Demo.interpolated)
  /\ get_project_by_title state gh "NASA-PDS" Demo.interpolated Demo.solo
     = (Ok (VDict [("id", VStr "PVT_16"); ("number", VInt 16);
                   ("title", VStr "B16")]),
        Demo.solo,
        [Called (ProjectsByTitle "NASA-PDS" Demo.interpolated) true])
  /\ outcome_of (get_project_by_title state gh "NASA-PDS" Demo.interpolated
                                      Demo.solo)
     <> Ok VNone.
Proof.
  split; [reflexivity|]. split; [|split].
  - intros p [<- | []]. discriminate.
  - reflexivity.
  - discriminate.
Qed.

(** Issue 43 has no build label. *)
Lemma remove_without_build_labels_is_noop_run :
  exists t,
    process_sprint_for_build_labels
      state gh "NASA-PDS/registry" 43 "NASA-PDS" "remove" Demo.world
    = (Ok 0%Z, Demo.world, t)
    /\ tally is_mutation_call t = 0%Z
    /\ tally is_warning t = 0%Z
    /\ tally is_diagnostic t = 0%Z.
Proof.
  apply (remove_without_build_labels_is_noop
           state gh "NASA-PDS/registry" 43 "NASA-PDS"
           Demo.world Demo.world Demo.world "I_43"
           [Called (IssueNodeId "NASA-PDS/registry" 43) true]
           [Called (IssueLabels "NASA-PDS/registry" 43 "B") true]).
  - reflexivity.
  - reflexivity.
Defined.

(** C7, as stated, fails: [add-to-sprint] on issue 43, which has no build
    label, returns the count 0 and the process exits with 0, not with 1. *)
Lemma add_to_sprint_without_build_label_exits_zero :
  outcome_of (get_labels_by_prefix state gh "NASA-PDS/registry" 43 "B" Demo.world)
  = Ok []
  /\ outcome_of (process_sprint_for_build_labels
                   state gh "NASA-PDS/registry" 43 "NASA-PDS" "add" Demo.world)
     = Ok 0%Z
  /\ exit_code (outcome_of (main state gh Demo.add_to_sprint_43 Demo.world)) = 0%Z
  /\ exit_code (outcome_of (main state gh Demo.add_to_sprint_43 Demo.world)) <> 1%Z.
Proof.
  repeat split; try (vm_compute; reflexivity).
  vm_compute. discriminate.
Qed.

(** No project has the title B17: [add-to-build-project] exits with 1.
    Issue 7 has the build label B15 and B15 has no iteration field:
    [remove-from-sprint] updates nothing and exits with 1. *)
Lemma exit_code_of_main_run :
  exit_code (outcome_of (main state gh Demo.add_42_to_b17 Demo.world)) = 1%Z
  /\ exit_code (outcome_of (main state gh Demo.remove_from_sprint_7 Demo.world)) = 1%Z.
Proof.
  split.
  - apply (proj1 (exit_code_of_main state gh Demo.add_42_to_b17 Demo.world)
                 eq_refl eq_refl false
                 (remote_of (add_issue_to_build_project
                               state gh "NASA-PDS/registry" 42 "NASA-PDS" "B17"
                               Demo.world))
                 (trace_of (add_issue_to_build_project
                              state gh "NASA-PDS/registry" 42 "NASA-PDS" "B17"
                              Demo.world))).
    vm_compute. reflexivity.
  - assert (Hact : action Demo.remove_from_sprint_7 <> add_to_build_project)
      by discriminate.
    apply (proj2 (exit_code_of_main state gh Demo.remove_from_sprint_7 Demo.world)
                 Hact 0%Z
                 (remote_of (process_sprint_for_build_labels
                               state gh "NASA-PDS/registry" 7 "NASA-PDS" "remove"
                               Demo.world))
                 (trace_of (process_sprint_for_build_labels
                              state gh "NASA-PDS/registry" 7 "NASA-PDS" "remove"
                              Demo.world))).
    vm_compute. reflexivity.
Defined.

(** B15 has no iteration field; in B16 the item asked for is not there and
    the remote rejects the mutation. *)
Lemma clear_iteration_returns_boolean_run :
  clear_iteration state gh (VStr "PVT_15") "PVTI_a" Demo.world
  = (Ok false, Demo.world,
     [Called (IterationFields (VStr "PVT_15")) true;
      Printed stderr warning [Lit "No Sprint/Iteration field found"]])
  /\ clear_iteration state gh (VStr "PVT_16") "PVTI_gone" Demo.world
     = (Ok false, Demo.world,
        [Called (IterationFields (VStr "PVT_16")) true;
         Called (ClearIteration (VStr "PVT_16") "PVTI_gone" (VStr "PVTIF_1")) false;
         Printed stderr warning
           [Lit "Failed to clear iteration: ";
            Exn (GitHubAPIError [Lit "API call failed: ";
                                 Lit "Could not resolve to a node"])]]).
Proof.
  split.
  - apply (proj1 (proj2 (clear_iteration_returns_boolean
                           state gh (VStr "PVT_15") "PVTI_a" Demo.world))).
    reflexivity.
  - apply (proj2 (proj2 (clear_iteration_returns_boolean
                           state gh (VStr "PVT_16") "PVTI_gone" Demo.world))
                 _ (VStr "PVTIF_1") "Could not resolve to a node"
                 Demo.world Demo.world eq_refl eq_refl eq_refl).
Defined.

(** Issue 42 is not in B16 yet. *)
Lemma add_then_find_round_trip_run :
  exists item_id g1 t1 t2,
    add_issue_to_project state gh (VStr "PVT_16") "I_42" Demo.world
    = (Ok item_id, g1, t1)
    /\ is_issue_in_project state gh (VStr "PVT_16") "I_42" g1
       = (Ok (Some item_id), g1, t2).
Proof.
  apply (add_then_find_round_trip Demo.world "PVT_16" "I_42" Demo.b16).
  - reflexivity.
  - reflexivity.
  - cbn. lia.
  - reflexivity.
  - left. reflexivity.
Defined.

(** The first page of B18 is full: the item made for issue 42 is the 101st
    and the lookup that follows does not find it. *)
Lemma lookup_misses_item_beyond_first_page :
  let added := add_issue_to_project state gh (VStr "PVT_18") "I_42" Demo.full in
  outcome_of added = Ok "PVTI_0"
  /\ outcome_of (is_issue_in_project state gh (VStr "PVT_18") "I_42" (remote_of added))
     = Ok None.
Proof. vm_compute. split; reflexivity. Qed.

(** A field without ['id']: the [KeyError] is caught in both operations. *)
Lemma missing_key_is_failure_run :
  set_iteration_to_current unit Demo.nameless (VStr "PVT_16") "PVTI_b" tt
  = (Ok false, tt,
     [Called (IterationFields (VStr "PVT_16")) true;
      Printed stderr warning
        [Lit "Failed to set iteration: "; Exn (KeyError (VStr "id"))]])
  /\ clear_iteration unit Demo.nameless (VStr "PVT_16") "PVTI_b" tt
     = (Ok false, tt,
        [Called (IterationFields (VStr "PVT_16")) true;
         Printed stderr warning
           [Lit "Failed to clear iteration: "; Exn (KeyError (VStr "id"))]]).
Proof.
  apply (proj1 (missing_key_is_failure
                  unit Demo.nameless (VStr "PVT_16") "PVTI_b" tt tt
                  [("name", VStr "Sprint")] eq_refl)).
  - reflexivity.
  - discriminate.
Defined.

(** ** More runs *)

(** The build labels of issue 44, which has a label between them that is
    none: the output is the two lines B19 and B20. *)
Lemma get_labels_by_prefix_lines_run :
  gh (IssueLabels "NASA-PDS/registry" 44 "B") Demo.sprinted
  = (Replied ("B19" ++ String newline "B20"), Demo.sprinted)
  /\ exists labels,
       get_labels_by_prefix state gh "NASA-PDS/registry" 44 "B" Demo.sprinted
       = (Ok labels, Demo.sprinted,
          [Called (IssueLabels "NASA-PDS/registry" 44 "B") true])
       /\ Forall (fun label => label <> "" /\ newline_free label = true) labels
       /\ (exists lines,
              forallb newline_free lines = true
              /\ "B19" ++ String newline "B20"
                 = String.concat (String newline "") lines)
       /\ (forall lines,
              forallb newline_free lines = true ->
              "B19" ++ String newline "B20"
              = String.concat (String newline "") lines ->
              labels = filter (fun line => negb (line =? "")) lines).
Proof.
  split; [reflexivity|].
  apply (get_labels_by_prefix_lines
           state gh "NASA-PDS/registry" 44 "B" Demo.sprinted Demo.sprinted
           ("B19" ++ String newline "B20")).
  reflexivity.
Defined.

(** Removing issue 44 from its sprints sends no addition and no update;
    adding issue 42 sends no clearing. *)
Lemma process_sprint_sends_only_its_mutations_run :
  (tally adds_item
         (trace_of (process_sprint_for_build_labels
                      state gh "NASA-PDS/registry" 44 "NASA-PDS" "remove"
                      Demo.sprinted)) = 0%Z
   /\ tally sets_iteration
            (trace_of (process_sprint_for_build_labels
                         state gh "NASA-PDS/registry" 44 "NASA-PDS" "remove"
                         Demo.sprinted)) = 0%Z)
  /\ tally clears_iteration
           (trace_of (process_sprint_for_build_labels
                        state gh "NASA-PDS/registry" 42 "NASA-PDS" "add"
                        Demo.world)) = 0%Z.
Proof.
  split.
  - apply (proj1 (process_sprint_sends_only_its_mutations
                    state gh "NASA-PDS/registry" 44 "NASA-PDS" "remove"
                    Demo.sprinted)).
    reflexivity.
  - apply (proj2 (process_sprint_sends_only_its_mutations
                    state gh "NASA-PDS/registry" 42 "NASA-PDS" "add"
                    Demo.world)).
    reflexivity.
Defined.


(** Two build labels on issue 44, a count of 1. *)
Lemma count_is_at_most_the_build_labels_run :
  (0 <= 1 <= Z.of_nat (List.length ["B19"; "B20"]))%Z.
Proof.
  apply (count_is_at_most_the_build_labels
           state gh "NASA-PDS/registry" 44 "NASA-PDS" "remove"
           Demo.sprinted Demo.sprinted Demo.sprinted "I_44" ["B19"; "B20"]
           [Called (IssueNodeId "NASA-PDS/registry" 44) true]
           [Called (IssueLabels "NASA-PDS/registry" 44 "B") true]
           eq_refl eq_refl 1%Z
           (remote_of (process_sprint_for_build_labels
                         state gh "NASA-PDS/registry" 44 "NASA-PDS" "remove"
                         Demo.sprinted))
           (trace_of (process_sprint_for_build_labels
                        state gh "NASA-PDS/registry" 44 "NASA-PDS" "remove"
                        Demo.sprinted))).
  vm_compute. reflexivity.
Defined.

(** B20 has two iteration fields. *)
Lemma unusable_iteration_field_is_failure_run :
  exists ok cause,
    set_iteration_to_current state gh (VStr "PVT_20") "PVTI_e" Demo.sprinted
    = (Ok false, Demo.sprinted,
       [Called (IterationFields (VStr "PVT_20")) ok;
        Printed stderr warning
          [Lit "Failed to set iteration: ";
           Exn (GitHubAPIError
                  [Lit "Failed to get iteration field: "; Exn cause])]])
    /\ clear_iteration state gh (VStr "PVT_20") "PVTI_e" Demo.sprinted
       = (Ok false, Demo.sprinted,
          [Called (IterationFields (VStr "PVT_20")) ok;
           Printed stderr warning
             [Lit "Failed to clear iteration: ";
              Exn (GitHubAPIError
                     [Lit "Failed to get iteration field: "; Exn cause])]]).
Proof.
  apply (unusable_iteration_field_is_failure
           state gh (VStr "PVT_20") "PVTI_e" Demo.sprinted Demo.sprinted).
  right. do 3 eexists. reflexivity.
Defined.

(** An empty label, and an issue that is not there. *)
Lemma main_gives_up_early_run :
  main state gh Demo.add_to_build_project_unlabelled Demo.world
  = (Raise (SystemExit 1), Demo.world,
     [Printed stderr failure
        [Lit "--label is required for add-to-build-project action"]])
  /\ exit_code (outcome_of (main state gh Demo.add_to_sprint_99 Demo.world)) = 1%Z.
Proof.
  split.
  - apply (proj1 (main_gives_up_early
                    state gh Demo.add_to_build_project_unlabelled Demo.world));
      reflexivity.
  - assert (Hl : action Demo.add_to_sprint_99 = add_to_build_project ->
                 found (label Demo.add_to_sprint_99) = true) by discriminate.
    apply (proj2 (main_gives_up_early state gh Demo.add_to_sprint_99 Demo.world)
                 "Could not resolve to a node" Demo.world Hl eq_refl).
Defined.

(** Issue 43 again, with [add]. *)
Lemma add_without_build_labels_warns_run :
  exists t,
    process_sprint_for_build_labels
      state gh "NASA-PDS/registry" 43 "NASA-PDS" "add" Demo.world
    = (Ok 0%Z, Demo.world, t)
    /\ filter is_warning t
       = [Printed stdout warning [Lit "No build label found on issue"]]
    /\ tally looks_up_title t = 0%Z
    /\ tally is_mutation_call t = 0%Z
    /\ tally is_diagnostic t = 0%Z.
Proof.
  apply (add_without_build_labels_warns
           state gh "NASA-PDS/registry" 43 "NASA-PDS"
           Demo.world Demo.world Demo.world "I_43"
           [Called (IssueNodeId "NASA-PDS/registry" 43) true]
           [Called (IssueLabels "NASA-PDS/registry" 43 "B") true]
           eq_refl eq_refl).
Defined.

(** An organization that is not there: B16 is not reached, nor is B17. *)
Lemma rejected_lookup_ends_the_batch_run :
  outcome_of (process_sprint_for_build_labels
                state gh "NASA-PDS/registry" 42 "NASA" "add" Demo.world)
  = Raise (SystemExit 1)
  /\ filter is_call
            (trace_of (process_sprint_for_build_labels
                         state gh "NASA-PDS/registry" 42 "NASA" "add" Demo.world))
     = [Called (IssueNodeId "NASA-PDS/registry" 42) true;
        Called (IssueLabels "NASA-PDS/registry" 42 "B") true;
        Called (ProjectsByTitle "NASA" "B16") false].
Proof.
  pose proof (rejected_lookup_ends_the_batch
                state gh "NASA-PDS/registry" 42 "NASA" "add"
                Demo.world Demo.world Demo.world Demo.world "I_42" "B16" ["B17"]
                [Called (IssueNodeId "NASA-PDS/registry" 42) true]
                [Called (IssueLabels "NASA-PDS/registry" 42 "B") true]
                "Could not resolve to a node" eq_refl eq_refl eq_refl)
    as (Hout & _ & Hcalls & _).
  split; [exact Hout | exact Hcalls].
Defined.

(** No project has the title B17. *)
Lemma add_to_build_project_without_project_run :
  exists t,
    add_issue_to_build_project state gh "NASA-PDS/registry" 42 "NASA-PDS" "B17"
                               Demo.world
    = (Ok false, Demo.world, t)
    /\ filter is_call t
       = [Called (IssueNodeId "NASA-PDS/registry" 42) true;
          Called (ProjectsByTitle "NASA-PDS" "B17") true]
    /\ filter is_warning t
       = [Printed stdout warning
            [Lit "No project found with title '"; Lit "B17"; Lit "' - skipping"]]
    /\ main state gh Demo.add_42_to_b17 Demo.world
       = (Raise (SystemExit 1), Demo.world, t).
Proof.
  exact (add_to_build_project_without_project
           state gh Demo.add_42_to_b17 Demo.world Demo.world Demo.world "I_42"
           eq_refl eq_refl eq_refl eq_refl).
Defined.


(** B16 is the title of one project; B19 of two in the other
    organization. *)
Lemma get_project_by_title_one_or_error_run :
  get_project_by_title state gh "NASA-PDS" "B16" Demo.world
  = (Ok (VDict [("id", VStr "PVT_16"); ("number", VInt 16); ("title", VStr "B16")]),
     Demo.world, [Called (ProjectsByTitle "NASA-PDS" "B16") true])
  /\ get_project_by_title state gh "NASA-PDS" "B19" Demo.twins
     = (Raise (GitHubAPIError
                 [Lit "Failed to get project by title: "; Exn JSONDecodeError]),
        Demo.twins, [Called (ProjectsByTitle "NASA-PDS" "B19") true]).
Proof.
  split.
  - exact (proj1 (get_project_by_title_one_or_error
                    Demo.world "NASA-PDS" "B16" eq_refl eq_refl)
                 Demo.b16 eq_refl).
  - exact (proj2 (get_project_by_title_one_or_error
                    Demo.twins "NASA-PDS" "B19" eq_refl eq_refl)
                 Demo.b19 Demo.b19 [] eq_refl).
Defined.

(** B15 has no iteration field, B16 has one. *)
Lemma get_iteration_field_on_model_run :
  outcome_of (get_iteration_field state gh (VStr "PVT_15") Demo.world) = Ok VNone
  /\ outcome_of (get_iteration_field state gh (VStr "PVT_16") Demo.world)
     = Ok (field_node Demo.sprint_field).
Proof.
  split.
  - apply (proj2 (proj1 (get_iteration_field_on_model
                           Demo.world "PVT_15" Demo.b15 eq_refl))).
    reflexivity.
  - apply (proj1 (proj2 (get_iteration_field_on_model
                           Demo.world "PVT_16" Demo.b16 eq_refl))).
    reflexivity.
Defined.

(** Issue 42 and B16, twice. *)
Lemma add_issue_to_build_project_twice_run :
  exists g1 t1 t2,
    add_issue_to_build_project state gh "NASA-PDS/registry" 42 "NASA-PDS" "B16"
                               Demo.world
    = (Ok true, g1, t1)
    /\ add_issue_to_build_project state gh "NASA-PDS/registry" 42 "NASA-PDS" "B16"
                                  g1
       = (Ok true, g1, t2)
    /\ created g1 <= S (created Demo.world).
Proof.
  apply (add_issue_to_build_project_twice
           Demo.world "NASA-PDS/registry" 42 "NASA-PDS" "B16"
           Demo.issue42 Demo.b16 eq_refl eq_refl eq_refl eq_refl eq_refl eq_refl
           (or_introl eq_refl)).
Defined.

End Runs.
